(** * fastsocket: messages, dispatch and correlated sends

    A shallow embedding of the Python package [fastsocket]
    (message.py, server.py, client.py, utils.py) and of the handler of
    examples/server.py, and the properties of its message codec,
    handler fan-out, connection registry and sends.

    Python values are restricted to the JSON data model without floats;
    a [str] is a sequence of code points below 256.  What falls outside
    (a float literal, a code point above 255, a parser that runs out of
    fuel) is reported as [Unmodelled], which is not a Python exception
    and is never caught by [except]. *)

From Stdlib Require Import ZArith NArith String Ascii List Lia Bool.
From Stdlib Require Import Decimal DecimalFacts DecimalPos DecimalN.
From stdpp Require Import base option list strings gmap.

#[local] Set Warnings "-register-all".

Local Open Scope Z_scope.
Local Open Scope list_scope.

(** ** Outcomes of a Python computation *)

(** The exceptions that occur, all of them subclasses of [Exception]. *)
Inductive exn :=
| JSONDecodeError
| TypeError
| AttributeError (attr : string)
| InvalidStateError
| TimeoutError
| ConnectionClosed
| KeyError
| UserError (tag : nat).

(** [Blocked]: the task is still suspended in an [await] when the
    schedule under consideration ends. *)
Inductive Res (A : Type) :=
| Ok (a : A)
| Raise (e : exn)
| Unmodelled
| Blocked.

Arguments Ok {A} a.
Arguments Raise {A} e.
Arguments Unmodelled {A}.
Arguments Blocked {A}.

Definition res_bind {A B} (r : Res A) (k : A -> Res B) : Res B :=
  match r with
  | Ok a => k a
  | Raise e => Raise e
  | Unmodelled => Unmodelled
  | Blocked => Blocked
  end.

#[global] Instance Res_bind : MBind Res := fun A B k r => res_bind r k.
#[global] Instance Res_ret : MRet Res := fun A a => Ok a.
#[global] Instance Res_fmap : FMap Res := fun A B f r =>
  match r with
  | Ok a => Ok (f a)
  | Raise e => Raise e
  | Unmodelled => Unmodelled
  | Blocked => Blocked
  end.

(** ** The json module (standard library), default options

    [dumps] writes with the separators ", " and ": " and escapes what is
    not printable ASCII; [loads] is the strict decoder.  Integers have
    any size and values any depth: the limit that recent CPython
    versions put on the number of digits converted between [int] and
    [str] (4300 by default, ValueError beyond) and the recursion limit
    of the interpreter (RecursionError beyond) are not modelled, so
    that [dumps] and [loads] give a result here on such inputs where
    CPython raises. *)

Module json.

(** Python values that [json.loads] can produce, floats apart.  A [dict]
    keeps insertion order and has [str] keys. *)
Inductive value :=
| VNone
| VBool (b : bool)
| VInt (z : Z)
| VStr (s : string)
| VList (l : list value)
| VDict (d : list (string * value)).

Definition chars (s : string) : list ascii := list_ascii_of_string s.

(** The double quote. *)
Definition dquote : ascii := "034"%char.

(** A text between double quotes. *)
Definition quoted (s : string) : list ascii := dquote :: chars s ++ [dquote].

Fixpoint join (sep : list ascii) (parts : list (list ascii)) : list ascii :=
  match parts with
  | [] => []
  | [p] => p
  | p :: rest => p ++ sep ++ join sep rest
  end.

(** *** Encoder *)

Definition hex_digit (n : N) : ascii :=
  if (n <? 10)%N then ascii_of_N (48 + n) else ascii_of_N (87 + n).

(** [py_encode_basestring_ascii]: one character. *)
Definition escape_char (c : ascii) : list ascii :=
  let n := N_of_ascii c in
  if (c =? dquote)%char then ["\"%char; dquote]
  else if (c =? "\")%char then chars "\\"
  else if (n =? 10)%N then chars "\n"
  else if (n =? 13)%N then chars "\r"
  else if (n =? 9)%N then chars "\t"
  else if (n =? 8)%N then chars "\b"
  else if (n =? 12)%N then chars "\f"
  else if ((32 <=? n) && (n <=? 126))%N then [c]
  else chars "\u00" ++ [hex_digit (n / 16); hex_digit (n mod 16)].

Fixpoint escape (s : string) : list ascii :=
  match s with
  | EmptyString => []
  | String c s' => escape_char c ++ escape s'
  end.

Definition encode_str (s : string) : list ascii :=
  dquote :: escape s ++ [dquote].

Definition digit_char (d : N) : ascii := ascii_of_N (48 + d).

Fixpoint uint_chars (u : Decimal.uint) : list ascii :=
  match u with
  | Nil => []
  | D0 u => digit_char 0 :: uint_chars u
  | D1 u => digit_char 1 :: uint_chars u
  | D2 u => digit_char 2 :: uint_chars u
  | D3 u => digit_char 3 :: uint_chars u
  | D4 u => digit_char 4 :: uint_chars u
  | D5 u => digit_char 5 :: uint_chars u
  | D6 u => digit_char 6 :: uint_chars u
  | D7 u => digit_char 7 :: uint_chars u
  | D8 u => digit_char 8 :: uint_chars u
  | D9 u => digit_char 9 :: uint_chars u
  end.

(** [int.__repr__] *)
Definition repr_int (z : Z) : list ascii :=
  match z with
  | Z0 => uint_chars (N.to_uint 0)
  | Zpos p => uint_chars (N.to_uint (Npos p))
  | Zneg p => "-"%char :: uint_chars (N.to_uint (Npos p))
  end.

Fixpoint encode (v : value) : list ascii :=
  match v with
  | VNone => chars "null"
  | VBool true => chars "true"
  | VBool false => chars "false"
  | VInt z => repr_int z
  | VStr s => encode_str s
  | VList l => "["%char :: join (chars ", ") (map encode l) ++ ["]"%char]
  | VDict d =>
      "{"%char ::
      join (chars ", ")
           (map (fun kv => encode_str (fst kv) ++ chars ": " ++ encode (snd kv)) d)
      ++ ["}"%char]
  end.

(** [json.dumps(obj)] *)
Definition dumps (v : value) : string := string_of_list_ascii (encode v).

(** *** Decoder *)

Definition is_ws (c : ascii) : bool :=
  ((c =? " ") || (N_of_ascii c =? 9)%N || (N_of_ascii c =? 10)%N
   || (N_of_ascii c =? 13)%N)%char.

Fixpoint skip_ws (s : list ascii) : list ascii :=
  match s with
  | c :: r => if is_ws c then skip_ws r else s
  | [] => []
  end.

Definition hex_val (c : ascii) : option N :=
  let n := N_of_ascii c in
  if ((48 <=? n) && (n <=? 57))%N then Some (n - 48)%N
  else if ((97 <=? n) && (n <=? 102))%N then Some (n - 87)%N
  else if ((65 <=? n) && (n <=? 70))%N then Some (n - 55)%N
  else None.

Definition hex4 (a b c d : ascii) : option N :=
  match hex_val a, hex_val b, hex_val c, hex_val d with
  | Some x, Some y, Some z, Some w => Some (((x * 16 + y) * 16 + z) * 16 + w)%N
  | _, _, _, _ => None
  end.

(** The table BACKSLASH of json.decoder. *)
Definition BACKSLASH (e : ascii) : option ascii :=
  if (e =? dquote)%char then Some dquote
  else if (e =? "\")%char then Some "\"%char
  else if (e =? "/")%char then Some "/"%char
  else if (e =? "b")%char then Some (ascii_of_N 8)
  else if (e =? "f")%char then Some (ascii_of_N 12)
  else if (e =? "n")%char then Some (ascii_of_N 10)
  else if (e =? "r")%char then Some (ascii_of_N 13)
  else if (e =? "t")%char then Some (ascii_of_N 9)
  else None.

(** [scanstring], strict, entered after the opening quote. *)
Fixpoint scanstring (s : list ascii) : Res (string * list ascii) :=
  match s with
  | [] => Raise JSONDecodeError
  | c :: r =>
      if (c =? dquote)%char then Ok (EmptyString, r)
      else if (c =? "\")%char then
        match r with
        | [] => Raise JSONDecodeError
        | e :: r1 =>
            if (e =? "u")%char then
              match r1 with
              | h1 :: h2 :: h3 :: h4 :: r2 =>
                  match hex4 h1 h2 h3 h4 with
                  | Some n =>
                      if (n <? 256)%N then
                        '(str, rest) ← scanstring r2;
                        Ok (String (ascii_of_N n) str, rest)
                      else Unmodelled
                  | None => Raise JSONDecodeError
                  end
              | _ => Raise JSONDecodeError
              end
            else
              match BACKSLASH e with
              | Some ch =>
                  '(str, rest) ← scanstring r1;
                  Ok (String ch str, rest)
              | None => Raise JSONDecodeError
              end
        end
      else if (N_of_ascii c <? 32)%N then Raise JSONDecodeError
      else
        '(str, rest) ← scanstring r;
        Ok (String c str, rest)
  end.

Definition digit_val (c : ascii) : option N :=
  let n := N_of_ascii c in
  if ((48 <=? n) && (n <=? 57))%N then Some (n - 48)%N else None.

Definition is_digit (c : ascii) : bool :=
  match digit_val c with Some _ => true | None => false end.

Definition push_digit (d : N) (u : Decimal.uint) : Decimal.uint :=
  match d with
  | 0 => D0 u | 1 => D1 u | 2 => D2 u | 3 => D3 u | 4 => D4 u
  | 5 => D5 u | 6 => D6 u | 7 => D7 u | 8 => D8 u | _ => D9 u
  end%N.

(** The longest run of digits at the head of [s], and what follows. *)
Fixpoint scan_digits (s : list ascii) : Decimal.uint * list ascii :=
  match s with
  | c :: r =>
      match digit_val c with
      | Some d => let '(u, rest) := scan_digits r in (push_digit d u, rest)
      | None => (Nil, s)
      end
  | [] => (Nil, [])
  end.

(** Whether a fraction (a dot and a digit) or an exponent (e or E, an
    optional sign, a digit) follows the integer part of NUMBER_RE. *)
Definition float_follows (s : list ascii) : bool :=
  match s with
  | c :: d :: r =>
      if (c =? ".")%char then is_digit d
      else if ((c =? "e") || (c =? "E"))%char then
        if ((d =? "-") || (d =? "+"))%char then
          match r with
          | d' :: _ => is_digit d'
          | [] => false
          end
        else is_digit d
      else false
  | _ => false
  end.

(** The integer part of NUMBER_RE without its sign: a lone zero, or a
    digit from 1 to 9 followed by digits; [None] when it does not match. *)
Definition match_natural (s : list ascii) : option (N * list ascii) :=
  match s with
  | c :: r =>
      match digit_val c with
      | Some 0%N => Some (0%N, r)
      | Some d => let '(u, rest) := scan_digits r in
                  Some (N.of_uint (push_digit d u), rest)
      | None => None
      end
  | [] => None
  end.

Definition match_number (s : list ascii) : Res (value * list ascii) :=
  let '(neg, body) :=
    match s with
    | c :: r => if (c =? "-")%char then (true, r) else (false, s)
    | [] => (false, s)
    end in
  match match_natural body with
  | Some (n, rest) =>
      if float_follows rest then Unmodelled
      else Ok (VInt (if neg then - Z.of_N n else Z.of_N n), rest)
  | None => Raise JSONDecodeError
  end.

Fixpoint strip_prefix (p s : list ascii) : option (list ascii) :=
  match p, s with
  | [], _ => Some s
  | a :: p', b :: s' => if (a =? b)%char then strip_prefix p' s' else None
  | _ :: _, [] => None
  end.

Fixpoint dict_set (d : list (string * value)) (k : string) (v : value)
  : list (string * value) :=
  match d with
  | [] => [(k, v)]
  | (k', v') :: d' =>
      if String.eqb k' k then (k', v) :: d' else (k', v') :: dict_set d' k v
  end.

(** [dict(pairs)]: a later pair with a key already present replaces the
    value and keeps the place. *)
Definition dict_of_pairs (pairs : list (string * value)) : list (string * value) :=
  fold_left (fun d kv => dict_set d (fst kv) (snd kv)) pairs [].

(** [scan_once], with [JSONArray] and [JSONObject] after their first
    item has been found to exist.  One unit of fuel per call. *)
Fixpoint scan_once (fuel : nat) (s : list ascii) : Res (value * list ascii) :=
  match fuel with
  | O => Unmodelled
  | S fuel =>
      match s with
      | [] => Raise JSONDecodeError
      | c :: r =>
          if (c =? dquote)%char then
            '(str, rest) ← scanstring r; Ok (VStr str, rest)
          else if (c =? "{")%char then
            match skip_ws r with
            | c' :: r' =>
                if (c' =? "}")%char then Ok (VDict [], r')
                else
                  '(pairs, rest) ← object_items fuel (c' :: r');
                  Ok (VDict (dict_of_pairs pairs), rest)
            | [] => Raise JSONDecodeError
            end
          else if (c =? "[")%char then
            match skip_ws r with
            | c' :: r' =>
                if (c' =? "]")%char then Ok (VList [], r')
                else
                  '(items, rest) ← array_items fuel (c' :: r');
                  Ok (VList items, rest)
            | [] => Raise JSONDecodeError
            end
          else if (c =? "n")%char then
            match strip_prefix (chars "ull") r with
            | Some rest => Ok (VNone, rest)
            | None => Raise JSONDecodeError
            end
          else if (c =? "t")%char then
            match strip_prefix (chars "rue") r with
            | Some rest => Ok (VBool true, rest)
            | None => Raise JSONDecodeError
            end
          else if (c =? "f")%char then
            match strip_prefix (chars "alse") r with
            | Some rest => Ok (VBool false, rest)
            | None => Raise JSONDecodeError
            end
          else if (c =? "N")%char then
            match strip_prefix (chars "aN") r with
            | Some _ => Unmodelled
            | None => Raise JSONDecodeError
            end
          else if (c =? "I")%char then
            match strip_prefix (chars "nfinity") r with
            | Some _ => Unmodelled
            | None => Raise JSONDecodeError
            end
          else
            match strip_prefix (chars "-Infinity") s with
            | Some _ => Unmodelled
            | None => match_number s
            end
      end
  end

with array_items (fuel : nat) (s : list ascii) : Res (list value * list ascii) :=
  match fuel with
  | O => Unmodelled
  | S fuel =>
      '(v, r1) ← scan_once fuel s;
      match skip_ws r1 with
      | c :: r2 =>
          if (c =? "]")%char then Ok ([v], r2)
          else if (c =? ",")%char then
            '(items, rest) ← array_items fuel (skip_ws r2);
            Ok (v :: items, rest)
          else Raise JSONDecodeError
      | [] => Raise JSONDecodeError
      end
  end

with object_items (fuel : nat) (s : list ascii)
  : Res (list (string * value) * list ascii) :=
  match fuel with
  | O => Unmodelled
  | S fuel =>
      match s with
      | c :: r =>
          if (c =? dquote)%char then
            '(key, r1) ← scanstring r;
            match skip_ws r1 with
            | c1 :: r2 =>
                if (c1 =? ":")%char then
                  '(v, r3) ← scan_once fuel (skip_ws r2);
                  match skip_ws r3 with
                  | c2 :: r4 =>
                      if (c2 =? "}")%char then Ok ([(key, v)], r4)
                      else if (c2 =? ",")%char then
                        '(pairs, rest) ← object_items fuel (skip_ws r4);
                        Ok ((key, v) :: pairs, rest)
                      else Raise JSONDecodeError
                  | [] => Raise JSONDecodeError
                  end
                else Raise JSONDecodeError
            | [] => Raise JSONDecodeError
            end
          else Raise JSONDecodeError
      | [] => Raise JSONDecodeError
      end
  end.

(** [JSONDecoder.decode]: leading white space, one value, trailing white
    space, then the end of the text. *)
Definition decode (s : list ascii) : Res value :=
  '(v, rest) ← scan_once (S (length s)) (skip_ws s);
  match skip_ws rest with
  | [] => Ok v
  | _ :: _ => Raise JSONDecodeError
  end.

(** [json.loads(s)] *)
Definition loads (s : string) : Res value := decode (chars s).

(** *** Values a [dict] can hold: no key twice, at any depth *)

Fixpoint nodup_keys (ks : list string) : bool :=
  match ks with
  | [] => true
  | k :: ks' => negb (existsb (String.eqb k) ks') && nodup_keys ks'
  end.

Fixpoint wf (v : value) : bool :=
  match v with
  | VList l => forallb wf l
  | VDict d => nodup_keys (map fst d) && forallb (fun kv => wf (snd kv)) d
  | _ => true
  end.

(** A character of ASCII. *)
Definition ascii7 (c : ascii) : bool := (N_of_ascii c <? 128)%N.

(** *** Shapes of encoded text, for the round trip *)

(** A delimiter of the encoder's output follows: the end of the text, a
    comma or a closing bracket. *)
Definition closes (rest : list ascii) : bool :=
  match rest with
  | [] => true
  | c :: _ => ((c =? ",") || (c =? "]") || (c =? "}"))%char
  end.

(** The text opens a value: its first character is no white space and
    closes nothing. *)
Definition opens (s : list ascii) : bool :=
  match s with
  | [] => false
  | c :: _ => (negb (is_ws c) && negb (c =? "]") && negb (c =? "}"))%char
  end.

(** The text starts like the integer part of a number. *)
Definition number_shape (s : list ascii) : bool :=
  match s with
  | c :: tl =>
      is_digit c
      || ((c =? "-")%char && match tl with d :: _ => is_digit d | [] => false end)
  | [] => false
  end.

Definition sep : list ascii := chars ", ".

Definition encode_pair (kv : string * value) : list ascii :=
  encode_str (fst kv) ++ chars ": " ++ encode (snd kv).

(** With [fuel], the decoder reads back every value, every non-empty
    array body and every non-empty object body that the encoder wrote in
    fewer characters. *)
Definition decodes_values (fuel : nat) : Prop :=
  forall (v : value) (rest : list ascii),
    wf v = true -> (length (encode v) <= fuel)%nat -> closes rest = true ->
    scan_once fuel (encode v ++ rest) = Ok (v, rest).

Definition decodes_arrays (fuel : nat) : Prop :=
  forall (l : list value) (rest : list ascii),
    l <> [] -> forallb wf l = true ->
    (S (length (join sep (map encode l))) <= fuel)%nat ->
    array_items fuel (join sep (map encode l) ++ "]"%char :: rest) = Ok (l, rest).

Definition decodes_objects (fuel : nat) : Prop :=
  forall (d : list (string * value)) (rest : list ascii),
    d <> [] -> forallb (fun kv => wf (snd kv)) d = true ->
    (S (length (join sep (map encode_pair d))) <= fuel)%nat ->
    object_items fuel (join sep (map encode_pair d) ++ "}"%char :: rest) = Ok (d, rest).

End json.

Import json.

(** ** Objects, the event loop and the interpreter state *)

(** A Message object.  [data] is the address of the object the attribute
    refers to (a dict, as a rule), so that two Messages can share it;
    [uuid] and [code] hold their values. *)
Record Message := { uuid : value; code : value; data : nat }.

(** The state of an [asyncio.Future]. *)
Inductive future :=
| Pending
| Result (m : Message)
| Cancelled.

(** What a handler is called with: a Message, and on the server the
    connection it came from. *)
Inductive object :=
| Msg (m : Message)
| Sock (ws : nat).

(** A registered handler.  [body] is what running it does: [None] when
    it runs to its end, [Some e] when it raises [e].  A handler runs in
    one piece here; how handlers interleave is not modelled. *)
Record Callable := {
  __name__ : string;
  iscoroutinefunction : bool;
  body : list object -> option exn
}.

Definition Task : Type := Callable * list object.

(** What calling a handler returns: a coroutine object when it is a
    coroutine function (nothing has run yet), [None] otherwise. *)
Inductive returned :=
| Coroutine (t : Task)
| NoneObject.

Inductive level := DEBUG | INFO | WARNING | ERROR | CRITICAL.

(** The calls made on the loggers, one constructor per call site. *)
Inductive record :=
| Dispatching (text : string)
| Processing (raw : string)
| Sending (text : string)
| ErrorProcessing (raw : string) (e : exn)
| TimeoutWaiting (id : value)
| NotConnected
| ConnectedTo (url : string)
| Disconnected
| ConnectionToServerClosed
| GotNewConnection (path : string)
| ConnectionDisconnected (path : string).

Record World := mkWorld {
  heap : list value;          (* objects a [data] attribute may refer to *)
  urandom : nat -> Z;         (* the draws of os.urandom(16), in order *)
  drawn : nat;                (* how many have been taken *)
  futures : list future;      (* the Future objects, by address *)
  ready : list Task;          (* tasks scheduled by a gather call that failed *)
  started : list (string * list object);  (* handler bodies entered, oldest first *)
  log : list (level * record);
  now : N;                    (* loop.time(), in ticks *)
  reader : bool               (* the task made by Client.connect is running *)
}.

Definition with_heap (f : list value -> list value) (w : World) : World :=
  mkWorld (f (heap w)) (urandom w) (drawn w) (futures w) (ready w) (started w)
          (log w) (now w) (reader w).
Definition with_drawn (f : nat -> nat) (w : World) : World :=
  mkWorld (heap w) (urandom w) (f (drawn w)) (futures w) (ready w) (started w)
          (log w) (now w) (reader w).
Definition with_futures (f : list future -> list future) (w : World) : World :=
  mkWorld (heap w) (urandom w) (drawn w) (f (futures w)) (ready w) (started w)
          (log w) (now w) (reader w).
Definition with_ready (f : list Task -> list Task) (w : World) : World :=
  mkWorld (heap w) (urandom w) (drawn w) (futures w) (f (ready w)) (started w)
          (log w) (now w) (reader w).
Definition with_started
  (f : list (string * list object) -> list (string * list object)) (w : World) : World :=
  mkWorld (heap w) (urandom w) (drawn w) (futures w) (ready w) (f (started w))
          (log w) (now w) (reader w).
Definition with_log (f : list (level * record) -> list (level * record)) (w : World)
  : World :=
  mkWorld (heap w) (urandom w) (drawn w) (futures w) (ready w) (started w)
          (f (log w)) (now w) (reader w).
Definition with_now (f : N -> N) (w : World) : World :=
  mkWorld (heap w) (urandom w) (drawn w) (futures w) (ready w) (started w)
          (log w) (f (now w)) (reader w).
Definition with_reader (b : bool) (w : World) : World :=
  mkWorld (heap w) (urandom w) (drawn w) (futures w) (ready w) (started w)
          (log w) (now w) b.

(** ** Computations: state and exceptions *)

Definition M (S A : Type) : Type := S -> Res A * S.

#[global] Instance M_ret {S} : MRet (M S) := fun A a s => (Ok a, s).

#[global] Instance M_bind {S} : MBind (M S) := fun A B k m s =>
  match m s with
  | (Ok a, s') => k a s'
  | (Raise e, s') => (Raise e, s')
  | (Unmodelled, s') => (Unmodelled, s')
  | (Blocked, s') => (Blocked, s')
  end.

Definition raise {S A} (e : exn) : M S A := fun s => (Raise e, s).
Definition blocked {S A} : M S A := fun s => (Blocked, s).
Definition unmodelled {S A} : M S A := fun s => (Unmodelled, s).
Definition gets {S A} (f : S -> A) : M S A := fun s => (Ok (f s), s).
Definition modify {S} (f : S -> S) : M S unit := fun s => (Ok tt, f s).
Definition lift {S A} (r : Res A) : M S A := fun s => (r, s).

(** [try: body  except Exception as e: handler e] *)
Definition try_except {S A} (body : M S A) (handler : exn -> M S A) : M S A :=
  fun s =>
    match body s with
    | (Raise e, s') => handler e s'
    | other => other
    end.

(** [try: body  finally: fin].  A task that is still blocked inside
    [body] has not reached [fin]. *)
Definition try_finally {S A} (body : M S A) (fin : M S unit) : M S A :=
  fun s =>
    match body s with
    | (Ok a, s') => (_ ← fin; mret a) s'
    | (Raise e, s') => (_ ← fin; raise e) s'
    | (Unmodelled, s') => (Unmodelled, s')
    | (Blocked, s') => (Blocked, s')
    end.

(** [for x in l: b = f b x], stopping at the first exception. *)
Fixpoint foldM {S A B} (f : B -> A -> M S B) (l : list A) (b : B) : M S B :=
  match l with
  | [] => mret b
  | x :: l' => b' ← f b x; foldM f l' b'
  end.

Definition logger (lv : level) (r : record) : M World unit :=
  modify (with_log (fun l => l ++ [(lv, r)])).

(** *** Dictionary keys *)

(** Hashable values up to Python's equality: [True == 1], [False == 0]. *)
Inductive key :=
| KNone
| KInt (z : Z)
| KStr (s : string).

#[global] Instance key_eq_dec : EqDecision key.
Proof. solve_decision. Defined.

#[global] Instance key_countable : Countable key :=
  inj_countable'
    (fun k => match k with
              | KNone => inl tt
              | KInt z => inr (inl z)
              | KStr s => inr (inr s)
              end)
    (fun x => match x with
              | inl _ => KNone
              | inr (inl z) => KInt z
              | inr (inr s) => KStr s
              end)
    (fun k => match k with KNone | KInt _ | KStr _ => eq_refl end).

(** [hash(v)]: lists and dicts are unhashable. *)
Definition hash_key (v : value) : Res key :=
  match v with
  | VNone => Ok KNone
  | VBool b => Ok (KInt (if b then 1 else 0))
  | VInt z => Ok (KInt z)
  | VStr s => Ok (KStr s)
  | VList _ | VDict _ => Raise TypeError
  end.

(** *** asyncio *)

(** Calling a handler.  A coroutine function hands back a coroutine
    object; any other function runs at once and returns [None]. *)
Definition call (f : Callable) (args : list object) : M World returned :=
  if iscoroutinefunction f then mret (Coroutine (f, args))
  else
    _ ← modify (with_started (fun l => l ++ [(__name__ f, args)]));
    match body f args with
    | Some e => raise e
    | None => mret NoneObject
    end.

(** A task runs its coroutine. *)
Definition step (t : Task) : M World unit :=
  _ ← modify (with_started (fun l => l ++ [(__name__ (fst t), snd t)]));
  match body (fst t) (snd t) with
  | Some e => raise e
  | None => mret tt
  end.

(** The loop runs the tasks left in [ready]; nobody awaits them, what
    they raise is dropped. *)
Definition run_ready : M World unit :=
  fun w =>
    (Ok tt, with_ready (fun _ => [])
              (fold_left (fun w' t => snd (step t w')) (ready w) w)).

(** The children of a gather, all run, then the first exception if any
    (return_exceptions is False). *)
Fixpoint run_children (cs : list Task) : M World unit :=
  match cs with
  | [] => mret tt
  | t :: rest =>
      fun w =>
        match step t w with
        | (Raise e, w') => (Raise e, snd (run_children rest w'))
        | (_, w') => run_children rest w'
        end
  end.

(** The coroutines in front of the first argument that is not
    awaitable, and whether there is such an argument. *)
Fixpoint to_tasks (aws : list returned) : list Task * bool :=
  match aws with
  | [] => ([], false)
  | Coroutine t :: rest => let '(ts, bad) := to_tasks rest in (t :: ts, bad)
  | NoneObject :: _ => ([], true)
  end.

(** [await asyncio.gather] on the arguments [aws].  gather wraps its
    arguments in tasks from left to right and raises TypeError at one
    that is not awaitable; the tasks made before it stay scheduled. *)
Definition gather (aws : list returned) : M World unit :=
  let '(ts, bad) := to_tasks aws in
  if bad then
    _ ← modify (with_ready (fun q => q ++ ts)); raise TypeError
  else
    _ ← run_ready; run_children ts.

Definition create_future : M World nat :=
  fun w => (Ok (length (futures w)), with_futures (fun l => l ++ [Pending]) w).

(** [fut.set_result(m)] *)
Definition set_result (fut : nat) (m : Message) : M World unit :=
  fun w =>
    match futures w !! fut with
    | Some Pending => (Ok tt, with_futures (fun l => <[fut := Result m]> l) w)
    | Some _ => (Raise InvalidStateError, w)
    | None => (Unmodelled, w)
    end.

(** [fut.cancel()] *)
Definition cancel (fut : nat) : M World unit :=
  fun w =>
    match futures w !! fut with
    | Some Pending => (Ok tt, with_futures (fun l => <[fut := Cancelled]> l) w)
    | _ => (Ok tt, w)
    end.

(** *** uuid *)

(** [int(uuid.uuid4())]: 16 random bytes with the variant and version
    bits of a version 4 UUID. *)
Definition uuid4_int (r : Z) : Z :=
  let i := r mod 2 ^ 128 in
  let i := Z.land i (Z.lnot (Z.shiftl 0xc000 48)) in
  let i := Z.lor i (Z.shiftl 0x8000 48) in
  let i := Z.land i (Z.lnot (Z.shiftl 0xf000 64)) in
  Z.lor i (Z.shiftl 4 76).

Definition uuid4 : M World Z :=
  fun w => (Ok (uuid4_int (urandom w (drawn w))), with_drawn S w).

(** *** An object and the world around it *)

Record Sys (T : Type) := mkSys { self : T; world : World }.
Arguments mkSys {T} _ _.
Arguments self {T} _.
Arguments world {T} _.

Definition in_world {T A} (m : M World A) : M (Sys T) A :=
  fun s => let '(r, w) := m (world s) in (r, mkSys (self s) w).

Definition on_self {T} (f : T -> T) : M (Sys T) unit :=
  modify (fun s => mkSys (f (self s)) (world s)).

(** *** Objects in the heap *)

Definition alloc (v : value) : M World nat :=
  fun w => (Ok (length (heap w)), with_heap (fun h => h ++ [v]) w).

Definition deref (l : nat) : M World value :=
  fun w =>
    match heap w !! l with
    | Some v => (Ok v, w)
    | None => (Unmodelled, w)
    end.

(** [obj[k] = v] on the object at address [l]; only a dict takes a
    [str] subscript. *)
Definition setitem (l : nat) (k : string) (v : value) : M World unit :=
  fun w =>
    match heap w !! l with
    | Some (VDict d) => (Ok tt, with_heap (fun h => <[l := VDict (dict_set d k v)]> h) w)
    | Some _ => (Raise TypeError, w)
    | None => (Unmodelled, w)
    end.

(** ** message.py *)

Module Message.

(** The objects bound to the defaults of [__init__]: Python evaluates
    [int(uuid.uuid4())] and [{}] when the [def] statement runs, and
    every later call that omits the argument gets that same object. *)
Record defaults := { default_uuid : value; default_data : nat }.

(** Running the class body (importing the module). *)
Definition define : M World defaults :=
  r ← uuid4;
  l ← alloc (VDict []);
  mret {| default_uuid := VInt r; default_data := l |}.

(** [Message(code, uuid, data)]; [None] for an argument left out. *)
Definition __init__ (cls : defaults) (code : value) (uuid : option value)
  (data : option nat) : Message :=
  {| uuid := default (default_uuid cls) uuid;
     code := code;
     data := default (default_data cls) data |}.

Definition parameters : list string := ["code"; "uuid"; "data"].

Definition keyword (k : string) (d : list (string * value)) : option value :=
  snd <$> find (fun kv => String.eqb (fst kv) k) d.

(** [cls( **kw)]: every key must name a parameter and [code] has no
    default; the value given for [data] is an object of its own. *)
Definition construct (cls : defaults) (kw : value) : M World Message :=
  match kw with
  | VDict d =>
      if forallb (fun kv => existsb (String.eqb (fst kv)) parameters) d then
        match keyword "code" d with
        | Some c =>
            l ← match keyword "data" d with
                | Some v => a ← alloc v; mret (Some a)
                | None => mret None
                end;
            mret (__init__ cls c (keyword "uuid" d) l)
        | None => raise TypeError
        end
      else raise TypeError
  | _ => raise TypeError
  end.

Definition from_json (cls : defaults) (string : string) : M World Message :=
  kw ← lift (json.loads string);
  construct cls kw.

Definition to_dict (m : Message) : M World value :=
  d ← deref (data m);
  mret (VDict [("uuid"%string, uuid m); ("code"%string, code m); ("data"%string, d)]).

Definition to_json (m : Message) : M World string :=
  d ← to_dict m;
  mret (json.dumps d).

End Message.

(** ** server.py *)

Module Server.

Record t := {
  _host : string;
  _port : Z;
  _registed_callbacks : gmap key (list Callable);
  _connections : gmap key nat
}.

Definition __init__ (host : string) (port : Z) : t :=
  {| _host := host; _port := port; _registed_callbacks := ∅; _connections := ∅ |}.

Definition set_callbacks (f : gmap key (list Callable) -> gmap key (list Callable))
  (s : t) : t :=
  {| _host := _host s; _port := _port s;
     _registed_callbacks := f (_registed_callbacks s);
     _connections := _connections s |}.

Definition set_connections (f : gmap key nat -> gmap key nat) (s : t) : t :=
  {| _host := _host s; _port := _port s;
     _registed_callbacks := _registed_callbacks s;
     _connections := f (_connections s) |}.

Definition on_message (code : value) (func : Callable) : M (Sys t) unit :=
  k ← lift (hash_key code);
  on_self (set_callbacks (fun cbs => <[k := default [] (cbs !! k) ++ [func]]> cbs)).

Definition on (code : value) (func : Callable) : M (Sys t) Callable :=
  _ ← on_message code func;
  mret func.

Definition _dispatch_message (msg : Message) (ws : nat) : M (Sys t) unit :=
  text ← in_world (Message.to_json msg);
  _ ← in_world (logger DEBUG (Dispatching text));
  tasks ← foldM
    (fun tasks message_code =>
       k ← lift (hash_key message_code);
       cbs ← gets (fun s => _registed_callbacks (self s));
       foldM (fun tasks func =>
                r ← in_world (call func [Msg msg; Sock ws]);
                mret (tasks ++ [r]))
             (default [] (cbs !! k)) tasks)
    [code msg; VStr "ALL"] [];
  match tasks with
  | [] => mret tt
  | _ :: _ => in_world (gather tasks)
  end.

Section WithMessage.
Variable cls : Message.defaults.

Definition _process_message (ws : nat) (message : string) : M (Sys t) unit :=
  _ ← in_world (logger DEBUG (Processing message));
  try_except
    (msg ← in_world (Message.from_json cls message);
     _dispatch_message msg ws)
    (fun e => in_world (logger ERROR (ErrorProcessing message e))).

(** [path[1:]] *)
Definition tail (path : string) : string :=
  match path with
  | String _ rest => rest
  | EmptyString => EmptyString
  end.

(** The loop [async for message in ws: await self._process_message(ws,
    message)] over the frames the connection delivers.  Before each
    receive the event loop is idle and runs what is scheduled. *)
Definition receive (ws : nat) (frames : list string) : M (Sys t) unit :=
  foldM (fun _ message =>
           _ ← in_world run_ready;
           _process_message ws message) frames tt.

(** One connection: the frames it delivers, then its closure ([clean]
    for a normal one, which ends the iteration; otherwise the iteration
    raises ConnectionClosed). *)
Definition _handle_connection (ws : nat) (path : string) (frames : list string)
  (clean : bool) : M (Sys t) unit :=
  _ ← in_world (logger INFO (GotNewConnection path));
  _ ← on_self (set_connections (fun c => <[KStr (tail path) := ws]> c));
  try_finally
    (_ ← receive ws frames;
     _ ← in_world run_ready;
     if clean then mret tt else raise ConnectionClosed)
    (_ ← in_world (logger INFO (ConnectionDisconnected path));
     c ← gets (fun s => _connections (self s));
     match c !! KStr (tail path) with
     | Some _ => on_self (set_connections (fun c => delete (KStr (tail path)) c))
     | None => raise KeyError
     end).

End WithMessage.

End Server.

(** ** client.py *)

Module Client.

(** The connection object: whether it is open, and what was sent. *)
Record WebSocket := { open : bool; outbox : list string }.

Record t := {
  _url : string;
  _registed_callbacks : gmap key (list Callable);
  _websocket : option WebSocket;
  _response_futures : gmap key nat
}.

Definition __init__ (url : string) : t :=
  {| _url := url; _registed_callbacks := ∅; _websocket := None;
     _response_futures := ∅ |}.

Definition set_callbacks (f : gmap key (list Callable) -> gmap key (list Callable))
  (s : t) : t :=
  {| _url := _url s; _registed_callbacks := f (_registed_callbacks s);
     _websocket := _websocket s; _response_futures := _response_futures s |}.

Definition set_websocket (f : option WebSocket -> option WebSocket) (s : t) : t :=
  {| _url := _url s; _registed_callbacks := _registed_callbacks s;
     _websocket := f (_websocket s); _response_futures := _response_futures s |}.

Definition set_futures (f : gmap key nat -> gmap key nat) (s : t) : t :=
  {| _url := _url s; _registed_callbacks := _registed_callbacks s;
     _websocket := _websocket s; _response_futures := f (_response_futures s) |}.

(** What [self.name] evaluates to. *)
Inductive attribute :=
| AStr (s : string)
| ACallbacks (d : gmap key (list Callable))
| ASocket (ws : option WebSocket)
| AFutures (d : gmap key nat)
| ALogger
| AMethod (name : string).

Definition methods : list string :=
  ["__init__"; "on_message"; "on"; "connect"; "disconnect"; "_message_handler";
   "_process_message"; "_dispatch_message"; "send_msg"; "__aenter__"; "__aexit__"]%string.

(** Attribute lookup on a Client: the five attributes that [__init__]
    assigns, then the methods of the class; anything else raises
    AttributeError. *)
Definition getattr (s : t) (name : string) : Res attribute :=
  if String.eqb name "_url" then Ok (AStr (_url s))
  else if String.eqb name "_registed_callbacks" then Ok (ACallbacks (_registed_callbacks s))
  else if String.eqb name "_logger" then Ok ALogger
  else if String.eqb name "_websocket" then Ok (ASocket (_websocket s))
  else if String.eqb name "_response_futures" then Ok (AFutures (_response_futures s))
  else if existsb (String.eqb name) methods then Ok (AMethod name)
  else Raise (AttributeError name).

(** [a.get(k, [])] followed by iteration over the result. *)
Definition get_handlers (a : attribute) (k : value) : Res (list Callable) :=
  match a with
  | ACallbacks d => k' ← hash_key k; Ok (default [] (d !! k'))
  | AFutures _ => Unmodelled
  | _ => Raise (AttributeError "get")
  end.

Definition on_message (code : value) (func : Callable) : M (Sys t) unit :=
  k ← lift (hash_key code);
  on_self (set_callbacks (fun cbs => <[k := default [] (cbs !! k) ++ [func]]> cbs)).

Definition on (code : value) (func : Callable) : M (Sys t) Callable :=
  _ ← on_message code func;
  mret func.

Definition connect : M (Sys t) unit :=
  _ ← on_self (set_websocket (fun _ => Some {| open := true; outbox := [] |}));
  url ← gets (fun s => _url (self s));
  _ ← in_world (logger INFO (ConnectedTo url));
  in_world (modify (with_reader true)).

Definition close (ws : WebSocket) : WebSocket :=
  {| open := false; outbox := outbox ws |}.

Definition disconnect : M (Sys t) unit :=
  ws ← gets (fun s => _websocket (self s));
  match ws with
  | Some _ =>
      _ ← on_self (set_websocket (fmap close));
      _ ← in_world (modify (with_reader false));
      in_world (logger INFO Disconnected)
  | None => mret tt
  end.

Definition _dispatch_message (msg : Message) : M (Sys t) unit :=
  text ← in_world (Message.to_json msg);
  _ ← in_world (logger DEBUG (Dispatching text));
  tasks ← foldM
    (fun tasks event_type =>
       s ← gets self;
       events ← lift (getattr s "_events");
       funcs ← lift (get_handlers events event_type);
       foldM (fun tasks func =>
                if iscoroutinefunction func then
                  r ← in_world (call func [Msg msg]);
                  mret (tasks ++ [r])
                else
                  _ ← in_world (call func [Msg msg]);
                  mret tasks)
             funcs tasks)
    [code msg; VStr "ALL"] [];
  match tasks with
  | [] => mret tt
  | _ :: _ => in_world (gather tasks)
  end.

Section WithMessage.
Variable cls : Message.defaults.

Definition _process_message (message : string) : M (Sys t) unit :=
  try_except
    (msg ← in_world (Message.from_json cls message);
     _ ← _dispatch_message msg;
     k ← lift (hash_key (uuid msg));
     futs ← gets (fun s => _response_futures (self s));
     match futs !! k with
     | Some fut => in_world (set_result fut msg)
     | None => mret tt
     end)
    (fun e => in_world (logger ERROR (ErrorProcessing message e))).

(** [_message_handler] run to its end: the frames the connection
    delivers, then its closure. *)
Definition _message_handler (frames : list string) (clean : bool) : M (Sys t) unit :=
  try_except
    (_ ← foldM (fun _ message => _process_message message) frames tt;
     if clean then mret tt else raise ConnectionClosed)
    (fun e =>
       match e with
       | ConnectionClosed => in_world (logger INFO ConnectionToServerClosed)
       | _ => raise e
       end).

(** What can happen while a caller is suspended in [send_msg]. *)
Inductive occurrence :=
| Frame (raw : string)
| Elapse (dt : N)
| Close (clean : bool).

(** One occurrence, as the event loop serves it: a frame goes through
    one iteration of [_message_handler] when that task is alive, time
    moves the clock, a closure ends [_message_handler]. *)
Definition turn (o : occurrence) : M (Sys t) unit :=
  match o with
  | Frame raw =>
      alive ← gets (fun s => reader (world s));
      match alive with
      | true => _process_message raw
      | false => mret tt
      end
  | Elapse dt => in_world (modify (with_now (fun n => (n + dt)%N)))
  | Close clean =>
      _ ← on_self (set_websocket (fmap close));
      alive ← gets (fun s => reader (world s));
      _ ← match alive, clean with
          | true, false => in_world (logger INFO ConnectionToServerClosed)
          | _, _ => mret tt
          end;
      in_world (modify (with_reader false))
  end.

(** [await asyncio.wait_for(fut, timeout)] with the timer set to
    [deadline], against the occurrences [sched].  Awaiting a cancelled
    future raises CancelledError, which is no [Exception]. *)
Fixpoint wait_for (fut : nat) (deadline : N) (sched : list occurrence)
  : M (Sys t) Message :=
  st ← gets (fun s => futures (world s) !! fut);
  match st with
  | Some (Result m) => mret m
  | Some Cancelled => unmodelled
  | None => unmodelled
  | Some Pending =>
      n ← gets (fun s => now (world s));
      if (deadline <=? n)%N then
        _ ← in_world (cancel fut); raise TimeoutError
      else
        match sched with
        | [] => blocked
        | o :: sched' => _ ← turn o; wait_for fut deadline sched'
        end
  end.

(** [self._websocket.send(text)] *)
Definition send (text : string) : M (Sys t) unit :=
  ws ← gets (fun s => _websocket (self s));
  match ws with
  | None => raise (AttributeError "send")
  | Some ws =>
      if open ws then
        on_self (set_websocket
                   (fun _ => Some {| open := true; outbox := outbox ws ++ [text] |}))
      else raise ConnectionClosed
  end.

(** [send_msg(msg, blocking, timeout)]; the result [None] is Python's
    [None]. *)
Definition send_msg (msg : Message) (blocking : bool) (timeout : N)
  (sched : list occurrence) : M (Sys t) (option Message) :=
  ws ← gets (fun s => _websocket (self s));
  _ ← (if ws is None then in_world (logger CRITICAL NotConnected) else mret tt);
  text ← in_world (Message.to_json msg);
  _ ← in_world (logger DEBUG (Sending text));
  text ← in_world (Message.to_json msg);
  _ ← send text;
  if blocking then
    future ← in_world create_future;
    k ← lift (hash_key (uuid msg));
    _ ← on_self (set_futures (fun d => <[k := future]> d));
    try_finally
      (try_except
         (n ← gets (fun s => now (world s));
          response ← wait_for future (n + timeout)%N sched;
          mret (Some response))
         (fun e =>
            match e with
            | TimeoutError =>
                _ ← in_world (logger WARNING (TimeoutWaiting (uuid msg)));
                mret None
            | _ => raise e
            end))
      (on_self (set_futures (fun d => delete k d)))
  else mret None.

End WithMessage.

End Client.

(** ** Vocabulary of the statements *)

(** The trace entry of a handler started on [args]. *)
Definition entry (args : list object) (f : Callable) : string * list object :=
  (__name__ f, args).

(** [d.get(k, [])] *)
Definition handlers (d : gmap key (list Callable)) (k : key) : list Callable :=
  default [] (d !! k).


(** How often a handler named [n] occurs in a trace. *)
Definition times (n : string) (trace : list (string * list object)) : nat :=
  length (filter (fun e => fst e = n) trace).

(** The class object was made in this world: its default dict is there. *)
Definition defined (cls : Message.defaults) (w : World) : bool :=
  bool_decide (Message.default_data cls < length (heap w))%nat.

(** The object a Message's [data] refers to is there. *)
Definition allocated (m : Message) (w : World) : bool :=
  bool_decide (data m < length (heap w))%nat.

(** The client holds an open connection. *)
Definition connected (s : Sys Client.t) : bool :=
  match Client._websocket (self s) with
  | Some ws => Client.open ws
  | None => false
  end.

(** Time that passes in a schedule. *)
Fixpoint elapsed (sched : list Client.occurrence) : N :=
  match sched with
  | [] => 0
  | Client.Elapse dt :: rest => dt + elapsed rest
  | _ :: rest => elapsed rest
  end%N.

(** Every frame of the schedule is a text the decoder model covers. *)
Definition in_model (o : Client.occurrence) : bool :=
  match o with
  | Client.Frame raw =>
      match json.loads raw with
      | Unmodelled | Blocked => false
      | _ => true
      end
  | _ => true
  end.

Definition is_close (o : Client.occurrence) : bool :=
  match o with
  | Client.Close _ => true
  | _ => false
  end.

(** The outcome is a Message handed back to the caller. *)
Definition is_reply (r : Res (option Message)) : bool :=
  match r with
  | Ok (Some _) => true
  | _ => false
  end.

(** The names of the fields of an object, in order. *)
Definition fields (v : value) : option (list string) :=
  match v with
  | VDict d => Some (map fst d)
  | _ => None
  end.

(** The worlds that differ from [w] in the trace and the log at most. *)
Definition amend (w : World) (st : list (string * list object))
  (lg : list (level * record)) : World :=
  mkWorld (heap w) (urandom w) (drawn w) (futures w) (ready w) (started w ++ st)
          (log w ++ lg) (now w) (reader w).


(** What the occurrences of a schedule leave untouched. *)
Definition evolves (s s' : Sys Client.t) : Prop :=
  Client._response_futures (self s') = Client._response_futures (self s)
  /\ started (world s') = started (world s)
  /\ (length (heap (world s)) <= length (heap (world s')))%nat
  /\ (exists lg, log (world s') = log (world s) ++ lg).

(** The connection is closed and the reading task has ended. *)
Definition finished : M (Sys Client.t) unit :=
  _ ← on_self (Client.set_websocket (fmap Client.close));
  in_world (modify (with_reader false)).

(** The state in which a blocking send starts to wait: the text is in
    the outbox, a fresh pending future is registered under the id. *)
Definition waiting (s : Sys Client.t) (ws : Client.WebSocket) (text : string)
  (k : key) : Sys Client.t :=
  mkSys
    (Client.set_futures (fun d => <[k := length (futures (world s))]> d)
       (Client.set_websocket
          (fun _ => Some {| Client.open := true;
                            Client.outbox := Client.outbox ws ++ [text] |})
          (self s)))
    (with_futures (fun l => l ++ [Pending])
       (amend (world s) [] [(DEBUG, Sending text)])).

(** The names of the fields of the object a wire text decodes to. *)
Definition wire_fields (text : string) : option (list string) :=
  match json.loads text with
  | Ok v => fields v
  | _ => None
  end.

(** The value of the field [k] of the object a wire text decodes to. *)
Definition wire_value (text : string) (k : string) : option value :=
  match json.loads text with
  | Ok (VDict d) => Message.keyword k d
  | _ => None
  end.

(** ** Examples *)

(** A world before the module is imported, the class made in it, and
    the world after that. *)
Definition world0 : World :=
  mkWorld [] (fun n => Z.of_nat n) 0 [] [] [] [] 0%N false.
Definition cls0 : Message.defaults :=
  {| Message.default_uuid := VInt (uuid4_int 0); Message.default_data := 0 |}.
Definition world1 : World := snd (Message.define world0).

(** Two more dicts in the heap, at the addresses 1 and 2. *)
Definition world2 : World :=
  with_heap (fun h => h ++ [VDict [("x"%string, VInt 1)];
                            VDict [("data"%string, VStr "Hello")]])
            world1.

(** [Message("PING", 1, d)] with [d] the dict at address 1. *)
Definition ping : Message :=
  Message.__init__ cls0 (VStr "PING") (Some (VInt 1)) (Some 1%nat).

(** [Message(1, "PING", d)], as examples/client.py writes it, with [d]
    the dict at address 2: the first parameter is the code. *)
Definition swapped : Message :=
  Message.__init__ cls0 (VInt 1) (Some (VStr "PING")) (Some 2%nat).

(** Handlers: a coroutine function that returns, one that raises, and a
    plain function that raises. *)
Definition returning (name : string) : Callable :=
  {| __name__ := name; iscoroutinefunction := true; body := fun _ => None |}.
Definition raising (name : string) : Callable :=
  {| __name__ := name; iscoroutinefunction := true;
     body := fun _ => Some (UserError 1) |}.

Definition register_all (regs : list (value * Callable)) : M (Sys Server.t) unit :=
  foldM (fun _ r => Server.on_message (fst r) (snd r)) regs tt.

(** A server with three handlers for "PING", the second of which
    raises, and one for "ALL". *)
Definition server1 : Sys Server.t :=
  snd (register_all
         [(VStr "PING", returning "a"); (VStr "PING", raising "b");
          (VStr "ALL", returning "c"); (VStr "PING", returning "d")]
         (mkSys (Server.__init__ "localhost" 8765) world2)).




(** Two frames: a request with id 1 and code PING, and the reply with
    id 1 and code PONG. *)
Definition ping_text : string :=
  json.dumps (VDict [("uuid"%string, VInt 1); ("code"%string, VStr "PING");
                     ("data"%string, VDict [("x"%string, VInt 1)])]).
Definition pong_text : string :=
  json.dumps (VDict [("uuid"%string, VInt 1); ("code"%string, VStr "PONG");
                     ("data"%string, VDict [("ok"%string, VBool true)])]).


Definition wildcard : Message :=
  Message.__init__ cls0 (VStr "ALL") (Some (VInt 2)) (Some 1%nat).

(** A connected client with a handler for "PONG". *)
Definition client1 : Sys Client.t :=
  snd ((_ ← Client.connect; Client.on_message (VStr "PONG") (returning "on_pong"))
         (mkSys (Client.__init__ "ws://localhost:8765") world2)).

(** [client1] while a blocking send of [ping] waits. *)
Definition client1_waiting : Sys Client.t :=
  waiting client1 {| Client.open := true; Client.outbox := [] |}
    ping_text (KInt 1).

(** ** More vocabulary: what the server's loop leaves behind *)

(** The frames for which a Processing record was logged, in order. *)
Definition processed (lg : list (level * record)) : list string :=
  omap (fun r => match snd r with Processing raw => Some raw | _ => None end) lg.

(** [w'] is [w] but for the trace of started handlers and the tasks
    left scheduled. *)
Definition handlers_only (w w' : World) : Prop :=
  heap w' = heap w /\ urandom w' = urandom w /\ drawn w' = drawn w
  /\ futures w' = futures w /\ log w' = log w /\ now w' = now w
  /\ reader w' = reader w /\ exists st, started w' = started w ++ st.


(** The decoder model covers the frame. *)
Definition modelled (raw : string) : bool := in_model (Client.Frame raw).

(** ** server.py: the ends of [_handle_connection]

    [_handle_connection] in the pieces the event loop runs in one go:
    what precedes the first [await] (the [async for]), the loop, and
    the [finally] clause.  Between the pieces, other tasks run. *)

Definition _handle_connection_enter (ws : nat) (path : string) : M (Sys Server.t) unit :=
  _ ← in_world (logger INFO (GotNewConnection path));
  on_self (Server.set_connections (fun c => <[KStr (Server.tail path) := ws]> c)).

Definition _handle_connection_body (cls : Message.defaults) (ws : nat)
  (frames : list string) (clean : bool) : M (Sys Server.t) unit :=
  _ ← Server.receive cls ws frames;
  _ ← in_world run_ready;
  if clean then mret tt else raise ConnectionClosed.

Definition _handle_connection_finally (path : string) : M (Sys Server.t) unit :=
  _ ← in_world (logger INFO (ConnectionDisconnected path));
  c ← gets (fun s => Server._connections (self s));
  match c !! KStr (Server.tail path) with
  | Some _ =>
      on_self (Server.set_connections (fun c => delete (KStr (Server.tail path)) c))
  | None => raise KeyError
  end.

(** ** server.py: send_msg

    The server with the connection objects its registry refers to. *)

Module Hub.

(** The warning of [send_msg], which carries the path it was given. *)
Inductive notice := NonExistentPath (path : value).

Record t := mk {
  server : Sys Server.t;
  sockets : gmap nat Client.WebSocket;  (* the connection objects, by identity *)
  warnings : list notice                (* the warnings of the server's logger *)
}.

Definition in_server {A} (m : M (Sys Server.t) A) : M t A :=
  fun n => let '(r, s) := m (server n) in (r, mk s (sockets n) (warnings n)).

(** [await ws.send(text)] on the connection object [ws]; it runs in one
    piece, as the client's does. *)
Definition send (ws : nat) (text : string) : M t unit :=
  fun n =>
    match sockets n !! ws with
    | Some c =>
        if Client.open c then
          (Ok tt,
           mk (server n)
              (<[ws := {| Client.open := true;
                          Client.outbox := Client.outbox c ++ [text] |}]> (sockets n))
              (warnings n))
        else (Raise ConnectionClosed, n)
    | None => (Unmodelled, n)
    end.

(** The list comprehension of [send_msg]: one coroutine object for each
    connection, with the text that [msg.to_json()] gives at that point;
    nothing is sent yet. *)
Definition send_calls (msg : Message) (conns : list nat) : M t (list (nat * string)) :=
  foldM (fun cs ws =>
           text ← in_server (in_world (Message.to_json msg));
           mret (cs ++ [(ws, text)]))
        conns [].

(** The children of the gather, all run, then the first exception. *)
Fixpoint run_sends (cs : list (nat * string)) : M t unit :=
  match cs with
  | [] => mret tt
  | c :: rest =>
      fun n =>
        match send (fst c) (snd c) n with
        | (Ok _, n') => run_sends rest n'
        | (Raise e, n') => (Raise e, snd (run_sends rest n'))
        | other => other
        end
  end.

(** [await asyncio.gather] on the coroutine objects [cs].  Without
    arguments gather hands back a future that is done, and the caller
    goes on at once; otherwise the caller is suspended, and the loop
    runs what was scheduled before the children. *)
Definition gather (cs : list (nat * string)) : M t unit :=
  match cs with
  | [] => mret tt
  | _ :: _ => _ ← in_server (in_world run_ready); run_sends cs
  end.

(** [self._connections.values()].  Python lists them in the order of
    insertion, which the map does not keep; every send goes to the
    outbox of its own connection object, so that the outboxes at the
    end do not depend on the order. *)
Definition values (s : Server.t) : list nat :=
  map snd (map_to_list (Server._connections s)).

(** [send_msg(msg, path)]; [VNone] is the default of [path]. *)
Definition send_msg (msg : Message) (path : value) : M t unit :=
  text ← in_server (in_world (Message.to_json msg));
  _ ← in_server (in_world (logger DEBUG (Sending text)));
  match path with
  | VNone =>
      conns ← gets (fun n => values (self (server n)));
      cs ← send_calls msg conns;
      gather cs
  | _ =>
      k ← lift (hash_key path);
      registry ← gets (fun n => Server._connections (self (server n)));
      match registry !! k with
      | Some ws =>
          text ← in_server (in_world (Message.to_json msg));
          send ws text
      | None =>
          modify (fun n => mk (server n) (sockets n)
                              (warnings n ++ [NonExistentPath path]))
      end
  end.

End Hub.

(** How many paths a connection object is registered under. *)
Definition registrations (s : Server.t) (ws : nat) : nat :=
  count_occ Nat.eq_dec (Hub.values s) ws.

(** The connection object [c] after [k] sends of [text]: a closed
    connection takes none. *)
Definition delivered (k : nat) (text : string) (c : Client.WebSocket)
  : Client.WebSocket :=
  if Client.open c then
    {| Client.open := true; Client.outbox := Client.outbox c ++ replicate k text |}
  else c.

(** The connection object [ws] is there and open. *)
Definition reachable (sk : gmap nat Client.WebSocket) (ws : nat) : bool :=
  match sk !! ws with
  | Some c => Client.open c
  | None => false
  end.

(** The connection object [ws] is there. *)
Definition present (sk : gmap nat Client.WebSocket) (ws : nat) : bool :=
  match sk !! ws with
  | Some _ => true
  | None => false
  end.

(** The wire text of a Message whose payload is [d]. *)
Definition wire (m : Message) (d : value) : string :=
  json.dumps (VDict [("uuid"%string, uuid m); ("code"%string, code m);
                     ("data"%string, d)]).

(** ** More vocabulary: registrations *)

(** [hash(v)] succeeds. *)
Definition hashable (v : value) : bool :=
  match hash_key v with
  | Ok _ => true
  | _ => false
  end.

(** The functions that a list of registrations puts under the key [k],
    in order. *)
Fixpoint registered_for (k : key) (regs : list (value * Callable)) : list Callable :=
  match regs with
  | [] => []
  | r :: rest =>
      match hash_key (fst r) with
      | Ok k' => if decide (k' = k) then snd r :: registered_for k rest
                 else registered_for k rest
      | _ => registered_for k rest
      end
  end.

(** Every key of [d] names a parameter of [Message.__init__]. *)
Definition only_parameters (d : list (string * value)) : bool :=
  forallb (fun kv => bool_decide (fst kv ∈ Message.parameters)) d.

(** The frames for which an error was logged, in order. *)
Definition rejected (lg : list (level * record)) : list string :=
  omap (fun r => match r with
                 | (ERROR, ErrorProcessing raw _) => Some raw
                 | _ => None
                 end) lg.

(** ** utils.py and the logging module (standard library)

    What [setup_logger] touches: the loggers that [logging.getLogger]
    keeps by name, and the StreamHandler objects.  The root logger is as
    it is after import: level WARNING and no handler. *)

Module logging.

(** A Logger: its level (0 is NOTSET) and its handlers, by identity. *)
Record Logger := { level : Z; handlers : list nat }.

Record Registry := mkRegistry {
  loggerDict : gmap string Logger;
  made : nat                       (* StreamHandler objects made so far *)
}.

Definition WARNING : Z := 30.

(** [logging.StreamHandler()]: a new handler object, of level NOTSET. *)
Definition StreamHandler : M Registry nat :=
  fun r => (Ok (made r), mkRegistry (loggerDict r) (S (made r))).

(** [logging.getLogger(name)]: the logger of that name, made at the
    first call. *)
Definition getLogger (name : string) : M Registry string :=
  fun r =>
    (Ok name,
     match loggerDict r !! name with
     | Some _ => r
     | None => mkRegistry (<[name := {| level := 0; handlers := [] |}]> (loggerDict r))
                          (made r)
     end).

Definition update (name : string) (f : Logger -> Logger) : M Registry unit :=
  fun r =>
    match loggerDict r !! name with
    | Some l => (Ok tt, mkRegistry (<[name := f l]> (loggerDict r)) (made r))
    | None => (Unmodelled, r)
    end.

(** [logger.setLevel(level)] *)
Definition setLevel (name : string) (lv : Z) : M Registry unit :=
  update name (fun l => {| level := lv; handlers := handlers l |}).

(** [logger.addHandler(hdlr)]: a handler that is there is not added
    again. *)
Definition addHandler (name : string) (hdlr : nat) : M Registry unit :=
  update name (fun l =>
    {| level := level l;
       handlers := if bool_decide (hdlr ∈ handlers l) then handlers l
                   else handlers l ++ [hdlr] |}).

(** [logger.getEffectiveLevel()] for a logger whose parent is the root. *)
Definition getEffectiveLevel (l : Logger) : Z :=
  if (level l =? 0)%Z then WARNING else level l.

(** [logger.isEnabledFor(lv)]; [logging.disable] is at its default, 0,
    which turns off the levels that are not above it. *)
Definition isEnabledFor (l : Logger) (lv : Z) : bool :=
  if (lv <=? 0)%Z then false else (getEffectiveLevel l <=? lv)%Z.

(** How many lines one call [logger.log(lv, ...)] writes: one for each
    handler of the logger when the level is enabled (the handlers have
    level NOTSET and the root has none). *)
Definition lines (name : string) (lv : Z) (r : Registry) : nat :=
  match loggerDict r !! name with
  | Some l => if isEnabledFor l lv then length (handlers l) else 0%nat
  | None => 0%nat
  end.

End logging.

Module utils.

(** [setup_logger(name, level)]; the formatter has no part in what
    follows. *)
Definition setup_logger (name : string) (lv : Z) : M logging.Registry (string * nat) :=
  stream_handler ← logging.StreamHandler;
  logger ← logging.getLogger name;
  _ ← logging.setLevel logger lv;
  _ ← logging.addHandler logger stream_handler;
  mret (logger, stream_handler).

End utils.

(** [Client(url, log_level)] and [Server(host, port, log_level)] with
    the logger they set up. *)
Definition Client_construct (url : string) (log_level : Z)
  : M logging.Registry Client.t :=
  _ ← utils.setup_logger "Client" log_level;
  mret (Client.__init__ url).

Definition Server_construct (host : string) (port : Z) (log_level : Z)
  : M logging.Registry Server.t :=
  _ ← utils.setup_logger "WS Server" log_level;
  mret (Server.__init__ host port).

(** The handlers of the logger [name]. *)
Definition handlers_of (name : string) (r : logging.Registry) : list nat :=
  match logging.loggerDict r !! name with
  | Some l => logging.handlers l
  | None => []
  end.

(** The registry keeps count of the handler objects it made. *)
Definition fresh (r : logging.Registry) : Prop :=
  map_Forall (fun _ l => Forall (fun h => (h < logging.made r)%nat) (logging.handlers l))
             (logging.loggerDict r).

(** Clients made one after the other, [(url, log_level)] for each. *)
Definition construct_clients (cs : list (string * Z))
  : M logging.Registry (list Client.t) :=
  foldM (fun acc c => x ← Client_construct (fst c) (snd c); mret (acc ++ [x])) cs [].

(** A registry in which nothing has been set up. *)
Definition registry0 : logging.Registry := logging.mkRegistry ∅ 0.

(** ** examples/server.py *)

(** [handle_ping(msg, ws)]: the arguments of [Message] are given by
    position, so that the first one, [msg.uuid], is the code. *)
Definition handle_ping (cls : Message.defaults) (msg : Message) (ws : nat)
  : M Hub.t unit :=
  payload ← Hub.in_server
              (in_world (alloc (VDict [("data"%string, VStr "Hello from server!")])));
  text ← Hub.in_server
           (in_world (Message.to_json
                        (Message.__init__ cls (uuid msg) (Some (VStr "PONG"))
                                          (Some payload))));
  Hub.send ws text.

(** ** More examples *)

(** Two connection objects, one open and one closed. *)
Definition sock_open : Client.WebSocket :=
  {| Client.open := true; Client.outbox := [] |}.
Definition sock_closed : Client.WebSocket :=
  {| Client.open := false; Client.outbox := [] |}.

(** [server1] before any connection, with the connection objects 7
    (open), 8 (closed) and 9 (open) at hand. *)
Definition hub0 : Hub.t :=
  Hub.mk server1
         (<[7%nat := sock_open]> (<[8%nat := sock_closed]> (<[9%nat := sock_open]> ∅)))
         [].

(** The same with 7 registered under "room" and 8 under "lobby". *)
Definition hub1 : Hub.t :=
  Hub.mk (mkSys (Server.set_connections
                   (fun _ => <[KStr "room" := 7%nat]> (<[KStr "lobby" := 8%nat]> ∅))
                   (self server1))
                (world server1))
         (Hub.sockets hub0) [].



(** A client that was never connected, and one that was disconnected. *)
Definition client0 : Sys Client.t :=
  mkSys (Client.__init__ "ws://localhost:8765") world2.
Definition client_closed : Sys Client.t :=
  snd ((_ ← Client.connect; Client.disconnect) client0).

(** [Message("PING", [], d)]: the id is a list. *)
Definition bad_id : Message :=
  Message.__init__ cls0 (VStr "PING") (Some (VList [])) (Some 1%nat).

(** The payload of [ping]. *)
Definition ping_data : value := VDict [("x"%string, VInt 1)].

(** * Properties

    ** The json codec *)

Module json_facts.
Import json.

Lemma chars_string_of_list (l : list ascii) : chars (string_of_list_ascii l) = l.
Proof. apply list_ascii_of_string_of_list_ascii. Qed.

Lemma scanstring_escape_char (c : ascii) (tl : list ascii) :
  scanstring (escape_char c ++ tl) =
  ('(str, rest) ← scanstring tl; Ok (String c str, rest)).
Proof.
  destruct c as [[] [] [] [] [] [] [] []]; reflexivity.
Qed.

Lemma scanstring_escape (s : string) (rest : list ascii) :
  scanstring (escape s ++ dquote :: rest) = Ok (s, rest).
Proof.
  induction s as [|c s IH]; [reflexivity|].
  cbn [escape]. rewrite <- app_assoc, scanstring_escape_char, IH. reflexivity.
Qed.

Lemma scan_digits_uint (u : Decimal.uint) (rest : list ascii) :
  match rest with c :: _ => is_digit c = false | [] => True end ->
  scan_digits (uint_chars u ++ rest) = (u, rest).
Proof.
  intros Hrest. induction u; cbn [uint_chars app];
    try (change (scan_digits (digit_char ?k :: ?l)) with
           (let '(u, r) := scan_digits l in (push_digit k u, r)));
    try (rewrite IHu; reflexivity).
  destruct rest as [|c r]; [reflexivity|]. cbn. unfold is_digit in Hrest.
  destruct (digit_val c); [discriminate|reflexivity].
Qed.

Lemma closes_not_digit rest :
  closes rest = true ->
  match rest with c :: _ => is_digit c = false | [] => True end.
Proof.
  destruct rest as [|c r]; [done|]. cbn. intros H.
  apply orb_prop in H as [H|H]; [apply orb_prop in H as [H|H]|];
    apply Ascii.eqb_eq in H; subst c; reflexivity.
Qed.

Lemma closes_not_float rest : closes rest = true -> float_follows rest = false.
Proof.
  destruct rest as [|c [|d r]]; [done..|]. cbn [closes]. intros H.
  apply orb_prop in H as [H|H]; [apply orb_prop in H as [H|H]|];
    apply Ascii.eqb_eq in H; subst c; reflexivity.
Qed.

(** The decimal form of a positive number starts with a digit from 1 to 9. *)
Lemma to_uint_leading (p : positive) :
  exists k u, (1 <= k <= 9)%N /\ Pos.to_uint p = push_digit k u.
Proof.
  pose proof (DecimalPos.Unsigned.to_of (Pos.to_uint p)) as Hn.
  rewrite DecimalPos.Unsigned.of_to in Hn. cbn [N.to_uint] in Hn.
  pose proof (DecimalPos.Unsigned.to_uint_nonzero p) as Hz.
  pose proof (DecimalPos.Unsigned.to_uint_nonnil p) as Hnil.
  destruct (Pos.to_uint p) as [|u|u|u|u|u|u|u|u|u|u] eqn:E; [done| |..].
  - exfalso. rewrite unorm_D0 in Hn.
    assert (Hu : u <> Nil) by (intros ->; by apply Hz).
    pose proof (nb_digits_unorm u Hu) as Hle. rewrite <- Hn in Hle.
    cbn in Hle. lia.
  - exists 1%N, u. split; [lia|done].
  - exists 2%N, u. split; [lia|done].
  - exists 3%N, u. split; [lia|done].
  - exists 4%N, u. split; [lia|done].
  - exists 5%N, u. split; [lia|done].
  - exists 6%N, u. split; [lia|done].
  - exists 7%N, u. split; [lia|done].
  - exists 8%N, u. split; [lia|done].
  - exists 9%N, u. split; [lia|done].
Qed.

Lemma digit_cases (k : N) :
  (1 <= k <= 9)%N ->
  k = 1%N \/ k = 2%N \/ k = 3%N \/ k = 4%N \/ k = 5%N \/ k = 6%N \/ k = 7%N
  \/ k = 8%N \/ k = 9%N.
Proof. lia. Qed.

Lemma match_natural_pos (p : positive) (rest : list ascii) :
  closes rest = true ->
  match_natural (uint_chars (Pos.to_uint p) ++ rest) = Some (Npos p, rest).
Proof.
  intros Hrest. pose proof (DecimalN.Unsigned.of_to (Npos p)) as Hof.
  cbn [N.to_uint] in Hof.
  destruct (to_uint_leading p) as (k & u & Hk & E). rewrite E in *.
  apply closes_not_digit in Hrest.
  destruct (digit_cases k Hk) as [->|[->|[->|[->|[->|[->|[->|[->| ->]]]]]]]];
    cbn [push_digit uint_chars app match_natural] in *;
    (change (digit_val (digit_char ?n)) with (Some n));
    cbv iota beta; rewrite (scan_digits_uint u rest Hrest);
    cbn [push_digit]; rewrite Hof; reflexivity.
Qed.

Lemma match_number_repr (z : Z) (rest : list ascii) :
  closes rest = true ->
  match_number (repr_int z ++ rest) = Ok (VInt z, rest).
Proof.
  intros Hrest. destruct z as [|p|p]; cbn [repr_int].
  - change (match_number (uint_chars (N.to_uint 0) ++ rest))
      with (if float_follows rest then Unmodelled else Ok (VInt 0, rest)).
    rewrite (closes_not_float _ Hrest). reflexivity.
  - assert (Hhead : exists c tl, uint_chars (Pos.to_uint p) ++ rest = c :: tl
                                 /\ (c =? "-")%char = false).
    { destruct (to_uint_leading p) as (k & u & Hk & E). rewrite E.
      destruct (digit_cases k Hk) as [->|[->|[->|[->|[->|[->|[->|[->| ->]]]]]]]];
        eexists _, _; (split; [reflexivity|reflexivity]). }
    destruct Hhead as (c & tl & Heq & Hc). cbn [N.to_uint]. unfold match_number.
    rewrite Heq, Hc, <- Heq, (match_natural_pos p rest Hrest).
    rewrite (closes_not_float _ Hrest). reflexivity.
  - unfold match_number. cbn [N.to_uint app].
    change ("-" =? "-")%char with true. cbv iota.
    rewrite (match_natural_pos p rest Hrest), (closes_not_float _ Hrest).
    reflexivity.
Qed.

Lemma is_digit_cases (c : ascii) :
  is_digit c = true -> In c (chars "0123456789").
Proof.
  destruct c as [[] [] [] [] [] [] [] []]; cbn; intros H; try discriminate H; tauto.
Qed.

Ltac each_digit H :=
  apply is_digit_cases in H; cbn in H;
  repeat (destruct H as [<-|H]; [|]); [..|destruct H].

Lemma scan_once_number (fuel : nat) (s : list ascii) :
  number_shape s = true -> scan_once (S fuel) s = match_number s.
Proof.
  destruct s as [|c tl]; [done|]. cbn [number_shape]. intros H.
  apply orb_prop in H as [H|H].
  - each_digit H; reflexivity.
  - apply andb_prop in H as [Hc H]. apply Ascii.eqb_eq in Hc as ->.
    destruct tl as [|d tl]; [done|]. each_digit H; reflexivity.
Qed.

Lemma number_shape_opens (s : list ascii) : number_shape s = true -> opens s = true.
Proof.
  destruct s as [|c tl]; [done|]. cbn [number_shape]. intros H.
  apply orb_prop in H as [H|H].
  - each_digit H; reflexivity.
  - apply andb_prop in H as [Hc _]. apply Ascii.eqb_eq in Hc as ->. reflexivity.
Qed.

Lemma uint_chars_leading (p : positive) :
  exists c tl, uint_chars (Pos.to_uint p) = c :: tl /\ is_digit c = true.
Proof.
  destruct (to_uint_leading p) as (k & u & Hk & E). rewrite E.
  destruct (digit_cases k Hk) as [->|[->|[->|[->|[->|[->|[->|[->| ->]]]]]]]];
    eexists _, _; (split; reflexivity).
Qed.

Lemma repr_int_shape (z : Z) (rest : list ascii) :
  number_shape (repr_int z ++ rest) = true.
Proof.
  destruct z as [|p|p]; [reflexivity| |]; cbn [repr_int N.to_uint];
    destruct (uint_chars_leading p) as (c & tl & -> & Hc); cbn [app number_shape].
  - by rewrite Hc.
  - change ("-" =? "-")%char with true. rewrite Hc. apply orb_true_r.
Qed.

Lemma opens_encode (v : value) (rest : list ascii) : opens (encode v ++ rest) = true.
Proof.
  destruct v as [|[]|z|s|l|d]; try reflexivity.
  apply number_shape_opens, repr_int_shape.
Qed.

Lemma skip_ws_opens (s : list ascii) : opens s = true -> skip_ws s = s.
Proof.
  destruct s as [|c r]; [done|]. cbn. intros H.
  apply andb_prop in H as [H _]. apply andb_prop in H as [H _].
  apply negb_true_iff in H. by rewrite H.
Qed.

Lemma opens_inv (s : list ascii) :
  opens s = true ->
  exists c r, s = c :: r /\ (c =? "]")%char = false /\ (c =? "}")%char = false.
Proof.
  destruct s as [|c r]; [done|]. cbn. intros H.
  apply andb_prop in H as [H H3]. apply andb_prop in H as [_ H2].
  apply negb_true_iff in H2, H3. eauto.
Qed.

Lemma skip_ws_space (s : list ascii) : skip_ws (" "%char :: s) = skip_ws s.
Proof. reflexivity. Qed.

(** *** A dict read back from its own pairs *)

Lemma nodup_keys_spec (ks : list string) : nodup_keys ks = true -> NoDup ks.
Proof.
  induction ks as [|k ks IH]; cbn; [constructor|].
  intros H. apply andb_prop in H as [Hk Hks]. constructor; [|by apply IH].
  intros Hin. apply negb_true_iff in Hk.
  assert (existsb (String.eqb k) ks = true); [|congruence].
  apply existsb_exists. exists k. split; [by apply list_elem_of_In|].
  apply String.eqb_refl.
Qed.

Lemma dict_set_fresh (d : list (string * value)) (k : string) (v : value) :
  k ∉ map fst d -> dict_set d k v = d ++ [(k, v)].
Proof.
  induction d as [|[k' v'] d IH]; cbn; [done|]. intros Hk.
  apply not_elem_of_cons in Hk as [Hne Hk].
  destruct (String.eqb_spec k' k) as [->|_]; [done|]. by rewrite IH.
Qed.

Lemma dict_of_pairs_nodup (pairs : list (string * value)) :
  NoDup (map fst pairs) -> dict_of_pairs pairs = pairs.
Proof.
  unfold dict_of_pairs. change pairs with ([] ++ pairs) at 1 3.
  generalize (@nil (string * value)) as acc.
  induction pairs as [|[k v] pairs IH]; intros acc Hnd.
  - by rewrite app_nil_r.
  - cbn [fold_left fst snd]. rewrite dict_set_fresh.
    + rewrite (IH (acc ++ [(k, v)])); rewrite <- app_assoc; done.
    + rewrite map_app in Hnd. apply NoDup_app in Hnd as (_ & Hdis & _).
      intros Hin. apply (Hdis k Hin). cbn. left.
Qed.

(** *** Decoding what the encoder wrote *)

Lemma encode_list (l : list value) :
  encode (VList l) = "["%char :: join sep (map encode l) ++ ["]"%char].
Proof. reflexivity. Qed.

Lemma encode_dict (d : list (string * value)) :
  encode (VDict d) = "{"%char :: join sep (map encode_pair d) ++ ["}"%char].
Proof. reflexivity. Qed.

Lemma join_cons2 (p q : list ascii) (ps : list (list ascii)) :
  join sep (p :: q :: ps) = p ++ ","%char :: " "%char :: join sep (q :: ps).
Proof. reflexivity. Qed.

Lemma opens_join_encode (v : value) (l : list value) (rest : list ascii) :
  opens (join sep (map encode (v :: l)) ++ rest) = true.
Proof.
  destruct l as [|v' l]; cbn [map].
  - apply opens_encode.
  - rewrite join_cons2, <- app_assoc. apply opens_encode.
Qed.

Lemma scan_once_str (fuel : nat) (s : list ascii) :
  scan_once (S fuel) (dquote :: s) =
  ('(str, rest) ← scanstring s; Ok (VStr str, rest)).
Proof. reflexivity. Qed.

Lemma scan_once_array (fuel : nat) (s : list ascii) :
  scan_once (S fuel) ("["%char :: s) =
  match skip_ws s with
  | c' :: r' =>
      if (c' =? "]")%char then Ok (VList [], r')
      else '(items, rest) ← array_items fuel (c' :: r'); Ok (VList items, rest)
  | [] => Raise JSONDecodeError
  end.
Proof. reflexivity. Qed.

Lemma scan_once_object (fuel : nat) (s : list ascii) :
  scan_once (S fuel) ("{"%char :: s) =
  match skip_ws s with
  | c' :: r' =>
      if (c' =? "}")%char then Ok (VDict [], r')
      else '(pairs, rest) ← object_items fuel (c' :: r');
           Ok (VDict (dict_of_pairs pairs), rest)
  | [] => Raise JSONDecodeError
  end.
Proof. reflexivity. Qed.

Lemma array_items_S (fuel : nat) (s : list ascii) :
  array_items (S fuel) s =
  ('(v, r1) ← scan_once fuel s;
   match skip_ws r1 with
   | c :: r2 =>
       if (c =? "]")%char then Ok ([v], r2)
       else if (c =? ",")%char then
         '(items, rest) ← array_items fuel (skip_ws r2); Ok (v :: items, rest)
       else Raise JSONDecodeError
   | [] => Raise JSONDecodeError
   end).
Proof. reflexivity. Qed.

Lemma object_items_S (fuel : nat) (k : string) (s : list ascii) :
  object_items (S fuel) (encode_str k ++ s) =
  match skip_ws s with
  | c1 :: r2 =>
      if (c1 =? ":")%char then
        '(v, r3) ← scan_once fuel (skip_ws r2);
        match skip_ws r3 with
        | c2 :: r4 =>
            if (c2 =? "}")%char then Ok ([(k, v)], r4)
            else if (c2 =? ",")%char then
              '(pairs, rest) ← object_items fuel (skip_ws r4);
              Ok ((k, v) :: pairs, rest)
            else Raise JSONDecodeError
        | [] => Raise JSONDecodeError
        end
      else Raise JSONDecodeError
  | [] => Raise JSONDecodeError
  end.
Proof.
  unfold encode_str. rewrite <- app_comm_cons, <- app_assoc.
  change (object_items (S fuel) (dquote :: ?x)) with
    ('(key, r1) ← scanstring x;
     match skip_ws r1 with
     | c1 :: r2 =>
         if (c1 =? ":")%char then
           '(v, r3) ← scan_once fuel (skip_ws r2);
           match skip_ws r3 with
           | c2 :: r4 =>
               if (c2 =? "}")%char then Ok ([(key, v)], r4)
               else if (c2 =? ",")%char then
                 '(pairs, rest) ← object_items fuel (skip_ws r4);
                 Ok ((key, v) :: pairs, rest)
               else Raise JSONDecodeError
           | [] => Raise JSONDecodeError
           end
         else Raise JSONDecodeError
     | [] => Raise JSONDecodeError
     end).
  cbn [app]. rewrite scanstring_escape. reflexivity.
Qed.

Lemma decodes_values_S (fuel : nat) :
  decodes_arrays fuel -> decodes_objects fuel -> decodes_values (S fuel).
Proof.
  intros Harr Hobj v rest Hwf Hlen Hrest. destruct v as [|[]|z|s|l|d].
  - reflexivity.
  - reflexivity.
  - reflexivity.
  - cbn [encode]. rewrite scan_once_number by apply repr_int_shape.
    by apply match_number_repr.
  - cbn [encode]. unfold encode_str. rewrite <- app_comm_cons, <- app_assoc.
    rewrite scan_once_str. cbn [app]. by rewrite scanstring_escape.
  - rewrite encode_list in *. rewrite <- app_comm_cons, <- app_assoc.
    rewrite scan_once_array. cbn [app]. destruct l as [|v l]; [reflexivity|].
    pose proof (opens_join_encode v l ("]"%char :: rest)) as Hop.
    rewrite (skip_ws_opens _ Hop).
    destruct (opens_inv _ Hop) as (c & r & E & Hc & _). rewrite E, Hc, <- E.
    rewrite Harr; [reflexivity|done|exact Hwf|].
    cbn [length] in Hlen. rewrite length_app in Hlen. cbn [length] in Hlen. lia.
  - rewrite encode_dict in *. rewrite <- app_comm_cons, <- app_assoc.
    rewrite scan_once_object. cbn [app]. destruct d as [|kv d]; [reflexivity|].
    cbn [wf] in Hwf. apply andb_prop in Hwf as [Hnd Hwf].
    assert (Hop : opens (join sep (map encode_pair (kv :: d)) ++ "}"%char :: rest) = true).
    { destruct d; reflexivity. }
    rewrite (skip_ws_opens _ Hop).
    destruct (opens_inv _ Hop) as (c & r & E & _ & Hc). rewrite E, Hc, <- E.
    rewrite Hobj; [|done|exact Hwf|].
    + cbn [mbind Res_bind res_bind]. rewrite dict_of_pairs_nodup; [reflexivity|].
      by apply nodup_keys_spec.
    + cbn [length] in Hlen. rewrite length_app in Hlen. cbn [length] in Hlen. lia.
Qed.

Lemma decodes_arrays_S (fuel : nat) :
  decodes_values fuel -> decodes_arrays fuel -> decodes_arrays (S fuel).
Proof.
  intros Hval Harr l rest Hne Hwf Hlen. destruct l as [|v l]; [done|].
  cbn [forallb] in Hwf. apply andb_prop in Hwf as [Hv Hl].
  rewrite array_items_S. destruct l as [|v' l].
  - cbn [map join] in *. rewrite Hval; [reflexivity|done|lia|reflexivity].
  - cbn [map] in *. rewrite join_cons2 in *. rewrite <- app_assoc.
    rewrite length_app in Hlen. cbn [length] in Hlen.
    rewrite Hval; [|done|lia|reflexivity].
    cbn [mbind Res_bind res_bind]. rewrite <- !app_comm_cons.
    change (skip_ws (","%char :: ?x)) with (","%char :: x).
    change ("," =? "]")%char with false. change ("," =? ",")%char with true.
    cbv iota. rewrite skip_ws_space.
    rewrite (skip_ws_opens _ (opens_join_encode v' l _)).
    change (encode v' :: map encode l) with (map encode (v' :: l)).
    rewrite Harr; [reflexivity|done|exact Hl|]. cbn [map]. lia.
Qed.

Lemma decodes_objects_S (fuel : nat) :
  decodes_values fuel -> decodes_objects fuel -> decodes_objects (S fuel).
Proof.
  intros Hval Hobj d rest Hne Hwf Hlen. destruct d as [|[k v] d]; [done|].
  cbn [forallb snd] in Hwf. apply andb_prop in Hwf as [Hv Hd].
  assert (Hk : (length (encode v) <= length (encode_pair (k, v)))%nat).
  { unfold encode_pair. rewrite !length_app. cbn [snd]. lia. }
  destruct d as [|kv' d].
  - cbn [map join] in *. unfold encode_pair at 1. cbn [fst snd].
    rewrite <- !app_assoc, object_items_S. cbn [app chars list_ascii_of_string].
    change (skip_ws (":"%char :: ?x)) with (":"%char :: x).
    change (":" =? ":")%char with true. cbv iota. rewrite skip_ws_space.
    rewrite (skip_ws_opens _ (opens_encode v _)).
    rewrite Hval; [reflexivity|done|lia|reflexivity].
  - cbn [map] in *. rewrite join_cons2 in *. rewrite length_app in Hlen.
    cbn [length] in Hlen. unfold encode_pair at 1. cbn [fst snd].
    rewrite <- !app_assoc, object_items_S. cbn [app chars list_ascii_of_string].
    change (skip_ws (":"%char :: ?x)) with (":"%char :: x).
    change (":" =? ":")%char with true. cbv iota. rewrite skip_ws_space.
    rewrite (skip_ws_opens _ (opens_encode v _)).
    rewrite Hval; [|done|lia|reflexivity].
    cbn [mbind Res_bind res_bind].
    change (skip_ws (","%char :: ?x)) with (","%char :: x).
    change ("," =? "}")%char with false. change ("," =? ",")%char with true.
    cbv iota. rewrite skip_ws_space.
    assert (Hop : forall r, opens (join sep (map encode_pair (kv' :: d)) ++ r) = true).
    { intros r. destruct d; reflexivity. }
    rewrite (skip_ws_opens _ (Hop _)).
    change (encode_pair kv' :: map encode_pair d) with (map encode_pair (kv' :: d)).
    rewrite Hobj; [reflexivity|done|exact Hd|]. cbn [map]. lia.
Qed.

Lemma decodes_all (fuel : nat) :
  decodes_values fuel /\ decodes_arrays fuel /\ decodes_objects fuel.
Proof.
  induction fuel as [|fuel (Hval & Harr & Hobj)].
  - repeat split.
    + intros v rest _ Hlen _. pose proof (opens_encode v []) as Hop.
      destruct (encode v); [done|cbn in Hlen; lia].
    + intros l rest _ _ Hlen. lia.
    + intros d rest _ _ Hlen. lia.
  - auto using decodes_values_S, decodes_arrays_S, decodes_objects_S.
Qed.

(** [json.loads(json.dumps(v)) == v] *)
Lemma loads_dumps (v : value) : wf v = true -> loads (dumps v) = Ok v.
Proof.
  intros Hwf. unfold loads, dumps, decode. rewrite chars_string_of_list.
  rewrite (skip_ws_opens (encode v)).
  - destruct (decodes_all (S (length (encode v)))) as (Hval & _ & _).
    rewrite <- (app_nil_r (encode v)) at 2.
    rewrite Hval; [reflexivity|done|lia|reflexivity].
  - rewrite <- (app_nil_r (encode v)). apply opens_encode.
Qed.

End json_facts.

(** *** The encoder writes ASCII *)

Module json_ascii.
Import json.

Lemma value_ind' (P : value -> Prop) :
  P VNone -> (forall b, P (VBool b)) -> (forall z, P (VInt z)) ->
  (forall s, P (VStr s)) ->
  (forall l, Forall P l -> P (VList l)) ->
  (forall d, Forall (fun kv => P (snd kv)) d -> P (VDict d)) ->
  forall v, P v.
Proof.
  intros HN HB HI HS HL HD. fix IH 1.
  intros [|b|z|s|l|d]; [exact HN|apply HB|apply HI|apply HS| |].
  - apply HL. induction l as [|v l IHl]; constructor; [apply IH|apply IHl].
  - apply HD. induction d as [|[k v] d IHd]; constructor; [apply IH|apply IHd].
Qed.

Lemma ascii_uint (u : Decimal.uint) : forallb ascii7 (uint_chars u) = true.
Proof. induction u; cbn [uint_chars forallb]; try rewrite IHu; reflexivity. Qed.

Lemma ascii_escape (s : string) : forallb ascii7 (escape s) = true.
Proof.
  induction s as [|c s IH]; [reflexivity|]. cbn [escape].
  rewrite forallb_app, IH, andb_true_r.
  destruct c as [[] [] [] [] [] [] [] []]; reflexivity.
Qed.

Lemma ascii_str (s : string) : forallb ascii7 (encode_str s) = true.
Proof.
  unfold encode_str. cbn [forallb]. rewrite forallb_app, ascii_escape. reflexivity.
Qed.

Lemma ascii_join (parts : list (list ascii)) :
  Forall (fun p => forallb ascii7 p = true) parts ->
  forallb ascii7 (join sep parts) = true.
Proof.
  induction 1 as [|p parts Hp _ IH]; [reflexivity|].
  destruct parts as [|q parts]; [exact Hp|].
  change (join sep (p :: q :: parts)) with (p ++ sep ++ join sep (q :: parts)).
  by rewrite !forallb_app, Hp, IH.
Qed.

Lemma ascii_encode (v : value) : forallb ascii7 (encode v) = true.
Proof.
  induction v as [|[]|[|p|p]|s|l IH|d IH] using value_ind'; try reflexivity.
  - apply ascii_uint.
  - cbn [encode repr_int forallb]. by rewrite ascii_uint.
  - apply ascii_str.
  - rewrite json_facts.encode_list. cbn [forallb]. rewrite forallb_app, ascii_join.
    + reflexivity.
    + by apply Forall_map.
  - rewrite json_facts.encode_dict. cbn [forallb]. rewrite forallb_app, ascii_join.
    + reflexivity.
    + apply Forall_map. eapply Forall_impl; [exact IH|]. intros [k v] Hv.
      unfold encode_pair. cbn [fst snd] in *.
      by rewrite !forallb_app, ascii_str, Hv.
Qed.

End json_ascii.

(** ** Messages *)

Lemma bind_run {S A B} (m : M S A) (k : A -> M S B) (s : S) :
  (x ← m; k x) s =
  match m s with
  | (Ok a, s') => k a s'
  | (Raise e, s') => (Raise e, s')
  | (Unmodelled, s') => (Unmodelled, s')
  | (Blocked, s') => (Blocked, s')
  end.
Proof. reflexivity. Qed.

Lemma to_dict_run (m : Message) (w : World) (d : value) :
  heap w !! data m = Some d ->
  Message.to_dict m w =
  (Ok (VDict [("uuid"%string, uuid m); ("code"%string, code m); ("data"%string, d)]), w).
Proof.
  intros H. unfold Message.to_dict. rewrite bind_run. unfold deref. by rewrite H.
Qed.

Lemma to_json_run (m : Message) (w : World) (d : value) :
  heap w !! data m = Some d ->
  Message.to_json m w =
  (Ok (json.dumps
         (VDict [("uuid"%string, uuid m); ("code"%string, code m); ("data"%string, d)])),
   w).
Proof.
  intros H. unfold Message.to_json. rewrite bind_run. by rewrite (to_dict_run m w d H).
Qed.

(** Reading a dict with the three keys of [to_dict] back into a Message. *)
Lemma construct_three (cls : Message.defaults) (u c d : value) (w : World) :
  Message.construct cls
    (VDict [("uuid"%string, u); ("code"%string, c); ("data"%string, d)]) w =
  (Ok {| uuid := u; code := c; data := length (heap w) |},
   with_heap (fun h => h ++ [d]) w).
Proof. reflexivity. Qed.

Lemma heap_alloc (w : World) (d : value) :
  heap (with_heap (fun h => h ++ [d]) w) !! length (heap w) = Some d.
Proof. cbn. by rewrite lookup_app_r, Nat.sub_diag. Qed.

(** Decoding the encoding of a Message, on the values of this model of
    the json module: None, bool, int, str of code points below 256,
    list, and dict with str keys (no key twice).  There [to_json]
    returns a text, [from_json] of that text returns a Message, and the
    uuid, the code and the value of the data of the two Messages are
    equal.  A float, a code point above 255, an int of more digits than
    the interpreter converts and a nesting deeper than its recursion
    limit are outside the model, and this lemma says nothing about
    them. *)
Lemma from_json_to_json_in_the_model (cls : Message.defaults) (m : Message) (w : World)
  (d : value) :
  heap w !! data m = Some d ->
  wf (uuid m) = true -> wf (code m) = true -> wf d = true ->
  exists (text : string) (m' : Message) (w' : World),
    Message.to_json m w = (Ok text, w)
    /\ Message.from_json cls text w = (Ok m', w')
    /\ uuid m' = uuid m /\ code m' = code m
    /\ heap w' !! data m' = Some d.
Proof.
  intros Hd Hu Hc Hwf.
  eexists _, _, _. split; [by apply to_json_run|].
  unfold Message.from_json. rewrite bind_run. unfold lift.
  rewrite json_facts.loads_dumps.
  - rewrite construct_three. repeat split. apply heap_alloc.
  - cbn. by rewrite Hu, Hc, Hwf.
Qed.

Lemma define_world0 : Message.define world0 = (Ok cls0, world1).
Proof. reflexivity. Qed.

(** The round trip of [ping]. *)
Example ping_round_trip :
  exists (text : string) (m' : Message) (w' : World),
    Message.to_json ping world2 = (Ok text, world2)
    /\ Message.from_json cls0 text world2 = (Ok m', w')
    /\ uuid m' = uuid ping /\ code m' = code ping
    /\ heap w' !! data m' = Some (VDict [("x"%string, VInt 1)]).
Proof.
  apply (from_json_to_json_in_the_model cls0 ping world2 (VDict [("x"%string, VInt 1)]));
    reflexivity.
Qed.

(** C4, as the code behaves: the default id is one value, made when the
    class is defined and given to every Message built without an id. *)
Theorem C4_default_uuid_is_shared (w : World) (c1 c2 : value) (d1 d2 : option nat) :
  exists (cls : Message.defaults) (w' : World),
    Message.define w = (Ok cls, w')
    /\ uuid (Message.__init__ cls c1 None d1) = VInt (uuid4_int (urandom w (drawn w)))
    /\ uuid (Message.__init__ cls c2 None d2) = uuid (Message.__init__ cls c1 None d1)
    /\ drawn w' = S (drawn w).
Proof. eexists _, _. repeat split. Qed.

(** C5, as the code behaves: Messages built without a payload refer to
    one dict, empty when the class is defined; an item stored through one
    of them is read through the other. *)
Theorem C5_default_payload_is_shared (w : World) (c1 c2 : value)
  (u1 u2 : option value) (k : string) (v : value) :
  exists (cls : Message.defaults) (w1 w2 : World),
    Message.define w = (Ok cls, w1)
    /\ data (Message.__init__ cls c1 u1 None) = data (Message.__init__ cls c2 u2 None)
    /\ deref (data (Message.__init__ cls c2 u2 None)) w1 = (Ok (VDict []), w1)
    /\ setitem (data (Message.__init__ cls c1 u1 None)) k v w1 = (Ok tt, w2)
    /\ deref (data (Message.__init__ cls c2 u2 None)) w2 = (Ok (VDict [(k, v)]), w2).
Proof.
  eexists _, _, _. split; [reflexivity|]. split; [reflexivity|].
  assert (Hl : forall x, (heap w ++ [x]) !! length (heap w) = Some x).
  { intros x. by rewrite lookup_app_r, Nat.sub_diag. }
  split; [|split].
  - unfold deref. cbn. by rewrite Hl.
  - unfold setitem. cbn. rewrite Hl. reflexivity.
  - unfold deref. cbn. rewrite list_lookup_insert_eq; [done|].
    rewrite length_app. cbn. lia.
Qed.

(** C7, as stated, fails: the object on the wire has a field [uuid] and
    no field [id]; and a Message built as examples/client.py builds it,
    with the code in the place of the id, has a string for [uuid] and a
    number for [code]. *)
Lemma C7_no_id_field :
  exists (text text' : string),
    Message.to_json ping world2 = (Ok text, world2)
    /\ wire_fields text = Some ["uuid"; "code"; "data"]%string
    /\ ~ (exists ks, wire_fields text = Some ks /\ ks ≡ₚ ["id"; "code"; "data"]%string)
    /\ Message.to_json swapped world2 = (Ok text', world2)
    /\ wire_value text' "uuid" = Some (VStr "PING")
    /\ wire_value text' "code" = Some (VInt 1).
Proof.
  eexists _, _. split; [reflexivity|]. split; [reflexivity|]. split.
  - intros (ks & Hks & Hp). vm_compute in Hks. injection Hks as <-.
    assert (Hin : "id"%string ∈ ["uuid"; "code"; "data"]%string).
    { rewrite Hp. left. }
    apply elem_of_cons in Hin as [?|Hin]; [done|].
    apply elem_of_cons in Hin as [?|Hin]; [done|].
    apply elem_of_cons in Hin as [?|Hin]; [done|].
    by apply elem_of_nil in Hin.
  - split; [reflexivity|]. split; reflexivity.
Qed.

(** C7, amended: the wire text of a Message is the JSON object with
    exactly the three fields [uuid], [code] and [data], in this order,
    holding the encodings of the three attributes; it is ASCII, and it
    decodes to that object. *)
Theorem C7_wire_format (m : Message) (w : World) (d : value) :
  heap w !! data m = Some d ->
  wf (uuid m) = true -> wf (code m) = true -> wf d = true ->
  exists (text : string),
    Message.to_json m w = (Ok text, w)
    /\ chars text =
         chars "{" ++ quoted "uuid" ++ chars ": " ++ encode (uuid m)
         ++ chars ", " ++ quoted "code" ++ chars ": " ++ encode (code m)
         ++ chars ", " ++ quoted "data" ++ chars ": " ++ encode d ++ chars "}"
    /\ forallb ascii7 (chars text) = true
    /\ json.loads text =
         Ok (VDict [("uuid"%string, uuid m); ("code"%string, code m);
                    ("data"%string, d)])
    /\ wire_fields text = Some ["uuid"; "code"; "data"]%string.
Proof.
  intros Hd Hu Hc Hwf. eexists. split; [by apply to_json_run|].
  set (obj := VDict [("uuid"%string, uuid m); ("code"%string, code m);
                     ("data"%string, d)]).
  assert (Hl : json.loads (json.dumps obj) = Ok obj).
  { apply json_facts.loads_dumps. cbn. by rewrite Hu, Hc, Hwf. }
  split; [|split; [|split]].
  - unfold json.dumps, obj. rewrite json_facts.chars_string_of_list.
    rewrite json_facts.encode_dict. cbn [map]. rewrite !json_facts.join_cons2.
    cbn [join]. unfold encode_pair. cbn [fst snd].
    change (encode_str "uuid") with (quoted "uuid").
    change (encode_str "code") with (quoted "code").
    change (encode_str "data") with (quoted "data").
    cbn [chars list_ascii_of_string app].
    repeat (rewrite <- ?app_assoc; cbn [app]). reflexivity.
  - unfold json.dumps. rewrite json_facts.chars_string_of_list.
    apply json_ascii.ascii_encode.
  - exact Hl.
  - unfold wire_fields. by rewrite Hl.
Qed.

Lemma C7_witness :
  exists (text : string),
    Message.to_json ping world2 = (Ok text, world2)
    /\ chars text =
         chars "{" ++ quoted "uuid" ++ chars ": " ++ encode (uuid ping)
         ++ chars ", " ++ quoted "code" ++ chars ": " ++ encode (code ping)
         ++ chars ", " ++ quoted "data" ++ chars ": "
         ++ encode (VDict [("x"%string, VInt 1)]) ++ chars "}"
    /\ forallb ascii7 (chars text) = true
    /\ json.loads text =
         Ok (VDict [("uuid"%string, uuid ping); ("code"%string, code ping);
                    ("data"%string, VDict [("x"%string, VInt 1)])])
    /\ wire_fields text = Some ["uuid"; "code"; "data"]%string.
Proof.
  apply (C7_wire_format ping world2 (VDict [("x"%string, VInt 1)])); reflexivity.
Defined.

(** ** The event loop *)

Lemma sys_eta {T} (s : Sys T) : mkSys (self s) (world s) = s.
Proof. by destruct s. Qed.

Lemma in_world_run {T A} (m : M World A) (s : Sys T) :
  in_world m s = (fst (m (world s)), mkSys (self s) (snd (m (world s)))).
Proof. unfold in_world. by destruct (m (world s)). Qed.




Lemma amend_nil (w : World) : amend w [] [] = w.
Proof. destruct w. unfold amend. cbn. by rewrite !app_nil_r. Qed.

Lemma amend_amend (w : World) st lg st' lg' :
  amend (amend w st lg) st' lg' = amend w (st ++ st') (lg ++ lg').
Proof. unfold amend. cbn. by rewrite !app_assoc. Qed.

Lemma logger_run (lv : level) (r : record) (w : World) :
  logger lv r w = (Ok tt, amend w [] [(lv, r)]).
Proof. destruct w. unfold logger, modify, amend, with_log. cbn. by rewrite app_nil_r. Qed.

Lemma step_run (t : Task) (w : World) :
  step t w =
  (match body (fst t) (snd t) with Some e => Raise e | None => Ok tt end,
   amend w [entry (snd t) (fst t)] []).
Proof.
  unfold step. rewrite bind_run. cbn.
  replace (with_started _ w) with (amend w [entry (snd t) (fst t)] []).
  - by destruct (body (fst t) (snd t)).
  - destruct w. unfold amend, with_started. cbn. by rewrite app_nil_r.
Qed.


(** ** The server *)


Lemma allocated_lookup (m : Message) (w : World) :
  allocated m w = true -> exists d, heap w !! data m = Some d.
Proof.
  unfold allocated. intros H. apply bool_decide_eq_true in H.
  by apply lookup_lt_is_Some_2.
Qed.


(** Decoding a frame touches the heap only: it adds one object at most. *)
Lemma from_json_heap (cls : Message.defaults) (raw : string) (w : World) :
  exists h : list value,
    snd (Message.from_json cls raw w) = with_heap (fun _ => h) w
    /\ (h = heap w \/ exists v, h = heap w ++ [v])
    /\ forall m, fst (Message.from_json cls raw w) = Ok m ->
                 data m = Message.default_data cls \/ h !! data m <> None.
Proof.
  assert (Hsame : w = with_heap (fun _ => heap w) w) by (by destruct w).
  unfold Message.from_json, lift. rewrite bind_run.
  destruct (json.loads raw) as [kw|e| |];
    try (exists (heap w); cbn; split; [exact Hsame|split; [by left|done]]).
  unfold Message.construct.
  destruct kw as [|b|z|str|l|d];
    try (exists (heap w); cbn; split; [exact Hsame|split; [by left|done]]).
  destruct (forallb _ d);
    [|exists (heap w); cbn; split; [exact Hsame|split; [by left|done]]].
  destruct (Message.keyword "code" d) as [c|];
    [|exists (heap w); cbn; split; [exact Hsame|split; [by left|done]]].
  rewrite bind_run. destruct (Message.keyword "data" d) as [v|].
  - exists (heap w ++ [v]). cbn. split; [by destruct w|]. split; [eauto|].
    intros m [= <-]. right. cbn. by rewrite lookup_app_r, Nat.sub_diag.
  - exists (heap w). cbn. split; [exact Hsame|]. split; [by left|].
    intros m [= <-]. by left.
Qed.

Lemma from_json_amend (cls : Message.defaults) (raw : string) (w : World)
  (st : list (string * list object)) (lg : list (level * record)) :
  Message.from_json cls raw (amend w st lg) =
  (fst (Message.from_json cls raw w), amend (snd (Message.from_json cls raw w)) st lg).
Proof.
  unfold Message.from_json, lift. rewrite !bind_run.
  destruct (json.loads raw) as [kw|e| |]; try reflexivity.
  unfold Message.construct. destruct kw as [|b|z|str|l|d]; try reflexivity.
  destruct (forallb _ d); [|reflexivity].
  destruct (Message.keyword "code" d) as [c|]; [|reflexivity].
  rewrite !bind_run. destruct (Message.keyword "data" d) as [v|]; reflexivity.
Qed.

Lemma defined_lookup (cls : Message.defaults) (w : World) :
  defined cls w = true -> heap w !! Message.default_data cls <> None.
Proof.
  unfold defined. intros H. apply bool_decide_eq_true in H.
  apply lookup_lt_is_Some_2 in H as [d ->]. done.
Qed.

(** The Message decoded from a frame refers to an object that is there. *)
Lemma from_json_allocated (cls : Message.defaults) (raw : string) (w : World)
  (m : Message) :
  defined cls w = true ->
  fst (Message.from_json cls raw w) = Ok m ->
  exists (h : list value) (d : value),
    snd (Message.from_json cls raw w) = with_heap (fun _ => h) w
    /\ h !! data m = Some d
    /\ (h = heap w \/ exists v, h = heap w ++ [v]).
Proof.
  intros Hdef Hm. destruct (from_json_heap cls raw w) as (h & Hh & Hext & Hdata).
  assert (Hl : h !! data m <> None).
  { destruct (Hdata m Hm) as [E|?]; [|done]. rewrite E.
    apply defined_lookup in Hdef. destruct Hext as [->|[v ->]]; [done|].
    destruct (heap w !! Message.default_data cls) as [x|] eqn:Ex; [|done].
    by rewrite (lookup_app_l_Some _ _ _ _ Ex). }
  destruct (h !! data m) as [d|] eqn:E; [|done]. eauto.
Qed.

(** A plain function that raises ends the fan-out where it stands: when
    it is the first handler matched, it is the only one started. *)
Lemma server_dispatch_plain_raises (s : Sys Server.t) (msg : Message) (ws : nat)
  (d : value) (k : key) (f : Callable) (rest : list Callable) (e : exn) :
  heap (world s) !! data msg = Some d ->
  hash_key (code msg) = Ok k ->
  handlers (Server._registed_callbacks (self s)) k = f :: rest ->
  iscoroutinefunction f = false ->
  body f [Msg msg; Sock ws] = Some e ->
  exists text : string,
    Server._dispatch_message msg ws s =
    (Raise e,
     mkSys (self s)
       (amend (world s) [entry [Msg msg; Sock ws] f] [(DEBUG, Dispatching text)])).
Proof.
  intros Hd Hk Hf Hplain He.
  exists (json.dumps (VDict [("uuid"%string, uuid msg); ("code"%string, code msg);
                             ("data"%string, d)])).
  unfold Server._dispatch_message.
  rewrite bind_run, in_world_run, (to_json_run msg _ d Hd). cbn [fst snd].
  rewrite bind_run, in_world_run, logger_run. cbn [fst snd].
  rewrite bind_run. cbn [foldM].
  rewrite bind_run, bind_run. unfold lift at 1. rewrite Hk.
  rewrite bind_run. unfold gets at 1. cbn [self].
  unfold handlers in Hf. rewrite Hf. cbn [foldM].
  rewrite bind_run, bind_run, in_world_run. unfold call. rewrite Hplain.
  rewrite bind_run. unfold modify at 1. rewrite He. cbn [fst snd raise world].
  f_equal. f_equal. destruct s as [c []]. unfold amend, with_started. cbn.
  by rewrite app_nil_r.
Qed.


Lemma hash_key_ALL (v : value) : hash_key v = Ok (KStr "ALL") -> v = VStr "ALL".
Proof. destruct v as [|[]|z|s|l|d]; cbn; intros H; by simplify_eq. Qed.





(** ** The client *)

Lemma getattr_events (c : Client.t) :
  Client.getattr c "_events" = Raise (AttributeError "_events").
Proof. reflexivity. Qed.

(** [Client._dispatch_message] stops at [self._events]: no handler is
    called and nothing but the logger is touched. *)
Lemma client_dispatch_run (msg : Message) (s : Sys Client.t) :
  Client._dispatch_message msg s =
  match heap (world s) !! data msg with
  | Some d =>
      (Raise (AttributeError "_events"),
       mkSys (self s)
         (amend (world s) []
            [(DEBUG, Dispatching
                       (json.dumps (VDict [("uuid"%string, uuid msg);
                                           ("code"%string, code msg);
                                           ("data"%string, d)])))]))
  | None => (Unmodelled, s)
  end.
Proof.
  unfold Client._dispatch_message. rewrite bind_run, in_world_run.
  destruct (heap (world s) !! data msg) as [d|] eqn:Hd.
  - rewrite (to_json_run msg _ d Hd). cbn [fst snd].
    rewrite bind_run, in_world_run, logger_run. cbn [fst snd].
    rewrite bind_run. cbn [foldM]. rewrite bind_run, bind_run. unfold gets at 1.
    rewrite bind_run. unfold lift at 1. cbn [self]. rewrite getattr_events.
    reflexivity.
  - unfold Message.to_json, Message.to_dict, deref. rewrite !bind_run, Hd.
    cbn [fst snd]. by rewrite sys_eta.
Qed.

(** [from_json] leaves the model only when the decoder does. *)
Lemma from_json_outside (cls : Message.defaults) (raw : string) (w : World) :
  fst (Message.from_json cls raw w) = Unmodelled
  \/ fst (Message.from_json cls raw w) = Blocked ->
  in_model (Client.Frame raw) = false.
Proof.
  unfold Message.from_json, lift, in_model. rewrite bind_run.
  destruct (json.loads raw) as [kw|e| |]; cbn [fst]; try (intros [?|?]; done).
  unfold Message.construct. destruct kw as [|b|z|str|l|d]; try (intros [?|?]; done).
  destruct (forallb _ d); [|intros [?|?]; done].
  destruct (Message.keyword "code" d); [|intros [?|?]; done].
  rewrite bind_run. destruct (Message.keyword "data" d); intros [?|?]; done.
Qed.

(** What processing a frame leaves behind on the client: the Client
    object as it was, the world as it was but for the heap, which may
    hold one more object, and the log. *)
Lemma client_process_run (cls : Message.defaults) (raw : string) (s : Sys Client.t) :
  exists (r : Res unit) (h : list value) (lg : list (level * record)),
    Client._process_message cls raw s =
      (r, mkSys (self s) (amend (with_heap (fun _ => h) (world s)) [] lg))
    /\ (h = heap (world s) \/ exists v, h = heap (world s) ++ [v])
    /\ (r = Ok tt \/ r = Unmodelled \/ r = Blocked)
    /\ (defined cls (world s) = true -> in_model (Client.Frame raw) = true -> r = Ok tt).
Proof.
  destruct (from_json_heap cls raw (world s)) as (h & Hh & Hext & Hdata).
  unfold Client._process_message, try_except. rewrite bind_run, in_world_run.
  rewrite Hh. destruct (fst (Message.from_json cls raw (world s))) as [m|e| |] eqn:Hr.
  - rewrite bind_run, client_dispatch_run. cbn [world self].
    change (heap (with_heap (fun _ => h) (world s))) with h.
    destruct (h !! data m) as [d|] eqn:Hd.
    + rewrite in_world_run, logger_run. cbn [fst snd self world].
      rewrite amend_amend. cbn [app].
      eexists _, h, _. split; [reflexivity|]. split; [exact Hext|]. split; [by left|done].
    + exists Unmodelled, h, []. rewrite amend_nil. split; [reflexivity|].
      split; [exact Hext|]. split; [by right; left|]. intros Hdef _. exfalso.
      destruct (Hdata m eq_refl) as [E|?]; [|done]. rewrite E in Hd.
      apply defined_lookup in Hdef. destruct Hext as [->|[v ->]]; [done|].
      destruct (heap (world s) !! Message.default_data cls) as [x|] eqn:Ex; [|done].
      by rewrite (lookup_app_l_Some _ _ _ _ Ex) in Hd.
  - rewrite in_world_run, logger_run. cbn [fst snd self world].
    eexists _, h, _. split; [reflexivity|]. split; [exact Hext|]. split; [by left|done].
  - exists Unmodelled, h, []. rewrite amend_nil. split; [reflexivity|].
    split; [exact Hext|]. split; [by right; left|]. intros _ Hin. exfalso.
    rewrite (from_json_outside cls raw (world s)) in Hin; [done|by left].
  - exists Blocked, h, []. rewrite amend_nil. split; [reflexivity|].
    split; [exact Hext|]. split; [by right; right|]. intros _ Hin. exfalso.
    rewrite (from_json_outside cls raw (world s)) in Hin; [done|by right].
Qed.

(** C2, as the code behaves: whatever the frame, the client's
    [_process_message] starts no handler and resolves no pending wait;
    the Client object is left as it was. *)
Theorem C2_client_frame_reaches_no_handler (cls : Message.defaults) (raw : string)
  (s : Sys Client.t) :
  let s' := snd (Client._process_message cls raw s) in
  started (world s') = started (world s)
  /\ futures (world s') = futures (world s)
  /\ self s' = self s.
Proof.
  destruct (client_process_run cls raw s) as (r & h & lg & Hrun & _).
  cbn zeta. rewrite Hrun. cbn. by rewrite app_nil_r.
Qed.

Lemma evolves_refl (s : Sys Client.t) : evolves s s.
Proof. unfold evolves. split_and!; try done. exists []. by rewrite app_nil_r. Qed.

Lemma evolves_trans (s1 s2 s3 : Sys Client.t) :
  evolves s1 s2 -> evolves s2 s3 -> evolves s1 s3.
Proof.
  intros (A1 & C1 & D1 & lg1 & E1) (A2 & C2 & D2 & lg2 & E2).
  unfold evolves. split_and!; [congruence..|lia|]. exists (lg1 ++ lg2).
  by rewrite E2, E1, app_assoc.
Qed.

Lemma evolves_amend (s : Sys Client.t) (h : list value) (lg : list (level * record)) :
  h = heap (world s) \/ (exists v, h = heap (world s) ++ [v]) ->
  evolves s (mkSys (self s) (amend (with_heap (fun _ => h) (world s)) [] lg)).
Proof.
  intros Hext. unfold evolves. cbn. split; [done|].
  split; [by rewrite app_nil_r|]. split; [|by exists lg].
  destruct Hext as [->|[v ->]]; [lia|]. rewrite length_app. lia.
Qed.

Lemma turn_run (cls : Message.defaults) (o : Client.occurrence) (s : Sys Client.t) :
  exists (r : Res unit) (s' : Sys Client.t),
    Client.turn cls o s = (r, s')
    /\ (r = Ok tt \/ r = Unmodelled \/ r = Blocked)
    /\ evolves s s'
    /\ futures (world s') = futures (world s)
    /\ now (world s') = (now (world s) + elapsed [o])%N
    /\ (is_close o = false -> Client._websocket (self s') = Client._websocket (self s))
    /\ (defined cls (world s) = true -> in_model o = true -> r = Ok tt).
Proof.
  destruct o as [raw|dt|clean]; unfold Client.turn.
  - rewrite bind_run. unfold gets at 1. destruct (reader (world s)).
    + destruct (client_process_run cls raw s) as (r & h & lg & Hrun & Hext & Hr & Hok).
      eexists _, _. split; [exact Hrun|]. split; [exact Hr|].
      split; [by apply evolves_amend|]. cbn. split; [done|]. split; [lia|by split].
    + eexists _, _. split; [reflexivity|]. split; [by left|].
      split; [apply evolves_refl|]. cbn. split; [done|]. split; [lia|done].
  - rewrite in_world_run. eexists _, _. split; [reflexivity|].
    split; [by left|]. unfold evolves. cbn.
    split_and!; try done; try lia. exists []. by rewrite app_nil_r.
  - unfold Client.turn. rewrite bind_run. unfold on_self, modify. cbn beta iota.
    rewrite bind_run. unfold gets. cbn beta iota. cbn [world self].
    destruct (reader (world s)), clean; rewrite bind_run.
    all: rewrite ?in_world_run, ?logger_run; cbn [mret M_ret fst snd world self].
    all: rewrite ?in_world_run; cbn [fst snd world self].
    all: eexists _, _; split; [reflexivity|]; split; [by left|].
    all: unfold evolves; cbn; split_and!; try done; try lia.
    all: try (exists []; by rewrite app_nil_r).
    all: rewrite ?app_nil_r; try done.
    by eexists.
Qed.

(** The schedule model agrees with [_message_handler]: frames and then a
    closure, served one by one while the reading task is alive, do what
    [_message_handler] does with these frames and this closure. *)
Lemma turns_are_message_handler (cls : Message.defaults) (frames : list string)
  (clean : bool) (s : Sys Client.t) :
  reader (world s) = true ->
  foldM (fun _ o => Client.turn cls o)
        (map Client.Frame frames ++ [Client.Close clean]) tt s
  = (_ ← Client._message_handler cls frames clean; finished) s.
Proof.
  revert s. induction frames as [|raw frames IH]; intros s Halive.
  - destruct clean; cbn;
      unfold Client._message_handler, finished, try_except, on_self, gets, modify,
        in_world, logger, raise, mbind, M_bind, mret, M_ret; cbn;
      rewrite Halive; reflexivity.
  - cbn [map app foldM]. rewrite bind_run.
    assert (Hturn : Client.turn cls (Client.Frame raw) s
                    = Client._process_message cls raw s).
    { unfold Client.turn. rewrite bind_run. unfold gets. by rewrite Halive. }
    rewrite Hturn.
    destruct (client_process_run cls raw s) as (r & h & lg & Hrun & _ & Hr & _).
    unfold Client._message_handler, try_except in *. rewrite !bind_run.
    cbn [foldM]. rewrite !bind_run, Hrun.
    destruct Hr as [->|[->| ->]]; [|reflexivity..].
    specialize (IH (mkSys (self s) (amend (with_heap (fun _ => h) (world s)) [] lg))
                  Halive).
    rewrite IH, !bind_run. reflexivity.
Qed.

Lemma defined_grows (cls : Message.defaults) (w w' : World) :
  (length (heap w) <= length (heap w'))%nat -> defined cls w = true ->
  defined cls w' = true.
Proof.
  unfold defined. intros Hle H. apply bool_decide_eq_true in H.
  apply bool_decide_eq_true. lia.
Qed.

Lemma allocated_grows (m : Message) (w w' : World) :
  (length (heap w) <= length (heap w'))%nat -> allocated m w = true ->
  allocated m w' = true.
Proof.
  unfold allocated. intros Hle H. apply bool_decide_eq_true in H.
  apply bool_decide_eq_true. lia.
Qed.

Lemma wait_for_unfold (cls : Message.defaults) (fut : nat) (deadline : N)
  (sched : list Client.occurrence) (s : Sys Client.t) :
  futures (world s) !! fut = Some Pending ->
  Client.wait_for cls fut deadline sched s =
  if (deadline <=? now (world s))%N then
    (Raise TimeoutError,
     mkSys (self s) (with_futures (fun l => <[fut := Cancelled]> l) (world s)))
  else
    match sched with
    | [] => (Blocked, s)
    | o :: sched' =>
        match Client.turn cls o s with
        | (Ok _, s1) => Client.wait_for cls fut deadline sched' s1
        | (Raise e, s1) => (Raise e, s1)
        | (Unmodelled, s1) => (Unmodelled, s1)
        | (Blocked, s1) => (Blocked, s1)
        end
    end.
Proof.
  intros Hfut.
  destruct sched as [|o sched']; cbn [Client.wait_for];
    rewrite bind_run; unfold gets at 1; cbn beta iota; rewrite Hfut;
    rewrite bind_run; unfold gets at 1; cbn beta iota;
    destruct (deadline <=? now (world s))%N; try reflexivity;
    rewrite bind_run, in_world_run; unfold cancel; rewrite Hfut; reflexivity.
Qed.

(** A wait on a pending future, against a schedule: no occurrence
    resolves the future, so the wait ends with the timer or not at all. *)
Lemma wait_for_run (cls : Message.defaults) (fut : nat) (deadline : N)
  (sched : list Client.occurrence) (s : Sys Client.t) :
  futures (world s) !! fut = Some Pending ->
  exists (r : Res Message) (s' : Sys Client.t),
    Client.wait_for cls fut deadline sched s = (r, s')
    /\ evolves s s'
    /\ (r = Raise TimeoutError /\ (deadline <= now (world s'))%N
        \/ r = Blocked \/ r = Unmodelled)
    /\ (forallb (fun o => negb (is_close o)) sched = true ->
        Client._websocket (self s') = Client._websocket (self s))
    /\ (defined cls (world s) = true -> forallb in_model sched = true ->
        ((deadline <= now (world s) + elapsed sched)%N -> r = Raise TimeoutError)
        /\ ((now (world s) + elapsed sched < deadline)%N -> r = Blocked)).
Proof.
  revert s. induction sched as [|o sched IH]; intros s Hfut;
    rewrite (wait_for_unfold cls fut deadline _ s Hfut);
    destruct (N.leb_spec deadline (now (world s))) as [Hle|Hlt].
  - eexists _, _. split; [reflexivity|]. split.
    { unfold evolves. cbn. split_and!; try done. exists []. by rewrite app_nil_r. }
    cbn. split; [by left|]. split; [done|]. intros _ _. split; [done|lia].
  - eexists _, _. split; [reflexivity|]. split; [apply evolves_refl|].
    split; [by right; left|]. split; [done|]. intros _ _. cbn. split; [lia|done].
  - eexists _, _. split; [reflexivity|]. split.
    { unfold evolves. cbn. split_and!; try done. exists []. by rewrite app_nil_r. }
    cbn [world now with_futures]. split; [by left|]. split; [done|].
    intros _ _. split; [done|]. destruct o; cbn [elapsed]; lia.
  - destruct (turn_run cls o s) as (r1 & s1 & Hturn & Hr1 & Hev & Hf1 & Hnow & Hws & Hok).
    rewrite Hturn.
    assert (Hel : elapsed (o :: sched) = (elapsed [o] + elapsed sched)%N).
    { destruct o; cbn [elapsed]; lia. }
    destruct Hr1 as [->|[->| ->]].
    + assert (Hfut1 : futures (world s1) !! fut = Some Pending) by (by rewrite Hf1).
      destruct (IH s1 Hfut1) as (r & s' & Hrun & Hev' & Hr & Hws' & Hok').
      exists r, s'. split; [exact Hrun|]. split; [by eapply evolves_trans|].
      split; [exact Hr|]. split.
      * cbn [forallb]. intros Hc. apply andb_prop in Hc as [Ho Hc].
        rewrite (Hws' Hc). apply Hws. by apply negb_true_iff in Ho.
      * cbn [forallb]. intros Hdef Hin. apply andb_prop in Hin as [Ho Hin].
        destruct Hev as (_ & _ & Hheap & _).
        destruct (Hok' (defined_grows cls _ _ Hheap Hdef) Hin) as [H1 H2].
        rewrite Hel. split; intros Hd; [apply H1|apply H2]; lia.
    + eexists _, _. split; [reflexivity|]. split; [exact Hev|].
      split; [by right; right|]. split.
      * cbn [forallb]. intros Hc. apply andb_prop in Hc as [Ho Hc].
        apply Hws. by apply negb_true_iff in Ho.
      * cbn [forallb]. intros Hdef Hin. apply andb_prop in Hin as [Ho Hin].
        by specialize (Hok Hdef Ho).
    + eexists _, _. split; [reflexivity|]. split; [exact Hev|].
      split; [by right; left|]. split.
      * cbn [forallb]. intros Hc. apply andb_prop in Hc as [Ho Hc].
        apply Hws. by apply negb_true_iff in Ho.
      * cbn [forallb]. intros Hdef Hin. apply andb_prop in Hin as [Ho Hin].
        by specialize (Hok Hdef Ho).
Qed.

Lemma send_msg_blocking_unfold (cls : Message.defaults) (msg : Message) (T : N)
  (sched : list Client.occurrence) (s : Sys Client.t) (ws : Client.WebSocket)
  (d : value) (k : key) :
  Client._websocket (self s) = Some ws -> Client.open ws = true ->
  heap (world s) !! data msg = Some d ->
  hash_key (uuid msg) = Ok k ->
  let text := json.dumps (VDict [("uuid"%string, uuid msg); ("code"%string, code msg);
                                 ("data"%string, d)]) in
  Client.send_msg cls msg true T sched s =
  try_finally
    (try_except
       (n ← gets (fun s => now (world s));
        response ← Client.wait_for cls (length (futures (world s))) (n + T)%N sched;
        mret (Some response))
       (fun e =>
          match e with
          | TimeoutError =>
              _ ← in_world (logger WARNING (TimeoutWaiting (uuid msg)));
              mret None
          | _ => raise e
          end))
    (on_self (Client.set_futures (fun d => delete k d)))
    (waiting s ws text k).
Proof.
  intros Hws Hopen Hd Hk text. unfold Client.send_msg.
  rewrite bind_run. unfold gets at 1. cbn beta iota. rewrite Hws.
  rewrite bind_run. cbn [mret M_ret].
  rewrite bind_run, in_world_run, (to_json_run msg _ d Hd). cbn [fst snd].
  rewrite sys_eta. rewrite bind_run, in_world_run, logger_run. cbn [fst snd].
  rewrite bind_run, in_world_run. cbn [world].
  rewrite (to_json_run msg (amend (world s) [] _) d Hd). cbn [fst snd].
  rewrite bind_run. unfold Client.send. rewrite bind_run. unfold gets at 1.
  cbn beta iota. cbn [self]. rewrite Hws, Hopen.
  unfold on_self at 1, modify at 1. cbn beta iota. cbn [self world].
  rewrite bind_run, in_world_run. unfold create_future. cbn [fst snd world self].
  rewrite bind_run. unfold lift at 1. rewrite Hk.
  rewrite bind_run. unfold on_self at 1, modify at 1. cbn beta iota.
  cbn [self world]. reflexivity.
Qed.

Lemma waiting_pending (s : Sys Client.t) (ws : Client.WebSocket) (text : string)
  (k : key) :
  futures (world (waiting s ws text k)) !! length (futures (world s)) = Some Pending.
Proof. cbn. by rewrite lookup_app_r, Nat.sub_diag. Qed.

(** The blocking send of a connected client: it ends with the timer
    (and returns None) when enough time passes, and stays blocked
    otherwise. *)
Lemma send_msg_blocking_run (cls : Message.defaults) (msg : Message) (T : N)
  (sched : list Client.occurrence) (s : Sys Client.t) (k : key) :
  connected s = true ->
  allocated msg (world s) = true ->
  hash_key (uuid msg) = Ok k ->
  exists (r : Res (option Message)) (s' : Sys Client.t),
    Client.send_msg cls msg true T sched s = (r, s')
    /\ (r = Ok None \/ r = Blocked \/ r = Unmodelled)
    /\ (r = Ok None ->
        (now (world s) + T <= now (world s'))%N
        /\ Client._response_futures (self s') !! k = None
        /\ (WARNING, TimeoutWaiting (uuid msg)) ∈ log (world s'))
    /\ (length (heap (world s)) <= length (heap (world s')))%nat
    /\ (forallb (fun o => negb (is_close o)) sched = true -> connected s' = true)
    /\ (defined cls (world s) = true -> forallb in_model sched = true ->
        ((T <= elapsed sched)%N -> r = Ok None)
        /\ ((elapsed sched < T)%N -> r = Blocked)).
Proof.
  intros Hconn Hal Hk. unfold connected in Hconn.
  destruct (Client._websocket (self s)) as [ws|] eqn:Hws; [|done].
  destruct (allocated_lookup _ _ Hal) as (d & Hd).
  rewrite (send_msg_blocking_unfold cls msg T sched s ws d k Hws Hconn Hd Hk).
  set (text := json.dumps _). set (s0 := waiting s ws text k).
  destruct (wait_for_run cls (length (futures (world s))) (now (world s0) + T)%N sched s0
              (waiting_pending s ws text k))
    as (r & s1 & Hrun & Hev & Hr & Hsock & Hok).
  destruct Hev as (Hrf & Hst & Hheap & lg & Hlog).
  unfold try_finally, try_except. rewrite bind_run. unfold gets at 1.
  cbn beta iota. rewrite bind_run, Hrun.
  assert (Hnow0 : now (world s0) = now (world s)) by reflexivity.
  change (heap (world s0)) with (heap (world s)) in Hheap.
  destruct Hr as [[-> Hdl]|[->| ->]].
  - rewrite bind_run, in_world_run, logger_run. cbn [fst snd mret M_ret].
    rewrite bind_run. unfold on_self, modify. cbn [self world].
    eexists _, _. split; [reflexivity|]. split; [by left|]. split.
    { intros _. cbn [self world Client.set_futures Client._response_futures].
      rewrite lookup_delete_eq. split; [cbn; lia|]. split; [done|].
      cbn. apply elem_of_app. right. by left. }
    cbn [self world]. split; [cbn; lia|]. split.
    { intros Hc. unfold connected. cbn. by rewrite (Hsock Hc). }
    intros Hdef Hin. split; [done|]. intros Hlt.
    destruct (Hok Hdef Hin) as [_ H2]. rewrite Hnow0 in H2.
    assert (Hc : @Raise Message TimeoutError = Blocked) by (apply H2; lia). done.
  - eexists _, _. split; [reflexivity|]. split; [by right; left|].
    split; [done|]. split; [lia|]. split.
    { intros Hc. unfold connected. by rewrite (Hsock Hc). }
    intros Hdef Hin. split; [|done]. intros Hle.
    destruct (Hok Hdef Hin) as [H1 _]. rewrite Hnow0 in H1.
    assert (Hc : @Blocked Message = Raise TimeoutError) by (apply H1; lia). done.
  - eexists _, _. split; [reflexivity|]. split; [by right; right|].
    split; [done|]. split; [lia|]. split.
    { intros Hc. unfold connected. by rewrite (Hsock Hc). }
    intros Hdef Hin. destruct (Hok Hdef Hin) as [H1 H2]. rewrite Hnow0 in H1, H2.
    destruct (N.le_gt_cases T (elapsed sched)) as [Hle|Hlt].
    + assert (Hc : @Unmodelled Message = Raise TimeoutError) by (apply H1; lia). done.
    + assert (Hc : @Unmodelled Message = Blocked) by (apply H2; lia). done.
Qed.

(** *** A reply never comes back from a send *)

Lemma bind_reply {S A} (m : M S A) (k : A -> M S (option Message)) (s : S) :
  is_reply (fst ((x ← m; k x) s)) = true ->
  exists a s', m s = (Ok a, s') /\ is_reply (fst (k a s')) = true.
Proof.
  rewrite bind_run. destruct (m s) as [[a|e| |] s']; cbn; try done. eauto.
Qed.

Lemma try_finally_reply {S} (body : M S (option Message)) (fin : M S unit) (s : S) :
  is_reply (fst (try_finally body fin s)) = true -> is_reply (fst (body s)) = true.
Proof.
  unfold try_finally. destruct (body s) as [[a|e| |] s']; try done.
  - rewrite bind_run. destruct (fin s') as [[[]|e| |] s'']; done.
  - rewrite bind_run. destruct (fin s') as [[[]|e'| |] s'']; done.
Qed.

Lemma wait_reply (cls : Message.defaults) (fut : nat) (sched : list Client.occurrence)
  (T : N) (id : value) (s : Sys Client.t) :
  futures (world s) !! fut = Some Pending ->
  is_reply
    (fst (try_except
            (n ← gets (fun s => now (world s));
             response ← Client.wait_for cls fut (n + T)%N sched;
             mret (Some response))
            (fun e =>
               match e with
               | TimeoutError =>
                   _ ← in_world (logger WARNING (TimeoutWaiting id));
                   mret None
               | _ => raise e
               end) s)) = false.
Proof.
  intros Hfut. unfold try_except. rewrite bind_run. unfold gets at 1. cbn beta iota.
  rewrite bind_run.
  destruct (wait_for_run cls fut (now (world s) + T)%N sched s Hfut)
    as (r & s' & -> & _ & Hr & _).
  destruct Hr as [[-> _]|[->| ->]]; done.
Qed.

(** C1, as the code behaves: whatever arrives while it waits, a send
    never returns a reply; a blocking send is left to its timeout. *)
Theorem C1_send_never_returns_the_reply (cls : Message.defaults) (msg : Message)
  (blocking : bool) (T : N) (sched : list Client.occurrence) (s : Sys Client.t) :
  is_reply (fst (Client.send_msg cls msg blocking T sched s)) = false.
Proof.
  apply not_true_is_false. intros H. unfold Client.send_msg in H.
  apply bind_reply in H as (ws & s1 & _ & H).
  apply bind_reply in H as (? & s2 & _ & H).
  apply bind_reply in H as (text & s3 & _ & H).
  apply bind_reply in H as (? & s4 & _ & H).
  apply bind_reply in H as (text' & s5 & _ & H).
  apply bind_reply in H as (? & s6 & _ & H).
  destruct blocking; [|done].
  apply bind_reply in H as (fut & s7 & Hfut & H).
  apply bind_reply in H as (k & s8 & Hk & H).
  apply bind_reply in H as (? & s9 & Hset & H).
  apply try_finally_reply in H.
  rewrite wait_reply in H; [done|].
  rewrite in_world_run in Hfut. injection Hfut as <- <-.
  unfold lift in Hk. injection Hk as _ <-.
  unfold on_self, modify in Hset. injection Hset as Hs9. subst s9.
  cbn. by rewrite lookup_app_r, Nat.sub_diag.
Qed.

Lemma elapsed_app (a b : list Client.occurrence) :
  elapsed (a ++ b) = (elapsed a + elapsed b)%N.
Proof.
  induction a as [|o a IH]; [done|]. destruct o; cbn [app elapsed]; rewrite IH; lia.
Qed.

(** C9: a blocking send whose timeout elapses returns None, an ordinary
    result, no earlier than the timeout; its slot is removed, and a later
    blocking send with the same id goes through the same way. *)
Theorem C9_timeout_returns_none_and_frees_the_slot (cls : Message.defaults)
  (msg : Message) (T : N) (sched : list Client.occurrence) (s : Sys Client.t)
  (k : key) :
  connected s = true ->
  allocated msg (world s) = true ->
  defined cls (world s) = true ->
  hash_key (uuid msg) = Ok k ->
  forallb in_model sched = true ->
  (T <= elapsed sched)%N ->
  exists s' : Sys Client.t,
    Client.send_msg cls msg true T sched s = (Ok None, s')
    /\ (now (world s) + T <= now (world s'))%N
    /\ Client._response_futures (self s') !! k = None
    /\ (WARNING, TimeoutWaiting (uuid msg)) ∈ log (world s')
    /\ (connected s' = true ->
        forall (T2 : N) (sched2 : list Client.occurrence),
          forallb in_model sched2 = true ->
          exists s'' : Sys Client.t,
            Client.send_msg cls msg true T2 sched2 s' =
            (if (T2 <=? elapsed sched2)%N then Ok None else Blocked, s'')).
Proof.
  intros Hconn Hal Hdef Hk Hin HT.
  destruct (send_msg_blocking_run cls msg T sched s k Hconn Hal Hk)
    as (r & s' & Hrun & _ & Hnone & Hheap & _ & Hok).
  destruct (Hok Hdef Hin) as [Hr _]. specialize (Hr HT). subst r.
  destruct (Hnone eq_refl) as (Hnow & Hslot & Hlog).
  exists s'. split; [exact Hrun|]. split; [exact Hnow|]. split; [exact Hslot|].
  split; [exact Hlog|]. intros Hconn' T2 sched2 Hin2.
  destruct (send_msg_blocking_run cls msg T2 sched2 s' k Hconn'
              (allocated_grows _ _ _ Hheap Hal) Hk)
    as (r2 & s'' & Hrun2 & _ & _ & _ & _ & Hok2).
  destruct (Hok2 (defined_grows _ _ _ Hheap Hdef) Hin2) as [H1 H2].
  exists s''. rewrite Hrun2. f_equal.
  destruct (N.leb_spec T2 (elapsed sched2)); auto.
Qed.

(** C3, amended: the closure of the connection does not unblock a
    pending send.  The send stays blocked after the closure, until its
    own timeout elapses; then it returns None as any send that timed
    out, and its slot is removed. *)
Theorem C3_closure_leaves_the_wait_to_its_timeout (cls : Message.defaults)
  (msg : Message) (T : N) (pre post : list Client.occurrence) (clean : bool)
  (s : Sys Client.t) (k : key) :
  connected s = true ->
  allocated msg (world s) = true ->
  defined cls (world s) = true ->
  hash_key (uuid msg) = Ok k ->
  forallb in_model (pre ++ Client.Close clean :: post) = true ->
  (elapsed pre < T)%N ->
  fst (Client.send_msg cls msg true T (pre ++ [Client.Close clean]) s) = Blocked
  /\ ((elapsed (pre ++ post) < T)%N ->
      fst (Client.send_msg cls msg true T (pre ++ Client.Close clean :: post) s)
      = Blocked)
  /\ ((T <= elapsed (pre ++ post))%N ->
      exists s' : Sys Client.t,
        Client.send_msg cls msg true T (pre ++ Client.Close clean :: post) s
        = (Ok None, s')
        /\ (now (world s) + T <= now (world s'))%N
        /\ Client._response_futures (self s') !! k = None
        /\ (WARNING, TimeoutWaiting (uuid msg)) ∈ log (world s')).
Proof.
  intros Hconn Hal Hdef Hk Hin Hpre.
  assert (Hin1 : forallb in_model (pre ++ [Client.Close clean]) = true).
  { rewrite forallb_app in *. apply andb_prop in Hin as [-> _]. reflexivity. }
  assert (He : forall post', elapsed (pre ++ Client.Close clean :: post')
                             = elapsed (pre ++ post')).
  { intros post'. rewrite !elapsed_app. reflexivity. }
  split; [|split].
  - destruct (send_msg_blocking_run cls msg T (pre ++ [Client.Close clean]) s k
                Hconn Hal Hk) as (r & s' & -> & _ & _ & _ & _ & Hok).
    destruct (Hok Hdef Hin1) as [_ H2]. apply H2.
    rewrite He, app_nil_r. exact Hpre.
  - intros Hlt.
    destruct (send_msg_blocking_run cls msg T (pre ++ Client.Close clean :: post) s k
                Hconn Hal Hk) as (r & s' & -> & _ & _ & _ & _ & Hok).
    destruct (Hok Hdef Hin) as [_ H2]. apply H2. by rewrite He.
  - intros Hle.
    destruct (send_msg_blocking_run cls msg T (pre ++ Client.Close clean :: post) s k
                Hconn Hal Hk) as (r & s' & Hrun & _ & Hnone & _ & _ & Hok).
    destruct (Hok Hdef Hin) as [H1 _]. rewrite He in H1. specialize (H1 Hle). subst r.
    exists s'. split; [exact Hrun|]. by apply Hnone.
Qed.

(** ** The statements at concrete inputs *)



Example wildcard_started_twice :
  started (world (snd (Server._dispatch_message wildcard 7 server1)))
  = [("c"%string, [Msg wildcard; Sock 7]); ("c"%string, [Msg wildcard; Sock 7])].
Proof. vm_compute. reflexivity. Qed.



(** C9 at a send with timeout 30 and no reply. *)
Lemma C9_witness :
  exists s' : Sys Client.t,
    Client.send_msg cls0 ping true 30 [Client.Elapse 10; Client.Elapse 20] client1
    = (Ok None, s')
    /\ (now (world client1) + 30 <= now (world s'))%N
    /\ Client._response_futures (self s') !! KInt 1 = None
    /\ (WARNING, TimeoutWaiting (uuid ping)) ∈ log (world s')
    /\ (connected s' = true ->
        forall (T2 : N) (sched2 : list Client.occurrence),
          forallb in_model sched2 = true ->
          exists s'' : Sys Client.t,
            Client.send_msg cls0 ping true T2 sched2 s' =
            (if (T2 <=? elapsed sched2)%N then Ok None else Blocked, s'')).
Proof.
  apply (C9_timeout_returns_none_and_frees_the_slot cls0 ping 30
           [Client.Elapse 10; Client.Elapse 20] client1 (KInt 1));
    [vm_compute; reflexivity..|simpl; lia].
Defined.

(** C1 at a concrete input: the reply with the id of the request is
    there after 5 of 30 ticks; the send returns None at 30. *)
Example reply_at_5_of_30 :
  let r := Client.send_msg cls0 ping true 30
             [Client.Elapse 5; Client.Frame pong_text; Client.Elapse 25] client1 in
  (uuid <$> fst (Message.from_json cls0 pong_text (world client1))) = Ok (uuid ping)
  /\ fst r = Ok None
  /\ now (world (snd r)) = 30%N
  /\ started (world (snd r)) = []
  /\ (ERROR, ErrorProcessing pong_text (AttributeError "_events")) ∈ log (world (snd r))
  /\ (WARNING, TimeoutWaiting (VInt 1)) ∈ log (world (snd r)).
Proof.
  cbn zeta. split_and!; try (vm_compute; reflexivity);
    vm_compute; apply list_elem_of_In; cbn; tauto.
Qed.

(** C3, as stated, fails: after the connection has closed, the pending
    send is still blocked; it ends when its timeout elapses, with the
    warning of a timeout and the result None, not with ConnectionClosed. *)
Lemma C3_closure_does_not_unblock :
  let after_close :=
    Client.send_msg cls0 ping true 30 [Client.Elapse 5; Client.Close false] client1 in
  let later :=
    Client.send_msg cls0 ping true 30
      [Client.Elapse 5; Client.Close false; Client.Elapse 25] client1 in
  fst after_close = Blocked
  /\ fst after_close <> Raise ConnectionClosed
  /\ connected (snd after_close) = false
  /\ (INFO, ConnectionToServerClosed) ∈ log (world (snd after_close))
  /\ fst later = Ok None
  /\ fst later <> Raise ConnectionClosed
  /\ now (world (snd later)) = 30%N
  /\ (WARNING, TimeoutWaiting (VInt 1)) ∈ log (world (snd later)).
Proof.
  cbn zeta. split_and!; try (vm_compute; reflexivity);
    try (vm_compute; discriminate);
    vm_compute; apply list_elem_of_In; cbn; tauto.
Qed.

(** C3 amended, at a closure after 5 of 30 ticks. *)
Lemma C3_witness :
  fst (Client.send_msg cls0 ping true 30 ([Client.Elapse 5] ++ [Client.Close false])
         client1) = Blocked
  /\ ((elapsed ([Client.Elapse 5] ++ [Client.Elapse 25]) < 30)%N ->
      fst (Client.send_msg cls0 ping true 30
             ([Client.Elapse 5] ++ Client.Close false :: [Client.Elapse 25]) client1)
      = Blocked)
  /\ ((30 <= elapsed ([Client.Elapse 5] ++ [Client.Elapse 25]))%N ->
      exists s' : Sys Client.t,
        Client.send_msg cls0 ping true 30
          ([Client.Elapse 5] ++ Client.Close false :: [Client.Elapse 25]) client1
        = (Ok None, s')
        /\ (now (world client1) + 30 <= now (world s'))%N
        /\ Client._response_futures (self s') !! KInt 1 = None
        /\ (WARNING, TimeoutWaiting (uuid ping)) ∈ log (world s')).
Proof.
  apply (C3_closure_leaves_the_wait_to_its_timeout cls0 ping 30 [Client.Elapse 5]
           [Client.Elapse 25] false client1 (KInt 1));
    [vm_compute; reflexivity..|simpl; lia].
Defined.

(** C2 at a concrete input: a handler is registered for "PONG" and a
    wait is pending for id 1; the frame with code "PONG" and id 1 starts
    no handler and leaves the wait pending. *)
Example reply_and_handler_both_missed :
  let s' := snd (Client._process_message cls0 pong_text client1_waiting) in
  handlers (Client._registed_callbacks (self client1_waiting)) (KStr "PONG")
  = [returning "on_pong"]
  /\ Client._response_futures (self client1_waiting) !! KInt 1 = Some 0%nat
  /\ futures (world client1_waiting) !! 0%nat = Some Pending
  /\ (uuid <$> fst (Message.from_json cls0 pong_text (world client1_waiting)))
     = Ok (VInt 1)
  /\ (code <$> fst (Message.from_json cls0 pong_text (world client1_waiting)))
     = Ok (VStr "PONG")
  /\ started (world s') = []
  /\ futures (world s') !! 0%nat = Some Pending
  /\ (ERROR, ErrorProcessing pong_text (AttributeError "_events")) ∈ log (world s').
Proof.
  cbn zeta. split_and!; try (vm_compute; reflexivity);
    vm_compute; apply list_elem_of_In; cbn; tauto.
Qed.

(** ** The server, whatever the handlers do *)

Lemma handlers_only_refl (w : World) : handlers_only w w.
Proof. unfold handlers_only. split_and!; try done. exists []. by rewrite app_nil_r. Qed.

Lemma handlers_only_trans (w1 w2 w3 : World) :
  handlers_only w1 w2 -> handlers_only w2 w3 -> handlers_only w1 w3.
Proof.
  intros (A1 & B1 & C1 & D1 & E1 & F1 & G1 & st1 & H1)
         (A2 & B2 & C2 & D2 & E2 & F2 & G2 & st2 & H2).
  unfold handlers_only. split_and!; try congruence.
  exists (st1 ++ st2). by rewrite H2, H1, app_assoc.
Qed.

Lemma call_any (f : Callable) (args : list object) (w : World) :
  exists r w', call f args w = (r, w') /\ handlers_only w w'
               /\ (match r with Ok _ | Raise _ => True | _ => False end).
Proof.
  unfold call. destruct (iscoroutinefunction f).
  - eexists _, _. split; [reflexivity|]. split; [apply handlers_only_refl|done].
  - rewrite bind_run. cbn. destruct (body f args);
      (eexists _, _; split; [reflexivity|]; split; [|done]);
      unfold handlers_only; cbn; split_and!; try done; by eexists.
Qed.

Lemma step_any (t : Task) (w : World) :
  exists r w', step t w = (r, w') /\ handlers_only w w'
               /\ (match r with Ok _ | Raise _ => True | _ => False end).
Proof.
  rewrite step_run. eexists _, _. split; [reflexivity|]. split.
  - unfold handlers_only. cbn. split_and!; try done; [by rewrite app_nil_r|by eexists].
  - by destruct (body t.1 t.2).
Qed.

Lemma run_ready_any (w : World) :
  exists w', run_ready w = (Ok tt, w') /\ handlers_only w w' /\ ready w' = [].
Proof.
  unfold run_ready. eexists. split; [reflexivity|]. split; [|done].
  eapply handlers_only_trans with (w2 := fold_left (fun w' t => snd (step t w')) (ready w) w).
  - generalize (ready w) as q. intros q. revert w.
    induction q as [|t q IH]; intros w; [apply handlers_only_refl|].
    cbn [fold_left]. destruct (step_any t w) as (r & w1 & E & H & _). rewrite E. cbn [snd].
    eapply handlers_only_trans; [exact H|apply IH].
  - unfold handlers_only. cbn. split_and!; try done. exists []. by rewrite app_nil_r.
Qed.

Lemma run_children_any (cs : list Task) (w : World) :
  exists r w', run_children cs w = (r, w') /\ handlers_only w w' /\ ready w' = ready w
               /\ (match r with Ok _ | Raise _ => True | _ => False end).
Proof.
  revert w. induction cs as [|t cs IH]; intros w.
  - eexists _, _. split; [reflexivity|]. split; [apply handlers_only_refl|done].
  - cbn [run_children]. rewrite step_run.
    destruct (IH (amend w [entry (snd t) (fst t)] [])) as (r & w' & E & H & Hr & Hres).
    assert (H0 : handlers_only w (amend w [entry (snd t) (fst t)] [])).
    { unfold handlers_only. cbn. split_and!; try done; [by rewrite app_nil_r|by eexists]. }
    destruct (body t.1 t.2) as [e|]; rewrite E; cbn [snd].
    + eexists _, _. split; [reflexivity|]. split; [by eapply handlers_only_trans|done].
    + eexists _, _. split; [reflexivity|]. split; [by eapply handlers_only_trans|done].
Qed.

Lemma gather_any (aws : list returned) (w : World) :
  exists r w', gather aws w = (r, w') /\ handlers_only w w'
               /\ (match r with Ok _ | Raise _ => True | _ => False end).
Proof.
  unfold gather. destruct (to_tasks aws) as [ts [|]].
  - rewrite bind_run. cbn. eexists _, _. split; [reflexivity|]. split; [|done].
    unfold handlers_only. cbn. split_and!; try done. exists []. by rewrite app_nil_r.
  - rewrite bind_run. destruct (run_ready_any w) as (w1 & -> & H1 & _).
    destruct (run_children_any ts w1) as (r & w' & -> & H2 & _ & Hr).
    eexists _, _. split; [reflexivity|]. split; [by eapply handlers_only_trans|done].
Qed.

Lemma server_calls_any (args : list object) (fs : list Callable) (tasks : list returned)
  (s : Sys Server.t) :
  exists r w',
    foldM (fun tasks func => r ← in_world (call func args); mret (tasks ++ [r]))
          fs tasks s = (r, mkSys (self s) w')
    /\ handlers_only (world s) w'
    /\ (match r with Ok _ | Raise _ => True | _ => False end).
Proof.
  revert tasks s. induction fs as [|f fs IH]; intros tasks s.
  - eexists _, _. split; [cbn; by rewrite sys_eta|]. split; [apply handlers_only_refl|done].
  - cbn [foldM]. rewrite bind_run, bind_run, in_world_run.
    destruct (call_any f args (world s)) as (r & w1 & E & H1 & Hr). rewrite E. cbn [fst snd].
    destruct r as [a|e| |]; try done.
    + cbn [mret M_ret].
      destruct (IH (tasks ++ [a]) (mkSys (self s) w1)) as (r' & w' & E' & H' & Hr').
      rewrite E'. eexists _, _. split; [reflexivity|].
      split; [by eapply handlers_only_trans|done].
    + eexists _, _. split; [reflexivity|]. split; [exact H1|done].
Qed.

(** Dispatch on the server with any handlers: it returns or raises, and
    leaves behind the Dispatching record, a longer trace and perhaps
    scheduled tasks, nothing else. *)
Lemma server_dispatch_any (s : Sys Server.t) (msg : Message) (ws : nat) (d : value) :
  heap (world s) !! data msg = Some d ->
  exists r w',
    Server._dispatch_message msg ws s = (r, mkSys (self s) w')
    /\ handlers_only
         (amend (world s) []
            [(DEBUG, Dispatching
                       (json.dumps (VDict [("uuid"%string, uuid msg);
                                           ("code"%string, code msg);
                                           ("data"%string, d)])))]) w'
    /\ (match r with Ok _ | Raise _ => True | _ => False end).
Proof.
  intros Hd. unfold Server._dispatch_message.
  rewrite bind_run, in_world_run, (to_json_run msg _ d Hd). cbn [fst snd].
  rewrite bind_run, in_world_run, logger_run. cbn [fst snd].
  set (w0 := amend (world s) [] _).
  rewrite bind_run. cbn [foldM].
  rewrite bind_run, bind_run. unfold lift at 1.
  destruct (hash_key (code msg)) as [k|e| |] eqn:Hk;
    try (by destruct (code msg) as [|[]| | | |]).
  2:{ eexists _, _. split; [reflexivity|]. split; [apply handlers_only_refl|done]. }
  rewrite bind_run. unfold gets at 1. cbn beta iota.
  match goal with
  | |- context [foldM ?f ?l ?t ?st] =>
      destruct (server_calls_any [Msg msg; Sock ws] l t st) as (r1 & w1 & E1 & H1 & Hr1)
  end.
  rewrite E1. cbn [self world] in *. destruct r1 as [t1|e| |]; try done.
  2:{ eexists _, _. split; [reflexivity|]. split; [exact H1|done]. }
  rewrite bind_run, bind_run. unfold lift at 1. cbn [hash_key].
  rewrite bind_run. unfold gets at 1. cbn beta iota.
  match goal with
  | |- context [foldM ?f ?l ?t ?st] =>
      destruct (server_calls_any [Msg msg; Sock ws] l t st) as (r2 & w2 & E2 & H2 & Hr2)
  end.
  rewrite E2. cbn [self world] in *. destruct r2 as [t2|e| |]; try done.
  2:{ eexists _, _. split; [reflexivity|]. split; [by eapply handlers_only_trans|done]. }
  cbn [mret M_ret]. destruct t2 as [|x t2].
  - eexists _, _. split; [reflexivity|]. split; [by eapply handlers_only_trans|done].
  - rewrite in_world_run. cbn [world self].
    destruct (gather_any (x :: t2) w2) as (r3 & w3 & E3 & H3 & Hr3). rewrite E3.
    eexists _, _. split; [reflexivity|]. split; [|done].
    eapply handlers_only_trans; [exact H1|]. by eapply handlers_only_trans.
Qed.

(** One frame on the server, whatever it holds and whatever the handlers
    do: the call returns, and the server object is as before. *)
Lemma server_process_any (cls : Message.defaults) (ws : nat) (raw : string)
  (s : Sys Server.t) :
  defined cls (world s) = true -> modelled raw = true ->
  exists (w' : World) (lg : list (level * record)),
    Server._process_message cls ws raw s = (Ok tt, mkSys (self s) w')
    /\ defined cls w' = true
    /\ log w' = log (world s) ++ (DEBUG, Processing raw) :: lg
    /\ processed lg = [].
Proof.
  intros Hdef Hmod. unfold Server._process_message.
  rewrite bind_run, in_world_run, logger_run. cbn [fst snd].
  unfold try_except. rewrite bind_run, in_world_run. cbn [world self].
  rewrite from_json_amend. cbn [fst snd].
  destruct (Message.from_json cls raw (world s)) as [r w1] eqn:E.
  assert (E1 : fst (Message.from_json cls raw (world s)) = r) by (by rewrite E).
  assert (E2 : snd (Message.from_json cls raw (world s)) = w1) by (by rewrite E).
  destruct (from_json_heap cls raw (world s)) as (h & Hh & Hext & _).
  rewrite E2 in Hh.
  assert (Hlen : (length (heap (world s)) <= length (heap w1))%nat).
  { rewrite Hh. cbn. destruct Hext as [->|[v ->]]; [done|]. rewrite length_app. lia. }
  assert (Hlog : log w1 = log (world s)) by (by rewrite Hh).
  assert (Hdef1 : defined cls w1 = true) by (by eapply defined_grows).
  destruct r as [m|e| |]; cbn [fst snd].
  - destruct (from_json_allocated cls raw (world s) m Hdef E1) as (h' & d & Hh' & Hd & _).
    rewrite E2 in Hh'.
    destruct (server_dispatch_any (mkSys (self s) (amend w1 [] [(DEBUG, Processing raw)]))
                m ws d) as (r' & w' & E' & H' & Hr').
    { cbn. rewrite Hh'. exact Hd. }
    rewrite E'. cbn [self world] in *.
    destruct H' as (A & _ & _ & _ & L & _).
    cbn in L. rewrite Hlog, <- app_assoc in L. cbn [app] in L.
    destruct r' as [[]|e| |]; try done.
    + eexists _, _. split; [reflexivity|]. split_and!; [|exact L|done].
      eapply defined_grows; [|exact Hdef1]. rewrite A. done.
    + rewrite in_world_run, logger_run. cbn [fst snd self world].
      eexists _, _. split; [reflexivity|]. split_and!.
      * eapply defined_grows; [|exact Hdef1]. cbn. rewrite A. done.
      * cbn. rewrite L, <- app_assoc. cbn [app]. reflexivity.
      * done.
  - rewrite in_world_run, logger_run. cbn [fst snd self world].
    eexists _, _. split; [reflexivity|]. split_and!.
    + eapply defined_grows; [|exact Hdef1]. cbn. done.
    + cbn. rewrite Hlog, <- app_assoc. cbn [app]. reflexivity.
    + done.
  - exfalso. unfold modelled in Hmod.
    rewrite (from_json_outside cls raw (world s)) in Hmod; [done|]. left. exact E1.
  - exfalso. unfold modelled in Hmod.
    rewrite (from_json_outside cls raw (world s)) in Hmod; [done|]. right. exact E1.
Qed.

Lemma processed_app (a b : list (level * record)) :
  processed (a ++ b) = processed a ++ processed b.
Proof. unfold processed. apply omap_app. Qed.

(** The read loop of a connection goes through all its frames. *)
Lemma server_receive_any (cls : Message.defaults) (ws : nat) (frames : list string)
  (s : Sys Server.t) :
  defined cls (world s) = true -> forallb modelled frames = true ->
  exists (w' : World) (lg : list (level * record)),
    Server.receive cls ws frames s = (Ok tt, mkSys (self s) w')
    /\ defined cls w' = true
    /\ log w' = log (world s) ++ lg
    /\ processed lg = frames.
Proof.
  revert s. induction frames as [|raw frames IH]; intros s Hdef Hmod.
  - exists (world s), []. rewrite sys_eta, app_nil_r. done.
  - cbn [forallb] in Hmod. apply andb_prop in Hmod as [Hraw Hrest].
    unfold Server.receive. cbn [foldM]. rewrite bind_run, bind_run, in_world_run.
    destruct (run_ready_any (world s)) as (w1 & -> & H1 & _). cbn [fst snd].
    assert (Hdef1 : defined cls w1 = true).
    { eapply defined_grows; [|exact Hdef]. destruct H1 as (-> & _). done. }
    destruct (server_process_any cls ws raw (mkSys (self s) w1) Hdef1 Hraw)
      as (w2 & lg2 & -> & Hdef2 & L2 & P2).
    cbn [self world] in *.
    destruct (IH (mkSys (self s) w2) Hdef2 Hrest) as (w3 & lg3 & E3 & Hdef3 & L3 & P3).
    unfold Server.receive in E3. rewrite E3. cbn [self world] in *.
    exists w3, ((DEBUG, Processing raw) :: lg2 ++ lg3). split_and!; try done.
    + rewrite L3, L2. destruct H1 as (_ & _ & _ & _ & -> & _).
      rewrite <- app_assoc. done.
    + change ((DEBUG, Processing raw) :: lg2 ++ lg3)
        with ([(DEBUG, Processing raw)] ++ lg2 ++ lg3).
      rewrite !processed_app, P2, P3. done.
Qed.

(** [_handle_connection] is its three pieces, the last as a [finally]
    around the second. *)
Lemma handle_connection_pieces (cls : Message.defaults) (ws : nat) (path : string)
  (frames : list string) (clean : bool) (s : Sys Server.t) :
  Server._handle_connection cls ws path frames clean s =
  match _handle_connection_enter ws path s with
  | (Ok _, s1) =>
      try_finally (_handle_connection_body cls ws frames clean)
                  (_handle_connection_finally path) s1
  | (Raise e, s1) => (Raise e, s1)
  | (Unmodelled, s1) => (Unmodelled, s1)
  | (Blocked, s1) => (Blocked, s1)
  end.
Proof. reflexivity. Qed.

Lemma handle_connection_enter_run (ws : nat) (path : string) (s : Sys Server.t) :
  _handle_connection_enter ws path s =
  (Ok tt,
   mkSys (Server.set_connections (fun c => <[KStr (Server.tail path) := ws]> c) (self s))
         (amend (world s) [] [(INFO, GotNewConnection path)])).
Proof.
  unfold _handle_connection_enter. rewrite bind_run, in_world_run, logger_run. reflexivity.
Qed.

(** The loop of a connection and then its closure. *)
Lemma handle_connection_body_run (cls : Message.defaults) (ws : nat)
  (frames : list string) (clean : bool) (s : Sys Server.t) :
  defined cls (world s) = true -> forallb modelled frames = true ->
  exists (w' : World) (lg : list (level * record)),
    _handle_connection_body cls ws frames clean s
    = (if clean then Ok tt else Raise ConnectionClosed, mkSys (self s) w')
    /\ defined cls w' = true
    /\ log w' = log (world s) ++ lg
    /\ processed lg = frames.
Proof.
  intros Hdef Hmod. unfold _handle_connection_body. rewrite bind_run.
  destruct (server_receive_any cls ws frames s Hdef Hmod) as (w1 & lg & -> & Hdef1 & L & P).
  rewrite bind_run, in_world_run. cbn [self world].
  destruct (run_ready_any w1) as (w2 & -> & H2 & _). cbn [fst snd].
  exists w2, lg. split_and!.
  - by destruct clean.
  - eapply defined_grows; [|exact Hdef1]. destruct H2 as (-> & _). done.
  - destruct H2 as (_ & _ & _ & _ & -> & _). exact L.
  - exact P.
Qed.

Lemma handle_connection_finally_run (path : string) (s : Sys Server.t) :
  _handle_connection_finally path s =
  (match Server._connections (self s) !! KStr (Server.tail path) with
   | Some _ => Ok tt
   | None => Raise KeyError
   end,
   mkSys (match Server._connections (self s) !! KStr (Server.tail path) with
          | Some _ =>
              Server.set_connections (fun c => delete (KStr (Server.tail path)) c) (self s)
          | None => self s
          end)
         (amend (world s) [] [(INFO, ConnectionDisconnected path)])).
Proof.
  unfold _handle_connection_finally. rewrite bind_run, in_world_run, logger_run.
  cbn [fst snd]. rewrite bind_run. unfold gets at 1. cbn [self].
  destruct (Server._connections (self s) !! KStr (Server.tail path)); reflexivity.
Qed.

(** A connection from its acceptance to its end. *)
Lemma handle_connection_run (cls : Message.defaults) (ws : nat)
  (path : string) (frames : list string) (clean : bool) (s : Sys Server.t) :
  defined cls (world s) = true -> forallb modelled frames = true ->
  exists (w' : World) (lg : list (level * record)),
    Server._handle_connection cls ws path frames clean s
    = (if clean then Ok tt else Raise ConnectionClosed,
       mkSys (Server.set_connections (fun c => delete (KStr (Server.tail path)) c) (self s))
             w')
    /\ log w' = log (world s) ++ (INFO, GotNewConnection path) :: lg
                ++ [(INFO, ConnectionDisconnected path)]
    /\ processed lg = frames
    /\ defined cls w' = true.
Proof.
  intros Hdef Hmod. rewrite handle_connection_pieces, handle_connection_enter_run.
  unfold try_finally.
  destruct (handle_connection_body_run cls ws frames clean
              (mkSys (Server.set_connections
                        (fun c => <[KStr (Server.tail path) := ws]> c) (self s))
                     (amend (world s) [] [(INFO, GotNewConnection path)])))
    as (w1 & lg & E & Hd1 & L & P); [done..|].
  rewrite E. cbn [self world] in *.
  assert (F : _handle_connection_finally path
                (mkSys (Server.set_connections
                          (fun c => <[KStr (Server.tail path) := ws]> c) (self s)) w1)
              = (Ok tt,
                 mkSys (Server.set_connections
                          (fun c => delete (KStr (Server.tail path)) c) (self s))
                       (amend w1 [] [(INFO, ConnectionDisconnected path)]))).
  { rewrite handle_connection_finally_run. cbn [self world Server._connections
      Server.set_connections]. rewrite lookup_insert_eq.
    f_equal. f_equal. unfold Server.set_connections. cbn. by rewrite delete_insert_eq. }
  exists (amend w1 [] [(INFO, ConnectionDisconnected path)]), lg.
  split_and!; [|cbn; rewrite L; cbn; by rewrite <- !app_assoc|exact P|exact Hd1].
  destruct clean; rewrite bind_run, F; reflexivity.
Qed.

(** A frame that [from_json] rejects leaves no object behind. *)
Lemma from_json_raise (cls : Message.defaults) (raw : string) (w : World) (e : exn) :
  fst (Message.from_json cls raw w) = Raise e -> snd (Message.from_json cls raw w) = w.
Proof.
  unfold Message.from_json, lift. rewrite bind_run.
  destruct (json.loads raw) as [kw|e'| |]; try done.
  unfold Message.construct. destruct kw as [|b|z|str|l|d]; try done.
  destruct (forallb _ d); [|done].
  destruct (Message.keyword "code" d) as [c|]; [|done].
  rewrite bind_run. by destruct (Message.keyword "data" d).
Qed.

Lemma server_process_rejected (cls : Message.defaults) (ws : nat) (raw : string)
  (s : Sys Server.t) (e : exn) :
  fst (Message.from_json cls raw (world s)) = Raise e ->
  Server._process_message cls ws raw s
  = (Ok tt,
     mkSys (self s)
           (amend (world s) []
              [(DEBUG, Processing raw); (ERROR, ErrorProcessing raw e)])).
Proof.
  intros He. pose proof (from_json_raise cls raw (world s) e He) as Hw.
  unfold Server._process_message.
  rewrite bind_run, in_world_run, logger_run. cbn [fst snd].
  unfold try_except. rewrite bind_run, in_world_run. cbn [world self].
  rewrite from_json_amend, He, Hw. cbn [fst snd].
  rewrite in_world_run, logger_run. cbn [fst snd self world].
  by rewrite amend_amend.
Qed.

(** X1, server.py, [_process_message]: whatever the frame holds and
    whatever the matched handlers do, the call returns normally and
    leaves the Server object as it was; the frame is logged as processed
    once.  When [from_json] rejects the frame, the only other record is
    the error, no handler is started and no object is made. *)
Theorem the_server_survives_every_frame (cls : Message.defaults) (ws : nat)
  (raw : string) (s : Sys Server.t) :
  defined cls (world s) = true -> modelled raw = true ->
  exists (s' : Sys Server.t) (lg : list (level * record)),
    Server._process_message cls ws raw s = (Ok tt, s')
    /\ self s' = self s
    /\ log (world s') = log (world s) ++ (DEBUG, Processing raw) :: lg
    /\ processed lg = []
    /\ (forall e,
          fst (Message.from_json cls raw (world s)) = Raise e ->
          lg = [(ERROR, ErrorProcessing raw e)]
          /\ started (world s') = started (world s)
          /\ heap (world s') = heap (world s)).
Proof.
  intros Hdef Hmod.
  destruct (server_process_any cls ws raw s Hdef Hmod) as (w' & lg & E & _ & L & P).
  exists (mkSys (self s) w'), lg. split_and!; try done.
  intros e He. rewrite (server_process_rejected cls ws raw s e He) in E.
  injection E as <-. cbn in L. apply app_inv_head in L. injection L as <-.
  cbn. by rewrite app_nil_r.
Qed.

(** X2, server.py, [_handle_connection]: the connection is registered
    under the path without its first character, every frame it delivers
    is processed, in order, whatever the frames and the handlers are,
    and at the end, clean or not, the registration is deleted and the
    disconnection logged; an unclean closure is passed on as
    ConnectionClosed after that.  The handlers registered are as
    before. *)
Theorem handle_connection_serves_every_frame_and_unregisters (cls : Message.defaults)
  (ws : nat) (path : string) (frames : list string) (clean : bool) (s : Sys Server.t) :
  defined cls (world s) = true -> forallb modelled frames = true ->
  exists (s' : Sys Server.t) (lg : list (level * record)),
    Server._handle_connection cls ws path frames clean s
    = (if clean then Ok tt else Raise ConnectionClosed, s')
    /\ Server._connections (self s')
       = delete (KStr (Server.tail path)) (Server._connections (self s))
    /\ Server._registed_callbacks (self s') = Server._registed_callbacks (self s)
    /\ log (world s')
       = log (world s) ++ (INFO, GotNewConnection path) :: lg
         ++ [(INFO, ConnectionDisconnected path)]
    /\ processed lg = frames.
Proof.
  intros Hdef Hmod.
  destruct (handle_connection_run cls ws path frames clean s Hdef Hmod)
    as (w' & lg & E & L & P & _).
  eexists _, lg. split; [exact E|]. done.
Qed.

(** X3, server.py, [_handle_connection]: when a second connection
    arrives on a path that holds a connection, it replaces the first in
    the registry; when it ends, its [finally] clause deletes the entry;
    and when the first ends after that, the [del] of its own [finally]
    clause raises KeyError, whatever way it was closed.  The frames of
    both are processed.  (The first connection is suspended in its
    [async for] in between: lemma [handle_connection_pieces].) *)
Theorem a_second_connection_on_a_path_takes_the_registration (cls : Message.defaults)
  (ws1 ws2 : nat) (path : string) (frames1 frames2 : list string) (clean1 clean2 : bool)
  (s : Sys Server.t) :
  defined cls (world s) = true ->
  forallb modelled frames1 = true -> forallb modelled frames2 = true ->
  exists s1 s2 s3 s4 : Sys Server.t,
    _handle_connection_enter ws1 path s = (Ok tt, s1)
    /\ Server._connections (self s1) !! KStr (Server.tail path) = Some ws1
    /\ _handle_connection_enter ws2 path s1 = (Ok tt, s2)
    /\ Server._connections (self s2) !! KStr (Server.tail path) = Some ws2
    /\ Server._handle_connection cls ws2 path frames2 clean2 s1
       = (if clean2 then Ok tt else Raise ConnectionClosed, s3)
    /\ Server._connections (self s3) !! KStr (Server.tail path) = None
    /\ try_finally (_handle_connection_body cls ws1 frames1 clean1)
                   (_handle_connection_finally path) s3
       = (Raise KeyError, s4)
    /\ processed (log (world s4)) = processed (log (world s)) ++ frames2 ++ frames1.
Proof.
  intros Hdef H1 H2.
  pose proof (handle_connection_enter_run ws1 path s) as E1.
  set (s1 := mkSys _ _) in E1.
  assert (Hdef1 : defined cls (world s1) = true) by exact Hdef.
  destruct (handle_connection_run cls ws2 path frames2 clean2 s1 Hdef1 H2)
    as (w3 & lg2 & E3 & L3 & P3 & Hdef3).
  set (s3 := mkSys _ w3) in E3.
  destruct (handle_connection_body_run cls ws1 frames1 clean1 s3 Hdef3 H1)
    as (w4 & lg1 & E4 & _ & L4 & P4).
  exists s1, (mkSys (Server.set_connections
                       (fun c => <[KStr (Server.tail path) := ws2]> c) (self s1))
                    (amend (world s1) [] [(INFO, GotNewConnection path)])),
         s3, (mkSys (self s3) (amend w4 [] [(INFO, ConnectionDisconnected path)])).
  split_and!.
  - exact E1.
  - cbn. by rewrite lookup_insert_eq.
  - apply handle_connection_enter_run.
  - cbn. by rewrite lookup_insert_eq.
  - exact E3.
  - cbn. by rewrite lookup_delete_eq.
  - unfold try_finally. rewrite E4.
    assert (F : _handle_connection_finally path (mkSys (self s3) w4)
                = (Raise KeyError,
                   mkSys (self s3) (amend w4 [] [(INFO, ConnectionDisconnected path)]))).
    { rewrite handle_connection_finally_run.
      cbn [self world s3 Server._connections Server.set_connections].
      by rewrite lookup_delete_eq. }
    destruct clean1; rewrite bind_run, F; reflexivity.
  - cbn [world]. change (log (amend w4 [] [(INFO, ConnectionDisconnected path)]))
      with (log w4 ++ [(INFO, ConnectionDisconnected path)]).
    rewrite L4. cbn [world s3]. rewrite L3. cbn [world s1].
    change (log (amend (world s) [] [(INFO, GotNewConnection path)]))
      with (log (world s) ++ [(INFO, GotNewConnection path)]).
    rewrite !processed_app. cbn [processed omap snd]. 
    change ((INFO, GotNewConnection path) :: lg2 ++ [(INFO, ConnectionDisconnected path)])
      with ([(INFO, GotNewConnection path)] ++ lg2 ++ [(INFO, ConnectionDisconnected path)]).
    rewrite !processed_app, P3, P4. cbn. by rewrite ?app_nil_r, <- ?app_assoc.
Qed.

(** ** Registration *)

Lemma server_on_message_run (c : value) (f : Callable) (k : key) (s : Sys Server.t) :
  hash_key c = Ok k ->
  Server.on_message c f s
  = (Ok tt,
     mkSys (Server.set_callbacks
              (fun cbs => <[k := default [] (cbs !! k) ++ [f]]> cbs) (self s))
           (world s)).
Proof. intros Hk. unfold Server.on_message, lift. rewrite bind_run, Hk. reflexivity. Qed.

Lemma register_all_run (regs : list (value * Callable)) (s : Sys Server.t) :
  forallb hashable (map fst regs) = true ->
  exists c' : Server.t,
    register_all regs s = (Ok tt, mkSys c' (world s))
    /\ Server._connections c' = Server._connections (self s)
    /\ Server._host c' = Server._host (self s)
    /\ Server._port c' = Server._port (self s)
    /\ forall k, handlers (Server._registed_callbacks c') k
                 = handlers (Server._registed_callbacks (self s)) k
                   ++ registered_for k regs.
Proof.
  revert s. induction regs as [|[c f] regs IH]; intros s Hh.
  - exists (self s). cbn. rewrite sys_eta. split_and!; try done.
    intros k. by rewrite app_nil_r.
  - cbn [map forallb fst] in Hh. apply andb_prop in Hh as [Hc Hrest].
    unfold hashable in Hc. destruct (hash_key c) as [k0| | |] eqn:Hk; try done.
    unfold register_all. cbn [foldM fst snd]. rewrite bind_run.
    rewrite (server_on_message_run c f k0 s Hk).
    destruct (IH (mkSys (Server.set_callbacks
                           (fun cbs => <[k0 := default [] (cbs !! k0) ++ [f]]> cbs)
                           (self s)) (world s)) Hrest)
      as (c' & E & Hconn & Hhost & Hport & Hcbs).
    unfold register_all in E. rewrite E. exists c'. cbn [self world] in *.
    split_and!; try done.
    intros k. rewrite Hcbs. cbn [registered_for fst snd]. rewrite Hk.
    unfold handlers. cbn [Server._registed_callbacks Server.set_callbacks].
    destruct (decide (k0 = k)) as [->|Hne].
    + rewrite lookup_insert_eq. cbn [default id from_option]. by rewrite <- app_assoc.
    + by rewrite lookup_insert_ne.
Qed.

Lemma foldM_app {S A B} (f : B -> A -> M S B) (l1 l2 : list A) (b : B) (s : S) :
  foldM f (l1 ++ l2) b s =
  match foldM f l1 b s with
  | (Ok b', s') => foldM f l2 b' s'
  | (Raise e, s') => (Raise e, s')
  | (Unmodelled, s') => (Unmodelled, s')
  | (Blocked, s') => (Blocked, s')
  end.
Proof.
  revert b s. induction l1 as [|x l1 IH]; intros b s; [done|].
  cbn [app foldM]. rewrite !bind_run. destruct (f b x s) as [[b'|e| |] s']; try done.
Qed.

Lemma registered_for_app (k : key) (a b : list (value * Callable)) :
  registered_for k (a ++ b) = registered_for k a ++ registered_for k b.
Proof.
  induction a as [|r a IH]; [done|]. cbn [app registered_for].
  destruct (hash_key (fst r)) as [k'| | |]; try done.
  destruct (decide (k' = k)); [|done]. cbn. by rewrite IH.
Qed.

(** X4, server.py, [on_message] (and the decorator [on], which stores
    the function in the same way): registrations with hashable codes
    succeed, touch nothing but the table of handlers, and add each
    function at the end of the list of its own code, the lists of the
    other codes being as before.  A registration with an unhashable code
    (a list, a dict) raises TypeError, and the registrations made before
    it stay. *)
Theorem registrations_accumulate_in_order (pre post : list (value * Callable))
  (s : Sys Server.t) :
  forallb hashable (map fst pre) = true ->
  exists s1 : Sys Server.t,
    register_all pre s = (Ok tt, s1)
    /\ world s1 = world s
    /\ Server._connections (self s1) = Server._connections (self s)
    /\ (forall k, handlers (Server._registed_callbacks (self s1)) k
                  = handlers (Server._registed_callbacks (self s)) k
                    ++ registered_for k pre)
    /\ (forall (c : value) (f : Callable),
          hashable c = false ->
          register_all (pre ++ (c, f) :: post) s = (Raise TypeError, s1)).
Proof.
  intros Hh. destruct (register_all_run pre s Hh) as (c' & E & Hconn & _ & _ & Hcbs).
  eexists. split; [exact E|]. split_and!; try done.
  intros c f Hc. unfold register_all in *. rewrite foldM_app, E.
  cbn [foldM fst snd]. rewrite bind_run. unfold Server.on_message, lift.
  rewrite bind_run. by destruct c as [|[]| | | |].
Qed.



(** ** Handlers that are plain functions *)




(** ** The server's sends *)

Lemma in_server_run {A} (m : M (Sys Server.t) A) (n : Hub.t) :
  Hub.in_server m n
  = (fst (m (Hub.server n)),
     Hub.mk (snd (m (Hub.server n))) (Hub.sockets n) (Hub.warnings n)).
Proof. unfold Hub.in_server. by destruct (m (Hub.server n)). Qed.

Lemma hub_eta (n : Hub.t) : Hub.mk (Hub.server n) (Hub.sockets n) (Hub.warnings n) = n.
Proof. by destruct n. Qed.

Lemma hub_to_json_run (msg : Message) (d : value) (n : Hub.t) :
  heap (world (Hub.server n)) !! data msg = Some d ->
  Hub.in_server (in_world (Message.to_json msg)) n = (Ok (wire msg d), n).
Proof.
  intros Hd. rewrite in_server_run, in_world_run, (to_json_run msg _ d Hd). cbn [fst snd].
  by rewrite sys_eta, hub_eta.
Qed.

Lemma send_calls_run (msg : Message) (d : value) (conns : list nat)
  (acc : list (nat * string)) (n : Hub.t) :
  heap (world (Hub.server n)) !! data msg = Some d ->
  foldM (fun cs ws =>
           text ← Hub.in_server (in_world (Message.to_json msg));
           mret (cs ++ [(ws, text)]))
        conns acc n
  = (Ok (acc ++ map (fun ws => (ws, wire msg d)) conns), n).
Proof.
  intros Hd. revert acc. induction conns as [|ws conns IH]; intros acc.
  - cbn. by rewrite app_nil_r.
  - cbn [foldM]. rewrite bind_run, bind_run, (hub_to_json_run msg d n Hd).
    cbn [mret M_ret]. rewrite IH. cbn [map]. by rewrite <- app_assoc.
Qed.

Lemma forallb_pointwise {A} (f g : A -> bool) (Hfg : forall a, f a = g a) (l : list A) :
  forallb f l = forallb g l.
Proof. induction l as [|a l IH]; cbn; [done|]. by rewrite Hfg, IH. Qed.

Lemma delivered_none (text : string) (c : Client.WebSocket) : delivered 0 text c = c.
Proof.
  unfold delivered. destruct c as [[] o]; cbn; [|done]. by rewrite app_nil_r.
Qed.

(** The children of a broadcast: each connection object takes the text
    once for each time it is listed, a closed one takes nothing. *)
Lemma run_sends_run (text : string) (l : list nat) (n : Hub.t) :
  (forall ws, ws ∈ l -> is_Some (Hub.sockets n !! ws)) ->
  exists sk' : gmap nat Client.WebSocket,
    Hub.run_sends (map (fun ws => (ws, text)) l) n
    = (if forallb (reachable (Hub.sockets n)) l then Ok tt else Raise ConnectionClosed,
       Hub.mk (Hub.server n) sk' (Hub.warnings n))
    /\ forall ws, sk' !! ws
                  = delivered (count_occ Nat.eq_dec l ws) text <$> Hub.sockets n !! ws.
Proof.
  revert n. induction l as [|w l IH]; intros n Hin.
  - exists (Hub.sockets n). cbn. rewrite hub_eta. split; [done|].
    intros ws. destruct (Hub.sockets n !! ws) as [c|]; cbn; [|done].
    by rewrite delivered_none.
  - cbn [map Hub.run_sends fst snd]. unfold Hub.send.
    destruct (Hin w) as [c Hc]; [by left|]. rewrite Hc.
    destruct (Client.open c) eqn:Ho.
    + set (c1 := {| Client.open := true; Client.outbox := Client.outbox c ++ [text] |}).
      set (n1 := Hub.mk (Hub.server n) (<[w := c1]> (Hub.sockets n)) (Hub.warnings n)).
      destruct (IH n1) as (sk' & E & Hsk).
      { intros ws Hws. cbn. destruct (decide (ws = w)) as [->|Hne].
        - rewrite lookup_insert_eq. eauto.
        - rewrite lookup_insert_ne by done. apply Hin. by right. }
      assert (Hreach : forall x, reachable (Hub.sockets n1) x = reachable (Hub.sockets n) x).
      { intros x. unfold reachable. cbn. destruct (decide (x = w)) as [->|Hne].
        - by rewrite lookup_insert_eq, Hc, Ho.
        - by rewrite lookup_insert_ne. }
      exists sk'. split.
      * rewrite E, (forallb_pointwise _ _ Hreach). cbn [forallb].
        unfold reachable at 2. rewrite Hc, Ho. reflexivity.
      * intros ws. rewrite Hsk. cbn [Hub.sockets n1].
        destruct (decide (ws = w)) as [->|Hne].
        -- rewrite lookup_insert_eq, Hc, count_occ_cons_eq by done.
           unfold delivered. cbn. rewrite Ho. f_equal. f_equal.
           by rewrite <- app_assoc.
        -- rewrite lookup_insert_ne by done. rewrite count_occ_cons_neq by done. done.
    + destruct (IH n) as (sk' & E & Hsk).
      { intros ws Hws. apply Hin. by right. }
      exists sk'. split.
      * rewrite E. cbn [snd forallb]. unfold reachable at 1. rewrite Hc, Ho. reflexivity.
      * intros ws. rewrite Hsk. destruct (decide (ws = w)) as [->|Hne].
        -- rewrite Hc. cbn. unfold delivered. by rewrite Ho.
        -- by rewrite count_occ_cons_neq by done.
Qed.

(** A broadcast: every registered connection object takes the text once
    for each path it is registered under. *)
Lemma broadcast_children_run (msg : Message) (d : value)
  (n : Hub.t) :
  heap (world (Hub.server n)) !! data msg = Some d ->
  (forall ws, ws ∈ Hub.values (self (Hub.server n)) -> is_Some (Hub.sockets n !! ws)) ->
  exists n' : Hub.t,
    Hub.send_msg msg VNone n
    = (if forallb (reachable (Hub.sockets n)) (Hub.values (self (Hub.server n)))
       then Ok tt else Raise ConnectionClosed, n')
    /\ self (Hub.server n') = self (Hub.server n)
    /\ log (world (Hub.server n'))
       = log (world (Hub.server n)) ++ [(DEBUG, Sending (wire msg d))]
    /\ Hub.warnings n' = Hub.warnings n
    /\ forall ws,
         Hub.sockets n' !! ws
         = delivered (registrations (self (Hub.server n)) ws) (wire msg d)
             <$> Hub.sockets n !! ws.
Proof.
  intros Hd Hin. unfold Hub.send_msg.
  rewrite bind_run, (hub_to_json_run msg d n Hd).
  rewrite bind_run, in_server_run, in_world_run, logger_run. cbn [fst snd].
  set (n0 := Hub.mk _ _ _).
  assert (Hd0 : heap (world (Hub.server n0)) !! data msg = Some d) by exact Hd.
  rewrite bind_run. unfold gets at 1. cbn beta iota.
  change (self (Hub.server n0)) with (self (Hub.server n)).
  rewrite bind_run. unfold Hub.send_calls. rewrite (send_calls_run msg d _ [] n0 Hd0).
  cbn [app]. unfold registrations.
  destruct (Hub.values (self (Hub.server n))) as [|w l] eqn:El.
  - cbn. exists n0. split_and!; try done.
    intros ws. change (Hub.sockets n0) with (Hub.sockets n).
    destruct (Hub.sockets n !! ws); cbn; [|done]. by rewrite delivered_none.
  - cbn [map Hub.gather]. rewrite bind_run, in_server_run, in_world_run.
    destruct (run_ready_any (world (Hub.server n0))) as (w1 & E1 & H1 & _).
    rewrite E1. cbn [fst snd].
    set (n1 := Hub.mk _ _ _).
    destruct (run_sends_run (wire msg d) (w :: l) n1) as (sk' & E & Hsk).
    { intros ws Hws. apply Hin. exact Hws. }
    cbn [map] in E. rewrite E.
    eexists. split; [reflexivity|]. cbn. split_and!; try done.
    destruct H1 as (_ & _ & _ & _ & -> & _). done.
Qed.

Lemma present_values (sk : gmap nat Client.WebSocket) (l : list nat) :
  forallb (present sk) l = true -> forall ws, ws ∈ l -> is_Some (sk !! ws).
Proof.
  intros H ws Hws. apply list_elem_of_In in Hws.
  apply (proj1 (forallb_forall _ _) H) in Hws. unfold present in Hws.
  by destruct (sk !! ws).
Qed.

(** X7, server.py, [send_msg] without a path: the text of the message
    is sent once to every connection of the registry that is open (once
    for each path it is registered under), a closed connection and a
    connection that is not registered get nothing, and the call raises
    ConnectionClosed exactly when a registered connection is closed,
    after the others have been served.  Nothing is logged but the
    sending. *)
Theorem broadcast_reaches_each_registered_connection (msg : Message) (d : value)
  (n : Hub.t) :
  heap (world (Hub.server n)) !! data msg = Some d ->
  forallb (present (Hub.sockets n)) (Hub.values (self (Hub.server n))) = true ->
  exists n' : Hub.t,
    Hub.send_msg msg VNone n
    = (if forallb (reachable (Hub.sockets n)) (Hub.values (self (Hub.server n)))
       then Ok tt else Raise ConnectionClosed, n')
    /\ self (Hub.server n') = self (Hub.server n)
    /\ log (world (Hub.server n'))
       = log (world (Hub.server n)) ++ [(DEBUG, Sending (wire msg d))]
    /\ Hub.warnings n' = Hub.warnings n
    /\ (forall ws c,
          Hub.sockets n !! ws = Some c ->
          Hub.sockets n' !! ws
          = Some (delivered (registrations (self (Hub.server n)) ws) (wire msg d) c))
    /\ (forall ws, Hub.sockets n !! ws = None -> Hub.sockets n' !! ws = None).
Proof.
  intros Hd Hin.
  destruct (broadcast_children_run msg d n Hd (present_values _ _ Hin))
    as (n' & E & Hself & Hlog & Hw & Hsk).
  exists n'. split; [exact E|]. split_and!; [exact Hself|exact Hlog|exact Hw| |].
  - intros ws c Hc. by rewrite Hsk, Hc.
  - intros ws Hc. by rewrite Hsk, Hc.
Qed.

(** [send_msg] with a path: the registry is looked up under the hash of
    the path. *)
Lemma send_msg_path_run (msg : Message) (path : value) (k : key) (d : value)
  (n : Hub.t) :
  heap (world (Hub.server n)) !! data msg = Some d ->
  path <> VNone -> hash_key path = Ok k ->
  Hub.send_msg msg path n =
  match Server._connections (self (Hub.server n)) !! k with
  | Some ws =>
      Hub.send ws (wire msg d)
        (Hub.mk (mkSys (self (Hub.server n))
                       (amend (world (Hub.server n)) [] [(DEBUG, Sending (wire msg d))]))
                (Hub.sockets n) (Hub.warnings n))
  | None =>
      (Ok tt,
       Hub.mk (mkSys (self (Hub.server n))
                     (amend (world (Hub.server n)) [] [(DEBUG, Sending (wire msg d))]))
              (Hub.sockets n) (Hub.warnings n ++ [Hub.NonExistentPath path]))
  end.
Proof.
  intros Hd Hpath Hk. unfold Hub.send_msg.
  rewrite bind_run, (hub_to_json_run msg d n Hd).
  rewrite bind_run, in_server_run, in_world_run, logger_run. cbn [fst snd].
  set (n0 := Hub.mk _ _ _).
  assert (Hd0 : heap (world (Hub.server n0)) !! data msg = Some d) by exact Hd.
  assert (E : forall (A : Type) (x y : A),
             match path with VNone => x | _ => y end = y) by (by destruct path).
  rewrite E. rewrite bind_run. unfold lift at 1. rewrite Hk.
  rewrite bind_run. unfold gets at 1. cbn beta iota.
  change (self (Hub.server n0)) with (self (Hub.server n)).
  destruct (Server._connections (self (Hub.server n)) !! k) as [ws|]; [|reflexivity].
  rewrite bind_run, (hub_to_json_run msg d n0 Hd0). reflexivity.
Qed.

(** X8, server.py, [send_msg] with a path that is not in the registry:
    the call returns normally, nothing is sent to any connection, and a
    warning that names the path is logged. *)
Theorem send_msg_to_an_unknown_path_only_warns (msg : Message) (path : value) (k : key)
  (d : value) (n : Hub.t) :
  heap (world (Hub.server n)) !! data msg = Some d ->
  path <> VNone -> hash_key path = Ok k ->
  Server._connections (self (Hub.server n)) !! k = None ->
  exists n' : Hub.t,
    Hub.send_msg msg path n = (Ok tt, n')
    /\ Hub.sockets n' = Hub.sockets n
    /\ self (Hub.server n') = self (Hub.server n)
    /\ Hub.warnings n' = Hub.warnings n ++ [Hub.NonExistentPath path]
    /\ log (world (Hub.server n'))
       = log (world (Hub.server n)) ++ [(DEBUG, Sending (wire msg d))].
Proof.
  intros Hd Hpath Hk Hnone.
  rewrite (send_msg_path_run msg path k d n Hd Hpath Hk), Hnone.
  eexists. split; [reflexivity|]. done.
Qed.

(** X9, server.py, [send_msg] with a path of the registry: the text is
    sent to the connection registered under the path and to no other;
    when that connection is closed nothing is sent and ConnectionClosed
    reaches the caller. *)
Theorem send_msg_to_a_path_reaches_that_connection_only (msg : Message) (path : value)
  (k : key) (d : value) (ws : nat) (c : Client.WebSocket) (n : Hub.t) :
  heap (world (Hub.server n)) !! data msg = Some d ->
  path <> VNone -> hash_key path = Ok k ->
  Server._connections (self (Hub.server n)) !! k = Some ws ->
  Hub.sockets n !! ws = Some c ->
  exists n' : Hub.t,
    Hub.send_msg msg path n
    = (if Client.open c then Ok tt else Raise ConnectionClosed, n')
    /\ Hub.sockets n' !! ws = Some (delivered 1 (wire msg d) c)
    /\ (forall ws', ws' <> ws -> Hub.sockets n' !! ws' = Hub.sockets n !! ws')
    /\ self (Hub.server n') = self (Hub.server n)
    /\ Hub.warnings n' = Hub.warnings n.
Proof.
  intros Hd Hpath Hk Hws Hc.
  rewrite (send_msg_path_run msg path k d n Hd Hpath Hk), Hws.
  unfold Hub.send. cbn [Hub.sockets]. rewrite Hc. unfold delivered.
  destruct (Client.open c) eqn:Ho.
  - eexists. split; [reflexivity|]. cbn. split_and!; try done.
    + by rewrite lookup_insert_eq.
    + intros ws' Hne. by rewrite lookup_insert_ne.
  - eexists. split; [reflexivity|]. cbn. done.
Qed.

Lemma tail_shorter (path : string) : path <> EmptyString -> Server.tail path <> path.
Proof.
  intros Hne E. destruct path as [|a rest]; [done|]. cbn in E.
  apply (f_equal String.length) in E. cbn in E. lia.
Qed.

(** X10, server.py, [_handle_connection] then [send_msg]: a connection
    accepted on a path (say "/room") is registered under the path
    without its first character ("room").  [send_msg] with the path as
    the connection gave it finds no entry (unless one happens to be
    registered under that very key) and only warns; with the first
    character taken off it reaches the connection. *)
Theorem a_connection_is_addressed_by_its_path_without_the_slash (msg : Message)
  (path : string) (d : value) (ws : nat) (c : Client.WebSocket) (n : Hub.t) :
  heap (world (Hub.server n)) !! data msg = Some d ->
  path <> EmptyString ->
  Server._connections (self (Hub.server n)) !! KStr path = None ->
  Hub.sockets n !! ws = Some c ->
  Client.open c = true ->
  exists n1 n2 n3 : Hub.t,
    Hub.in_server (_handle_connection_enter ws path) n = (Ok tt, n1)
    /\ Hub.send_msg msg (VStr path) n1 = (Ok tt, n2)
    /\ Hub.sockets n2 = Hub.sockets n
    /\ Hub.warnings n2 = Hub.warnings n ++ [Hub.NonExistentPath (VStr path)]
    /\ Hub.send_msg msg (VStr (Server.tail path)) n1 = (Ok tt, n3)
    /\ Hub.sockets n3 !! ws
       = Some {| Client.open := true;
                 Client.outbox := Client.outbox c ++ [wire msg d] |}
    /\ Hub.warnings n3 = Hub.warnings n.
Proof.
  intros Hd Hne Hfree Hc Ho.
  rewrite in_server_run, handle_connection_enter_run. cbn [fst snd].
  set (n1 := Hub.mk _ _ _).
  assert (Hd1 : heap (world (Hub.server n1)) !! data msg = Some d) by exact Hd.
  pose proof (send_msg_path_run msg (VStr path) (KStr path) d n1 Hd1) as E2.
  pose proof (send_msg_path_run msg (VStr (Server.tail path)) (KStr (Server.tail path)) d
                n1 Hd1) as E3.
  subst n1.
  cbn [Hub.server Hub.sockets Hub.warnings self Server._connections
       Server.set_connections] in E2, E3.
  rewrite lookup_insert_ne, Hfree in E2
    by (intros [= E]; by apply (tail_shorter path)).
  rewrite lookup_insert_eq in E3.
  unfold Hub.send in E3. cbn [Hub.sockets] in E3. rewrite Hc, Ho in E3.
  eexists _, _, _. split_and!; [reflexivity|by apply E2| | |by apply E3| |].
  - done.
  - done.
  - cbn. by rewrite lookup_insert_eq.
  - done.
Qed.

Lemma values_lookup (s : Server.t) (ws : nat) :
  ws ∈ Hub.values s <-> exists k, Server._connections s !! k = Some ws.
Proof.
  unfold Hub.values. change (map snd ?l) with (snd <$> l). rewrite list_elem_of_fmap. split.
  - intros ([k v] & -> & Hin). exists k. by apply elem_of_map_to_list in Hin.
  - intros (k & Hk). exists (k, ws). split; [done|]. by apply elem_of_map_to_list.
Qed.

Lemma registrations_none (s : Server.t) (ws : nat) :
  registrations s ws = 0%nat <-> forall k, Server._connections s !! k <> Some ws.
Proof.
  unfold registrations. rewrite <- count_occ_not_In, <- list_elem_of_In, values_lookup.
  split.
  - intros H k Hk. apply H. eauto.
  - intros H (k & Hk). by apply (H k).
Qed.

Lemma registrations_some (s : Server.t) (ws : nat) (k : key) :
  Server._connections s !! k = Some ws -> (1 <= registrations s ws)%nat.
Proof.
  intros Hk. unfold registrations.
  apply (proj1 (count_occ_In Nat.eq_dec (Hub.values s) ws)).
  apply list_elem_of_In, values_lookup. eauto.
Qed.

(** X11, server.py, [_handle_connection] then [send_msg]: after two
    connections were accepted on the same path, a broadcast sends
    nothing to the first (unless it is registered under another path
    too), while the second is served. *)
Theorem a_broadcast_misses_the_first_of_two_connections_on_a_path (msg : Message)
  (d : value) (ws1 ws2 : nat) (path : string) (n : Hub.t) :
  heap (world (Hub.server n)) !! data msg = Some d ->
  ws1 <> ws2 ->
  registrations (self (Hub.server n)) ws1 = 0%nat ->
  forallb (present (Hub.sockets n)) (ws2 :: Hub.values (self (Hub.server n))) = true ->
  exists (n2 n3 : Hub.t) (r : Res unit) (times : nat),
    Hub.in_server (_ ← _handle_connection_enter ws1 path;
                   _handle_connection_enter ws2 path) n = (Ok tt, n2)
    /\ Hub.send_msg msg VNone n2 = (r, n3)
    /\ Hub.sockets n3 !! ws1 = Hub.sockets n !! ws1
    /\ Hub.sockets n3 !! ws2 = delivered times (wire msg d) <$> Hub.sockets n !! ws2
    /\ (1 <= times)%nat.
Proof.
  intros Hd Hne Hreg Hall.
  assert (Hws2 : is_Some (Hub.sockets n !! ws2)).
  { apply (present_values _ _ Hall). by left. }
  assert (Hin : forall ws, ws ∈ Hub.values (self (Hub.server n)) ->
                           is_Some (Hub.sockets n !! ws)).
  { intros ws Hws. apply (present_values _ _ Hall). by right. }
  rewrite in_server_run, bind_run, handle_connection_enter_run,
    handle_connection_enter_run. cbn [fst snd self world].
  set (n2 := Hub.mk _ _ _).
  assert (Hd2 : heap (world (Hub.server n2)) !! data msg = Some d) by exact Hd.
  assert (Hconn : Server._connections (self (Hub.server n2))
                  = <[KStr (Server.tail path) := ws2]>
                      (Server._connections (self (Hub.server n)))).
  { cbn. by rewrite insert_insert_eq. }
  assert (Hin2 : forall ws, ws ∈ Hub.values (self (Hub.server n2)) ->
                            is_Some (Hub.sockets n2 !! ws)).
  { intros ws Hws. apply values_lookup in Hws as (k & Hk). rewrite Hconn in Hk.
    change (Hub.sockets n2) with (Hub.sockets n).
    destruct (decide (k = KStr (Server.tail path))) as [->|Hk'].
    - rewrite lookup_insert_eq in Hk. by simplify_eq.
    - rewrite lookup_insert_ne in Hk by done. apply Hin, values_lookup. eauto. }
  destruct (broadcast_children_run msg d n2 Hd2 Hin2) as (n3 & E & _ & _ & _ & Hsk).
  exists n2, n3. eexists _, (registrations (self (Hub.server n2)) ws2).
  split_and!; [reflexivity|exact E| | |].
  - rewrite Hsk. change (Hub.sockets n2) with (Hub.sockets n).
    assert (R : registrations (self (Hub.server n2)) ws1 = 0%nat).
    { apply registrations_none. intros k Hk. rewrite Hconn in Hk.
      destruct (decide (k = KStr (Server.tail path))) as [->|Hk'].
      - rewrite lookup_insert_eq in Hk. by simplify_eq.
      - rewrite lookup_insert_ne in Hk by done.
        by apply (proj1 (registrations_none _ _) Hreg k). }
    rewrite R. destruct (Hub.sockets n !! ws1); cbn; [|done]. by rewrite delivered_none.
  - rewrite Hsk. done.
  - apply (registrations_some _ _ (KStr (Server.tail path))).
    rewrite Hconn. by rewrite lookup_insert_eq.
Qed.

(** ** The example server *)

(** X12, examples/server.py, [handle_ping]: the reply is built as
    [Message(msg.uuid, "PONG", ...)], and the first parameter of
    [Message] is the code.  The frame sent on the connection decodes to
    a Message whose id is the string "PONG" and whose code is the id of
    the request. *)
Theorem the_example_reply_swaps_code_and_id (cls cls' : Message.defaults)
  (msg : Message) (ws : nat) (c : Client.WebSocket) (n : Hub.t) (w : World) :
  Hub.sockets n !! ws = Some c -> Client.open c = true ->
  wf (uuid msg) = true ->
  exists (n' : Hub.t) (text : string) (m' : Message) (w' : World),
    handle_ping cls msg ws n = (Ok tt, n')
    /\ Hub.sockets n' !! ws
       = Some {| Client.open := true; Client.outbox := Client.outbox c ++ [text] |}
    /\ Message.from_json cls' text w = (Ok m', w')
    /\ uuid m' = VStr "PONG"
    /\ code m' = uuid msg
    /\ heap w' !! data m' = Some (VDict [("data"%string, VStr "Hello from server!")]).
Proof.
  intros Hc Ho Hwf. unfold handle_ping.
  rewrite bind_run, in_server_run, in_world_run. cbn [alloc fst snd].
  set (n1 := Hub.mk _ _ _).
  set (response := Message.__init__ _ _ _ _).
  assert (Hd : heap (world (Hub.server n1)) !! data response
               = Some (VDict [("data"%string, VStr "Hello from server!")])).
  { cbn. by rewrite lookup_app_r, Nat.sub_diag. }
  rewrite bind_run, (hub_to_json_run response _ n1 Hd).
  unfold Hub.send. cbn [Hub.sockets n1]. rewrite Hc, Ho.
  eexists _, (wire response (VDict [("data"%string, VStr "Hello from server!")])), _, _.
  split; [reflexivity|]. split; [cbn [Hub.sockets]; by rewrite lookup_insert_eq|].
  unfold wire, Message.from_json, lift. rewrite bind_run.
  rewrite json_facts.loads_dumps by (cbn; by rewrite Hwf).
  rewrite construct_three. split; [reflexivity|]. cbn [uuid code data].
  split_and!; try done. apply heap_alloc.
Qed.

(** ** The client's sends *)

(** [send_msg] up to the send itself. *)
Lemma client_send_msg_unfold (cls : Message.defaults) (msg : Message) (blocking : bool)
  (T : N) (sched : list Client.occurrence) (s : Sys Client.t) (d : value) :
  heap (world s) !! data msg = Some d ->
  Client.send_msg cls msg blocking T sched s =
  (_ ← Client.send (wire msg d);
   if blocking then
     future ← in_world create_future;
     k ← lift (hash_key (uuid msg));
     _ ← on_self (Client.set_futures (fun d => <[k := future]> d));
     try_finally
       (try_except
          (n ← gets (fun s => now (world s));
           response ← Client.wait_for cls future (n + T)%N sched;
           mret (Some response))
          (fun e =>
             match e with
             | TimeoutError =>
                 _ ← in_world (logger WARNING (TimeoutWaiting (uuid msg)));
                 mret None
             | _ => raise e
             end))
       (on_self (Client.set_futures (fun d => delete k d)))
   else mret None)
    (mkSys (self s)
       (amend (world s) []
          (match Client._websocket (self s) with
           | None => [(CRITICAL, NotConnected)]
           | Some _ => []
           end ++ [(DEBUG, Sending (wire msg d))]))).
Proof.
  intros Hd. unfold Client.send_msg at 1.
  rewrite bind_run. unfold gets at 1. cbn beta iota.
  destruct (Client._websocket (self s)) as [ws|] eqn:Hws.
  - rewrite bind_run. cbn [mret M_ret].
    rewrite bind_run, in_world_run, (to_json_run msg _ d Hd). cbn [fst snd].
    rewrite bind_run, in_world_run, logger_run. cbn [fst snd self world].
    rewrite bind_run, in_world_run. cbn [self world].
    rewrite (to_json_run msg _ d) by exact Hd. cbn [fst snd].
    reflexivity.
  - rewrite bind_run, in_world_run, logger_run. cbn [fst snd].
    rewrite bind_run, in_world_run. cbn [self world].
    rewrite (to_json_run msg _ d) by exact Hd. cbn [fst snd].
    rewrite bind_run, in_world_run, logger_run. cbn [fst snd self world].
    rewrite bind_run, in_world_run. cbn [self world].
    rewrite (to_json_run msg _ d) by exact Hd. cbn [fst snd].
    rewrite amend_amend. reflexivity.
Qed.

(** X13, client.py, [send_msg] on a client that never connected: the
    critical record is logged, then the sending record, and the call
    raises AttributeError at [self._websocket.send] (the docstring
    announces a RuntimeError); the Client object is as before, also for
    a blocking send. *)
Theorem send_msg_before_connect_raises_attribute_error (cls : Message.defaults)
  (msg : Message) (blocking : bool) (T : N) (sched : list Client.occurrence)
  (s : Sys Client.t) (d : value) :
  Client._websocket (self s) = None ->
  heap (world s) !! data msg = Some d ->
  Client.send_msg cls msg blocking T sched s
  = (Raise (AttributeError "send"),
     mkSys (self s)
           (amend (world s) []
              [(CRITICAL, NotConnected); (DEBUG, Sending (wire msg d))])).
Proof.
  intros Hws Hd. rewrite (client_send_msg_unfold cls msg blocking T sched s d Hd), Hws.
  rewrite bind_run. unfold Client.send. rewrite bind_run. unfold gets at 1.
  cbn [self]. rewrite Hws. reflexivity.
Qed.

(** X14, client.py, [send_msg] on a connection that is closed: the
    call raises ConnectionClosed out of the send; also when blocking, no
    future is made and no slot registered, and the Client object is as
    before. *)
Theorem send_msg_on_a_closed_connection_registers_nothing (cls : Message.defaults)
  (msg : Message) (blocking : bool) (T : N) (sched : list Client.occurrence)
  (s : Sys Client.t) (d : value) (ws : Client.WebSocket) :
  Client._websocket (self s) = Some ws -> Client.open ws = false ->
  heap (world s) !! data msg = Some d ->
  Client.send_msg cls msg blocking T sched s
  = (Raise ConnectionClosed,
     mkSys (self s) (amend (world s) [] [(DEBUG, Sending (wire msg d))])).
Proof.
  intros Hws Ho Hd. rewrite (client_send_msg_unfold cls msg blocking T sched s d Hd), Hws.
  rewrite bind_run. unfold Client.send. rewrite bind_run. unfold gets at 1.
  cbn [self]. rewrite Hws, Ho. reflexivity.
Qed.

Lemma client_send_run (text : string) (s : Sys Client.t) (ws : Client.WebSocket) :
  Client._websocket (self s) = Some ws -> Client.open ws = true ->
  Client.send text s
  = (Ok tt,
     mkSys (Client.set_websocket
              (fun _ => Some {| Client.open := true;
                                Client.outbox := Client.outbox ws ++ [text] |})
              (self s))
           (world s)).
Proof.
  intros Hws Ho. unfold Client.send. rewrite bind_run. unfold gets at 1.
  cbn beta iota. rewrite Hws, Ho. reflexivity.
Qed.

(** X15, client.py, [send_msg] with [blocking=False] on an open
    connection: it returns None at once, whatever the timeout; exactly
    one frame, the JSON text of the message, is added at the end of what
    was sent, and no future is made, no slot registered and no handler
    touched. *)
Theorem a_non_blocking_send_puts_one_frame_on_the_wire (cls : Message.defaults)
  (msg : Message) (T : N) (sched : list Client.occurrence) (s : Sys Client.t)
  (d : value) (ws : Client.WebSocket) :
  Client._websocket (self s) = Some ws -> Client.open ws = true ->
  heap (world s) !! data msg = Some d ->
  exists s' : Sys Client.t,
    Client.send_msg cls msg false T sched s = (Ok None, s')
    /\ Client._websocket (self s')
       = Some {| Client.open := true;
                 Client.outbox := Client.outbox ws ++ [wire msg d] |}
    /\ Client._response_futures (self s') = Client._response_futures (self s)
    /\ Client._registed_callbacks (self s') = Client._registed_callbacks (self s)
    /\ futures (world s') = futures (world s)
    /\ now (world s') = now (world s)
    /\ log (world s') = log (world s) ++ [(DEBUG, Sending (wire msg d))].
Proof.
  intros Hws Ho Hd.
  rewrite (client_send_msg_unfold cls msg false T sched s d Hd), Hws.
  rewrite bind_run, (client_send_run _ _ ws) by done.
  eexists. split; [reflexivity|]. cbn. split_and!; try done.
Qed.

(** X16, client.py, [send_msg] with [blocking=True] and a message whose
    id is unhashable (a list, a dict): the frame has been sent and the
    future made when the registration of the slot raises TypeError; no
    slot is registered. *)
Theorem a_blocking_send_with_an_unhashable_id_fails_after_sending
  (cls : Message.defaults) (msg : Message) (T : N) (sched : list Client.occurrence)
  (s : Sys Client.t) (d : value) (ws : Client.WebSocket) :
  Client._websocket (self s) = Some ws -> Client.open ws = true ->
  heap (world s) !! data msg = Some d ->
  hashable (uuid msg) = false ->
  exists s' : Sys Client.t,
    Client.send_msg cls msg true T sched s = (Raise TypeError, s')
    /\ Client._websocket (self s')
       = Some {| Client.open := true;
                 Client.outbox := Client.outbox ws ++ [wire msg d] |}
    /\ Client._response_futures (self s') = Client._response_futures (self s)
    /\ futures (world s') = futures (world s) ++ [Pending].
Proof.
  intros Hws Ho Hd Hh.
  rewrite (client_send_msg_unfold cls msg true T sched s d Hd), Hws.
  rewrite bind_run, (client_send_run _ _ ws) by done.
  rewrite bind_run, in_world_run. cbn [create_future fst snd self world].
  rewrite bind_run. unfold lift at 1. unfold hashable in Hh.
  destruct (uuid msg) as [|[]| | |l|l]; try done.
  - eexists. split; [reflexivity|]. done.
  - eexists. split; [reflexivity|]. done.
Qed.

(** ** The client's reader task *)

Lemma rejected_app (a b : list (level * record)) :
  rejected (a ++ b) = rejected a ++ rejected b.
Proof. unfold rejected. apply omap_app. Qed.

(** Every frame ends in the [except] clause of the client's
    [_process_message]: [from_json] raises, or the dispatch does. *)
Lemma client_process_rejects (cls : Message.defaults) (raw : string) (s : Sys Client.t) :
  defined cls (world s) = true -> modelled raw = true ->
  exists (h : list value) (lg : list (level * record)) (e : exn),
    Client._process_message cls raw s =
      (Ok tt,
       mkSys (self s)
             (amend (with_heap (fun _ => h) (world s)) []
                (lg ++ [(ERROR, ErrorProcessing raw e)])))
    /\ (h = heap (world s) \/ exists v, h = heap (world s) ++ [v])
    /\ rejected lg = []
    /\ (e = AttributeError "_events"
        \/ fst (Message.from_json cls raw (world s)) = Raise e).
Proof.
  intros Hdef Hmod.
  destruct (from_json_heap cls raw (world s)) as (h & Hh & Hext & Hdata).
  unfold Client._process_message, try_except. rewrite bind_run, in_world_run.
  rewrite Hh. destruct (fst (Message.from_json cls raw (world s))) as [m|e| |] eqn:Hr.
  - rewrite bind_run, client_dispatch_run. cbn [world self].
    change (heap (with_heap (fun _ => h) (world s))) with h.
    destruct (h !! data m) as [d|] eqn:Hd.
    + rewrite in_world_run, logger_run. cbn [fst snd self world].
      rewrite amend_amend. cbn [app].
      exists h, [(DEBUG, Dispatching (wire m d))], (AttributeError "_events").
      split; [reflexivity|]. split; [exact Hext|]. split; [done|by left].
    + exfalso. destruct (Hdata m eq_refl) as [E|?]; [|done]. rewrite E in Hd.
      apply defined_lookup in Hdef. destruct Hext as [->|[v ->]]; [done|].
      destruct (heap (world s) !! Message.default_data cls) as [x|] eqn:Ex; [|done].
      by rewrite (lookup_app_l_Some _ _ _ _ Ex) in Hd.
  - rewrite in_world_run, logger_run. cbn [fst snd self world].
    exists h, [], e. split; [reflexivity|]. split; [exact Hext|]. split; [done|by right].
  - exfalso. unfold modelled in Hmod.
    rewrite (from_json_outside cls raw (world s)) in Hmod; [done|by left].
  - exfalso. unfold modelled in Hmod.
    rewrite (from_json_outside cls raw (world s)) in Hmod; [done|by right].
Qed.

Lemma client_frames_run (cls : Message.defaults) (frames : list string)
  (s : Sys Client.t) :
  defined cls (world s) = true -> forallb modelled frames = true ->
  exists w' : World,
    foldM (fun _ message => Client._process_message cls message) frames tt s
    = (Ok tt, mkSys (self s) w')
    /\ defined cls w' = true
    /\ started w' = started (world s)
    /\ futures w' = futures (world s)
    /\ now w' = now (world s)
    /\ reader w' = reader (world s)
    /\ exists lg, log w' = log (world s) ++ lg /\ rejected lg = frames.
Proof.
  revert s. induction frames as [|raw frames IH]; intros s Hdef Hmod.
  - exists (world s). cbn. rewrite sys_eta. split_and!; try done.
    exists []. by rewrite app_nil_r.
  - cbn [forallb] in Hmod. apply andb_prop in Hmod as [Hraw Hrest].
    cbn [foldM]. rewrite bind_run.
    destruct (client_process_rejects cls raw s Hdef Hraw) as (h & lg & e & -> & Hext & R & _).
    set (w1 := amend _ _ _).
    assert (Hdef1 : defined cls w1 = true).
    { eapply defined_grows; [|exact Hdef]. cbn.
      destruct Hext as [->|[v ->]]; [done|]. rewrite length_app. lia. }
    destruct (IH (mkSys (self s) w1) Hdef1 Hrest)
      as (w' & E & Hdef' & St & Fu & No & Re & lg' & L & R').
    rewrite E. cbn [self world] in *. exists w'. split_and!; try done.
    + rewrite St. cbn. by rewrite app_nil_r.
    + exists ((lg ++ [(ERROR, ErrorProcessing raw e)]) ++ lg'). split.
      * rewrite L. cbn. by rewrite <- !app_assoc.
      * rewrite !rejected_app, R, R'. done.
Qed.

(** X17, client.py, [_message_handler]: the reader task returns
    normally for every sequence of frames and both kinds of closure; it
    logs an error for each frame, in order (the dispatch fails for every
    frame that decodes), starts no handler, resolves no future, leaves
    the Client object as it was, and logs the closure when it is
    unclean. *)
Theorem the_reader_task_logs_an_error_for_every_frame (cls : Message.defaults)
  (frames : list string) (clean : bool) (s : Sys Client.t) :
  defined cls (world s) = true -> forallb modelled frames = true ->
  exists (s' : Sys Client.t) (lg : list (level * record)),
    Client._message_handler cls frames clean s = (Ok tt, s')
    /\ self s' = self s
    /\ started (world s') = started (world s)
    /\ futures (world s') = futures (world s)
    /\ log (world s')
       = log (world s) ++ lg
         ++ (if clean then [] else [(INFO, ConnectionToServerClosed)])
    /\ rejected lg = frames.
Proof.
  intros Hdef Hmod.
  destruct (client_frames_run cls frames s Hdef Hmod)
    as (w' & E & _ & St & Fu & _ & _ & lg & L & R).
  unfold Client._message_handler, try_except. rewrite bind_run, E.
  destruct clean.
  - exists (mkSys (self s) w'), lg. cbn. rewrite app_nil_r. done.
  - cbn [raise]. rewrite in_world_run, logger_run. cbn [fst snd self world].
    eexists _, lg. split; [reflexivity|]. cbn. rewrite app_nil_r, L, <- app_assoc. done.
Qed.

(** The wait of a blocking send, with the futures counted: no frame and
    no closure makes or removes a future. *)
Lemma wait_for_futures (cls : Message.defaults) (fut : nat) (deadline : N)
  (sched : list Client.occurrence) (s : Sys Client.t) :
  futures (world s) !! fut = Some Pending ->
  exists (r : Res Message) (s' : Sys Client.t),
    Client.wait_for cls fut deadline sched s = (r, s')
    /\ evolves s s'
    /\ length (futures (world s')) = length (futures (world s))
    /\ (defined cls (world s) = true -> forallb in_model sched = true ->
        ((deadline <= now (world s) + elapsed sched)%N -> r = Raise TimeoutError)
        /\ ((now (world s) + elapsed sched < deadline)%N -> r = Blocked)).
Proof.
  revert s. induction sched as [|o sched IH]; intros s Hfut;
    rewrite (wait_for_unfold cls fut deadline _ s Hfut);
    destruct (N.leb_spec deadline (now (world s))) as [Hle|Hlt].
  - eexists _, _. split; [reflexivity|]. split.
    { unfold evolves. cbn. split_and!; try done. exists []. by rewrite app_nil_r. }
    cbn. split; [by rewrite length_insert|]. intros _ _. split; [done|lia].
  - eexists _, _. split; [reflexivity|]. split; [apply evolves_refl|].
    split; [done|]. intros _ _. cbn. split; [lia|done].
  - eexists _, _. split; [reflexivity|]. split.
    { unfold evolves. cbn. split_and!; try done. exists []. by rewrite app_nil_r. }
    cbn [world now with_futures futures]. split; [by rewrite length_insert|].
    intros _ _. split; [done|]. destruct o; cbn [elapsed]; lia.
  - destruct (turn_run cls o s) as (r1 & s1 & Hturn & Hr1 & Hev & Hf1 & Hnow & Hws & Hok).
    rewrite Hturn.
    assert (Hel : elapsed (o :: sched) = (elapsed [o] + elapsed sched)%N).
    { destruct o; cbn [elapsed]; lia. }
    destruct Hr1 as [->|[->| ->]].
    + assert (Hfut1 : futures (world s1) !! fut = Some Pending) by (by rewrite Hf1).
      destruct (IH s1 Hfut1) as (r & s' & Hrun & Hev' & Hlen & Hok').
      exists r, s'. split; [exact Hrun|]. split; [by eapply evolves_trans|].
      split; [by rewrite Hlen, Hf1|].
      cbn [forallb]. intros Hdef Hin. apply andb_prop in Hin as [Ho Hin].
      destruct Hev as (_ & _ & Hheap & _).
      destruct (Hok' (defined_grows cls _ _ Hheap Hdef) Hin) as [H1 H2].
      rewrite Hel. split; intros Hd; [apply H1|apply H2]; lia.
    + eexists _, _. split; [reflexivity|]. split; [exact Hev|].
      split; [by rewrite Hf1|].
      cbn [forallb]. intros Hdef Hin. apply andb_prop in Hin as [Ho Hin].
      by specialize (Hok Hdef Ho).
    + eexists _, _. split; [reflexivity|]. split; [exact Hev|].
      split; [by rewrite Hf1|].
      cbn [forallb]. intros Hdef Hin. apply andb_prop in Hin as [Ho Hin].
      by specialize (Hok Hdef Ho).
Qed.

(** X18, client.py, [send_msg] with [blocking=True]: while the send
    waits, the table of slots is the one before the send with the new
    future stored under the id of the message, in the place of any
    future that was there; once the timeout has passed, it is the table
    before the send with that id deleted.  The slots under other ids are
    as before; exactly one future has been made and no handler has
    run. *)
Theorem a_blocking_send_holds_one_slot_under_its_id (cls : Message.defaults)
  (msg : Message) (T : N) (sched : list Client.occurrence) (s : Sys Client.t)
  (k : key) :
  connected s = true ->
  allocated msg (world s) = true ->
  defined cls (world s) = true ->
  hash_key (uuid msg) = Ok k ->
  forallb in_model sched = true ->
  exists s' : Sys Client.t,
    Client.send_msg cls msg true T sched s
    = (if (T <=? elapsed sched)%N then Ok None else Blocked, s')
    /\ Client._response_futures (self s')
       = (if (T <=? elapsed sched)%N
          then delete k (Client._response_futures (self s))
          else <[k := length (futures (world s))]> (Client._response_futures (self s)))
    /\ started (world s') = started (world s)
    /\ length (futures (world s')) = S (length (futures (world s))).
Proof.
  intros Hconn Hal Hdef Hk Hin. unfold connected in Hconn.
  destruct (Client._websocket (self s)) as [ws|] eqn:Hws; [|done].
  destruct (allocated_lookup _ _ Hal) as (d & Hd).
  rewrite (send_msg_blocking_unfold cls msg T sched s ws d k Hws Hconn Hd Hk).
  set (text := json.dumps _). set (s0 := waiting s ws text k).
  destruct (wait_for_futures cls (length (futures (world s))) (now (world s0) + T)%N
              sched s0 (waiting_pending s ws text k))
    as (r & s1 & Hrun & Hev & Hlen & Hok).
  destruct Hev as (Hrf & Hst & Hheap & lg & Hlog).
  unfold try_finally, try_except. rewrite bind_run. unfold gets at 1.
  cbn beta iota. rewrite bind_run, Hrun.
  assert (Hdef0 : defined cls (world s0) = true) by exact Hdef.
  destruct (Hok Hdef0 Hin) as [H1 H2].
  change (now (world s0)) with (now (world s)) in H1, H2.
  assert (Hlen0 : length (futures (world s0)) = S (length (futures (world s)))).
  { cbn. rewrite length_app. cbn. lia. }
  destruct (N.leb_spec T (elapsed sched)) as [Hle|Hlt].
  - rewrite H1 by lia.
    rewrite bind_run, in_world_run, logger_run. cbn [fst snd mret M_ret].
    rewrite bind_run. unfold on_self, modify. cbn [self world].
    eexists. split; [reflexivity|].
    cbn [self world Client.set_futures Client._response_futures].
    rewrite Hrf. cbn [s0 waiting self Client.set_futures Client._response_futures
                      Client.set_websocket].
    rewrite delete_insert_eq. split; [done|]. split.
    + cbn. rewrite app_nil_r, Hst. cbn. by rewrite app_nil_r.
    + cbn. by rewrite Hlen, Hlen0.
  - rewrite H2 by lia. eexists. split; [reflexivity|].
    rewrite Hrf, Hst, Hlen, Hlen0. cbn. by rewrite app_nil_r.
Qed.

(** X19, client.py, [connect], [disconnect], [send_msg]: after a
    disconnect the connection object is still there, closed; a send
    then raises ConnectionClosed (not the AttributeError of a client
    that never connected), makes no future and registers no slot. *)
Theorem after_disconnect_send_msg_raises_connection_closed (cls : Message.defaults)
  (msg : Message) (blocking : bool) (T : N) (sched : list Client.occurrence)
  (s : Sys Client.t) (d : value) :
  heap (world s) !! data msg = Some d ->
  exists s1 s2 : Sys Client.t,
    (_ ← Client.connect; Client.disconnect) s = (Ok tt, s1)
    /\ Client._websocket (self s1)
       = Some {| Client.open := false; Client.outbox := [] |}
    /\ reader (world s1) = false
    /\ log (world s1)
       = log (world s) ++ [(INFO, ConnectedTo (Client._url (self s))); (INFO, Disconnected)]
    /\ Client.send_msg cls msg blocking T sched s1 = (Raise ConnectionClosed, s2)
    /\ self s2 = self s1
    /\ futures (world s2) = futures (world s).
Proof.
  intros Hd.
  destruct ((_ ← Client.connect; Client.disconnect) s) as [r1 s1] eqn:E.
  assert (H : r1 = Ok tt
              /\ self s1 = Client.set_websocket
                             (fun _ => Some {| Client.open := false; Client.outbox := [] |})
                             (self s)
              /\ heap (world s1) = heap (world s)
              /\ futures (world s1) = futures (world s)
              /\ reader (world s1) = false
              /\ log (world s1)
                 = log (world s) ++ [(INFO, ConnectedTo (Client._url (self s)));
                                     (INFO, Disconnected)]).
  { destruct s as [c w]. destruct w. cbn in E. injection E as <- <-. cbn.
    by rewrite <- app_assoc. }
  destruct H as (-> & Hself & Hheap & Hfut & Hreader & Hlog).
  assert (Hd1 : heap (world s1) !! data msg = Some d) by (by rewrite Hheap).
  eexists s1, _. split; [reflexivity|]. split; [by rewrite Hself|].
  split; [exact Hreader|]. split; [exact Hlog|].
  rewrite (client_send_msg_unfold cls msg blocking T sched s1 d Hd1), Hself.
  cbn [self Client._websocket Client.set_websocket].
  rewrite bind_run. unfold Client.send. rewrite bind_run. unfold gets at 1.
  cbn [self Client._websocket Client.set_websocket Client.open].
  split; [reflexivity|]. cbn. by rewrite Hfut.
Qed.

(** ** Frames that [from_json] takes or rejects *)

(** X20, message.py, [from_json]: when [from_json] raises, no object
    has been made; either the exception is the one [json.loads] raised,
    or the text decoded and the constructor refused the value with
    TypeError. *)
Theorem a_rejected_frame_leaves_nothing_behind (cls : Message.defaults) (raw : string)
  (w : World) (e : exn) :
  fst (Message.from_json cls raw w) = Raise e ->
  snd (Message.from_json cls raw w) = w
  /\ (json.loads raw = Raise e
      \/ (exists v, json.loads raw = Ok v) /\ e = TypeError).
Proof.
  intros He. split; [by eapply from_json_raise|].
  revert He. unfold Message.from_json, lift. rewrite bind_run.
  destruct (json.loads raw) as [kw|e'| |] eqn:Hl; try done.
  - intros He. right. split; [by eexists|]. revert He.
    unfold Message.construct. destruct kw as [|b|z|str|l|d]; try by intros [= <-].
    destruct (forallb _ d); [|by intros [= <-]].
    destruct (Message.keyword "code" d) as [c|]; [|by intros [= <-]].
    rewrite bind_run. by destruct (Message.keyword "data" d).
  - cbn. intros [= <-]. by left.
Qed.

Lemma from_json_dumps (cls : Message.defaults) (v : value) (w : World) :
  wf v = true ->
  Message.from_json cls (json.dumps v) w = Message.construct cls v w.
Proof.
  intros Hwf. unfold Message.from_json, lift. rewrite bind_run.
  by rewrite (json_facts.loads_dumps v Hwf).
Qed.

Lemma only_parameters_check (d : list (string * value)) :
  forallb (fun kv => existsb (String.eqb (fst kv)) Message.parameters) d
  = only_parameters d.
Proof.
  unfold only_parameters. apply forallb_pointwise. intros [k v]. cbn [fst].
  destruct (existsb (String.eqb k) Message.parameters) eqn:E; symmetry.
  - apply bool_decide_eq_true. apply existsb_exists in E as (p & Hp & Heq).
    apply String.eqb_eq in Heq as ->. by apply list_elem_of_In.
  - apply bool_decide_eq_false. intros Hin. apply list_elem_of_In in Hin.
    assert (H : existsb (String.eqb k) Message.parameters = true).
    { apply existsb_exists. exists k. split; [done|apply String.eqb_refl]. }
    by rewrite E in H.
Qed.

(** X21, message.py, [from_json] on the JSON text of an object: a key
    other than code, uuid and data, or the absence of code, gives
    TypeError and leaves nothing behind; otherwise a Message is made
    with the code given, the uuid given or else the default of the
    class, and for its data a new object with the value given, or else
    the default dict of the class, without any allocation. *)
Theorem from_json_takes_code_uuid_data_and_needs_code (cls : Message.defaults)
  (d : list (string * value)) (w : World) :
  wf (VDict d) = true ->
  (only_parameters d = false \/ Message.keyword "code" d = None ->
   Message.from_json cls (json.dumps (VDict d)) w = (Raise TypeError, w))
  /\ (forall c,
        only_parameters d = true ->
        Message.keyword "code" d = Some c ->
        exists m w',
          Message.from_json cls (json.dumps (VDict d)) w = (Ok m, w')
          /\ code m = c
          /\ uuid m = default (Message.default_uuid cls) (Message.keyword "uuid" d)
          /\ match Message.keyword "data" d with
             | Some v => data m = length (heap w) /\ heap w' = heap w ++ [v]
             | None => data m = Message.default_data cls /\ w' = w
             end).
Proof.
  intros Hwf. rewrite (from_json_dumps cls (VDict d) w Hwf). unfold Message.construct.
  rewrite only_parameters_check. split.
  - intros [->| ->]; [done|]. by destruct (only_parameters d).
  - intros c -> ->. rewrite bind_run.
    destruct (Message.keyword "data" d) as [v|].
    + eexists _, _. split; [reflexivity|]. done.
    + eexists _, _. split; [reflexivity|]. done.
Qed.

(** X22, message.py, [from_json] and the default of [data]: the
    Message made from a frame without data refers to the one default
    dict of the class, so that an item stored through it is seen by
    every Message constructed later without data. *)
Theorem a_frame_without_data_reaches_the_shared_default (cls : Message.defaults)
  (d : list (string * value)) (c : value) (d0 : list (string * value))
  (k : string) (v : value) (c2 : value) (w : World) :
  wf (VDict d) = true ->
  only_parameters d = true ->
  Message.keyword "code" d = Some c ->
  Message.keyword "data" d = None ->
  heap w !! Message.default_data cls = Some (VDict d0) ->
  exists (m : Message) (w2 : World),
    Message.from_json cls (json.dumps (VDict d)) w = (Ok m, w)
    /\ data m = data (Message.__init__ cls c2 None None)
    /\ setitem (data m) k v w = (Ok tt, w2)
    /\ deref (data (Message.__init__ cls c2 None None)) w2
       = (Ok (VDict (dict_set d0 k v)), w2).
Proof.
  intros Hwf Hk Hc Hdata Hheap. rewrite (from_json_dumps cls (VDict d) w Hwf).
  unfold Message.construct.
  rewrite only_parameters_check, Hk, Hc, bind_run, Hdata. cbn [mret M_ret].
  eexists _, _. split; [reflexivity|]. split; [reflexivity|].
  cbn [data Message.__init__ default]. unfold setitem, deref. rewrite Hheap.
  split; [reflexivity|]. cbn [heap with_heap].
  rewrite list_lookup_insert_eq; [done|]. by apply lookup_lt_Some in Hheap.
Qed.

(** ** Loggers *)

Lemma setup_logger_run (name : string) (lv : Z) (r : logging.Registry) :
  fresh r ->
  exists r' : logging.Registry,
    utils.setup_logger name lv r = (Ok (name, logging.made r), r')
    /\ logging.loggerDict r' !! name
       = Some {| logging.level := lv;
                 logging.handlers := handlers_of name r ++ [logging.made r] |}
    /\ (forall other, other <> name ->
                      logging.loggerDict r' !! other = logging.loggerDict r !! other)
    /\ logging.made r' = S (logging.made r)
    /\ fresh r'.
Proof.
  intros Hf. unfold utils.setup_logger.
  rewrite bind_run. cbn [logging.StreamHandler].
  rewrite bind_run. unfold logging.getLogger at 1. cbn [logging.loggerDict logging.made].
  set (l0 := {| logging.level := 0; logging.handlers := [] |}).
  set (hs := handlers_of name r).
  assert (Hnew : logging.made r ∉ hs).
  { unfold hs, handlers_of. destruct (logging.loggerDict r !! name) as [l|] eqn:E.
    - intros Hin. specialize (Hf name l E). cbn in Hf.
      rewrite Forall_forall in Hf. specialize (Hf _ Hin). lia.
    - apply not_elem_of_nil. }
  assert (Hfresh : forall d : gmap string logging.Logger,
             (forall other, other <> name -> d !! other = logging.loggerDict r !! other) ->
             d !! name = Some {| logging.level := lv;
                                 logging.handlers := hs ++ [logging.made r] |} ->
             fresh (logging.mkRegistry d (S (logging.made r)))).
  { intros d Hother Hname n l Hl. change (d !! n = Some l) in Hl.
    cbn [logging.made].
    destruct (decide (n = name)) as [->|Hne].
    - rewrite Hname in Hl. injection Hl as <-. cbn. apply Forall_app. split.
      + unfold hs, handlers_of. destruct (logging.loggerDict r !! name) as [l'|] eqn:E;
          [|done]. specialize (Hf name l' E). cbn in Hf.
        eapply Forall_impl; [exact Hf|]. cbn. lia.
      + apply Forall_singleton. lia.
    - rewrite (Hother n Hne) in Hl. specialize (Hf n l Hl). cbn in Hf.
      eapply Forall_impl; [exact Hf|]. cbn. lia. }
  unfold hs, handlers_of in *.
  destruct (logging.loggerDict r !! name) as [l|] eqn:E.
  - rewrite bind_run. unfold logging.setLevel, logging.update at 1.
    cbn [logging.loggerDict logging.made]. rewrite E.
    rewrite bind_run. unfold logging.addHandler, logging.update.
    cbn [logging.loggerDict logging.made logging.level logging.handlers].
    rewrite lookup_insert_eq. cbn [logging.level logging.handlers].
    rewrite bool_decide_eq_false_2 by exact Hnew.
    eexists. split; [reflexivity|]. cbn [logging.loggerDict logging.made].
    rewrite insert_insert_eq.
    split_and!; [by rewrite lookup_insert_eq| |done|].
    + intros other Hne. by rewrite lookup_insert_ne.
    + apply Hfresh; [|by rewrite lookup_insert_eq].
      intros other Hne. by rewrite lookup_insert_ne.
  - rewrite bind_run. unfold logging.setLevel, logging.update at 1.
    cbn [logging.loggerDict logging.made]. rewrite lookup_insert_eq.
    rewrite bind_run. unfold logging.addHandler, logging.update.
    cbn [logging.loggerDict logging.made logging.level logging.handlers].
    rewrite lookup_insert_eq. cbn [logging.level logging.handlers l0].
    rewrite bool_decide_eq_false_2 by exact Hnew.
    eexists. split; [reflexivity|]. cbn [logging.loggerDict logging.made].
    rewrite !insert_insert_eq.
    split_and!; [by rewrite lookup_insert_eq| |done|].
    + intros other Hne. by rewrite lookup_insert_ne.
    + apply Hfresh; [|by rewrite lookup_insert_eq].
      intros other Hne. by rewrite lookup_insert_ne.
Qed.

Lemma last_cons_default {A} (x d : A) (l : list A) :
  List.last (x :: l) d = List.last l x.
Proof.
  revert x d. induction l as [|y l IH]; intros x d; [done|].
  change (List.last (x :: y :: l) d) with (List.last (y :: l) d).
  by rewrite !IH.
Qed.

Lemma construct_clients_run (cs : list (string * Z)) (acc : list Client.t)
  (r : logging.Registry) (l : logging.Logger) :
  fresh r ->
  logging.loggerDict r !! "Client"%string = Some l ->
  exists r' : logging.Registry,
    foldM (fun acc c => x ← Client_construct (fst c) (snd c); mret (acc ++ [x])) cs acc r
    = (Ok (acc ++ map (fun c => Client.__init__ (fst c)) cs), r')
    /\ logging.loggerDict r' !! "Client"%string
       = Some {| logging.level := List.last (map snd cs) (logging.level l);
                 logging.handlers
                 := logging.handlers l ++ seq (logging.made r) (length cs) |}.
Proof.
  revert acc r l. induction cs as [|[url lv] cs IH]; intros acc r l Hf Hl.
  - exists r. cbn. rewrite !app_nil_r. split; [done|]. rewrite Hl. by destruct l.
  - cbn [foldM fst snd]. rewrite bind_run. unfold Client_construct at 1.
    rewrite !bind_run.
    destruct (setup_logger_run "Client" lv r Hf) as (r1 & -> & Hl1 & _ & Hmade & Hf1).
    cbn [mret M_ret].
    destruct (IH (acc ++ [Client.__init__ url]) r1 _ Hf1 Hl1) as (r' & -> & Hl').
    exists r'. split.
    + cbn [map fst]. by rewrite <- app_assoc.
    + rewrite Hl'. cbn [logging.level logging.handlers]. unfold handlers_of.
      rewrite Hl, Hmade. cbn [length seq map snd]. rewrite <- app_assoc. cbn [app].
      f_equal. f_equal. symmetry. apply last_cons_default.
Qed.

(** X23, utils.py, [setup_logger], as [Client.__init__] calls it: all
    the clients of a process share the logger named "Client"; each
    construction adds one more stream handler to it and sets its level,
    so that after n constructions a record that is enabled is written n
    times more than before, and what is enabled is decided by the level
    of the last client made. *)
Theorem every_client_adds_a_handler_to_the_one_logger (cs : list (string * Z))
  (url : string) (lv : Z) (r : logging.Registry) :
  fresh r ->
  exists r' : logging.Registry,
    construct_clients (cs ++ [(url, lv)]) r
    = (Ok (map (fun c => Client.__init__ (fst c)) (cs ++ [(url, lv)])), r')
    /\ handlers_of "Client" r'
       = handlers_of "Client" r ++ seq (logging.made r) (S (length cs))
    /\ (forall x : Z,
          logging.lines "Client" x r'
          = if logging.isEnabledFor {| logging.level := lv; logging.handlers := [] |} x
            then (length (handlers_of "Client" r) + S (length cs))%nat
            else 0%nat).
Proof.
  intros Hf. unfold construct_clients.
  destruct cs as [|[url0 lv0] cs].
  - cbn [app foldM fst snd]. rewrite bind_run. unfold Client_construct. rewrite !bind_run.
    destruct (setup_logger_run "Client" lv r Hf) as (r1 & -> & Hl1 & _ & Hmade & Hf1).
    exists r1. split; [reflexivity|]. unfold handlers_of at 1, logging.lines.
    rewrite Hl1. cbn [logging.handlers logging.level length seq].
    split; [done|]. intros x. unfold logging.isEnabledFor, logging.getEffectiveLevel.
    cbn [logging.level]. rewrite length_app. cbn [length logging.handlers]. done.
  - cbn [app foldM fst snd]. rewrite bind_run. unfold Client_construct at 1.
    rewrite !bind_run.
    destruct (setup_logger_run "Client" lv0 r Hf) as (r1 & -> & Hl1 & _ & Hmade & Hf1).
    cbn [mret M_ret].
    destruct (construct_clients_run (cs ++ [(url, lv)]) [Client.__init__ url0] r1 _ Hf1 Hl1)
      as (r' & -> & Hl').
    exists r'. split; [reflexivity|]. unfold handlers_of at 1, logging.lines.
    rewrite Hl'. cbn [logging.handlers logging.level].
    rewrite map_app. cbn [map snd]. rewrite last_last, Hmade, length_app. cbn [length].
    split.
    + rewrite <- app_assoc. cbn [app]. f_equal.
      replace (length cs + 1)%nat with (S (length cs)) by lia. reflexivity.
    + intros x. unfold logging.isEnabledFor, logging.getEffectiveLevel.
      cbn [logging.level logging.handlers].
      rewrite !length_app, length_seq. cbn [length].
      destruct (x <=? 0)%Z; [done|]. destruct (_ <=? x)%Z; [lia|done].
Qed.


(** ** The properties at concrete inputs *)

(** X1 at a concrete input. *)
Lemma X1_witness :
  exists (s' : Sys Server.t) (lg : list (level * record)),
    Server._process_message cls0 7 "oops" server1 = (Ok tt, s')
    /\ self s' = self server1
    /\ log (world s') = log (world server1) ++ (DEBUG, Processing "oops") :: lg
    /\ processed lg = []
    /\ (forall e,
          fst (Message.from_json cls0 "oops" (world server1)) = Raise e ->
          lg = [(ERROR, ErrorProcessing "oops" e)]
          /\ started (world s') = started (world server1)
          /\ heap (world s') = heap (world server1)).
Proof.
  apply (the_server_survives_every_frame cls0 7 "oops" server1); vm_compute; reflexivity.
Defined.

(** X2 at a concrete input. *)
Lemma X2_witness :
  exists (s' : Sys Server.t) (lg : list (level * record)),
    Server._handle_connection cls0 7 "/room" [ping_text; "oops"%string] false server1
    = (Raise ConnectionClosed, s')
    /\ Server._connections (self s')
       = delete (KStr (Server.tail "/room")) (Server._connections (self server1))
    /\ Server._registed_callbacks (self s') = Server._registed_callbacks (self server1)
    /\ log (world s')
       = log (world server1) ++ (INFO, GotNewConnection "/room") :: lg
         ++ [(INFO, ConnectionDisconnected "/room")]
    /\ processed lg = [ping_text; "oops"%string].
Proof.
  apply (handle_connection_serves_every_frame_and_unregisters cls0 7 "/room"
           [ping_text; "oops"%string] false server1); vm_compute; reflexivity.
Defined.

(** X3 at a concrete input. *)
Lemma X3_witness :
  exists s1 s2 s3 s4 : Sys Server.t,
    _handle_connection_enter 7 "/room" server1 = (Ok tt, s1)
    /\ Server._connections (self s1) !! KStr (Server.tail "/room") = Some 7%nat
    /\ _handle_connection_enter 8 "/room" s1 = (Ok tt, s2)
    /\ Server._connections (self s2) !! KStr (Server.tail "/room") = Some 8%nat
    /\ Server._handle_connection cls0 8 "/room" ["oops"%string] true s1 = (Ok tt, s3)
    /\ Server._connections (self s3) !! KStr (Server.tail "/room") = None
    /\ try_finally (_handle_connection_body cls0 7 [ping_text] true)
                   (_handle_connection_finally "/room") s3
       = (Raise KeyError, s4)
    /\ processed (log (world s4))
       = processed (log (world server1)) ++ ["oops"%string] ++ [ping_text].
Proof.
  apply (a_second_connection_on_a_path_takes_the_registration cls0 7 8 "/room"
           [ping_text] ["oops"%string] true true server1); vm_compute; reflexivity.
Defined.

(** X4 at a concrete input. *)
Lemma X4_witness :
  exists s1 : Sys Server.t,
    register_all [(VStr "PING", returning "a"); (VStr "ALL", returning "c")] server1
    = (Ok tt, s1)
    /\ world s1 = world server1
    /\ Server._connections (self s1) = Server._connections (self server1)
    /\ (forall k, handlers (Server._registed_callbacks (self s1)) k
                  = handlers (Server._registed_callbacks (self server1)) k
                    ++ registered_for k
                         [(VStr "PING", returning "a"); (VStr "ALL", returning "c")])
    /\ (forall (c : value) (f : Callable),
          hashable c = false ->
          register_all
            ([(VStr "PING", returning "a"); (VStr "ALL", returning "c")]
             ++ (c, f) :: [(VStr "PING", returning "z")]) server1
          = (Raise TypeError, s1)).
Proof.
  apply (registrations_accumulate_in_order
           [(VStr "PING", returning "a"); (VStr "ALL", returning "c")]
           [(VStr "PING", returning "z")] server1).
  vm_compute. reflexivity.
Defined.



(** X7 at a concrete input. *)
Lemma X7_witness :
  exists n' : Hub.t,
    Hub.send_msg ping VNone hub1
    = (if forallb (reachable (Hub.sockets hub1)) (Hub.values (self (Hub.server hub1)))
       then Ok tt else Raise ConnectionClosed, n')
    /\ self (Hub.server n') = self (Hub.server hub1)
    /\ log (world (Hub.server n'))
       = log (world (Hub.server hub1)) ++ [(DEBUG, Sending (wire ping ping_data))]
    /\ Hub.warnings n' = Hub.warnings hub1
    /\ (forall ws c,
          Hub.sockets hub1 !! ws = Some c ->
          Hub.sockets n' !! ws
          = Some (delivered (registrations (self (Hub.server hub1)) ws)
                    (wire ping ping_data) c))
    /\ (forall ws, Hub.sockets hub1 !! ws = None -> Hub.sockets n' !! ws = None).
Proof.
  apply (broadcast_reaches_each_registered_connection ping ping_data hub1);
    vm_compute; reflexivity.
Defined.

(** X8 at a concrete input. *)
Lemma X8_witness :
  exists n' : Hub.t,
    Hub.send_msg ping (VStr "/room") hub1 = (Ok tt, n')
    /\ Hub.sockets n' = Hub.sockets hub1
    /\ self (Hub.server n') = self (Hub.server hub1)
    /\ Hub.warnings n' = Hub.warnings hub1 ++ [Hub.NonExistentPath (VStr "/room")]
    /\ log (world (Hub.server n'))
       = log (world (Hub.server hub1)) ++ [(DEBUG, Sending (wire ping ping_data))].
Proof.
  apply (send_msg_to_an_unknown_path_only_warns ping (VStr "/room") (KStr "/room")
           ping_data hub1);
    [vm_compute; reflexivity|discriminate|vm_compute; reflexivity..].
Defined.

(** X9 at a concrete input. *)
Lemma X9_witness :
  exists n' : Hub.t,
    Hub.send_msg ping (VStr "room") hub1
    = (if Client.open sock_open then Ok tt else Raise ConnectionClosed, n')
    /\ Hub.sockets n' !! 7%nat = Some (delivered 1 (wire ping ping_data) sock_open)
    /\ (forall ws', ws' <> 7%nat -> Hub.sockets n' !! ws' = Hub.sockets hub1 !! ws')
    /\ self (Hub.server n') = self (Hub.server hub1)
    /\ Hub.warnings n' = Hub.warnings hub1.
Proof.
  apply (send_msg_to_a_path_reaches_that_connection_only ping (VStr "room") (KStr "room")
           ping_data 7 sock_open hub1);
    [vm_compute; reflexivity|discriminate|vm_compute; reflexivity..].
Defined.

(** X10 at a concrete input. *)
Lemma X10_witness :
  exists n1 n2 n3 : Hub.t,
    Hub.in_server (_handle_connection_enter 9 "/room") hub0 = (Ok tt, n1)
    /\ Hub.send_msg ping (VStr "/room") n1 = (Ok tt, n2)
    /\ Hub.sockets n2 = Hub.sockets hub0
    /\ Hub.warnings n2 = Hub.warnings hub0 ++ [Hub.NonExistentPath (VStr "/room")]
    /\ Hub.send_msg ping (VStr (Server.tail "/room")) n1 = (Ok tt, n3)
    /\ Hub.sockets n3 !! 9%nat
       = Some {| Client.open := true;
                 Client.outbox := Client.outbox sock_open ++ [wire ping ping_data] |}
    /\ Hub.warnings n3 = Hub.warnings hub0.
Proof.
  apply (a_connection_is_addressed_by_its_path_without_the_slash ping "/room" ping_data
           9 sock_open hub0);
    [vm_compute; reflexivity|discriminate|vm_compute; reflexivity..].
Defined.

(** X11 at a concrete input. *)
Lemma X11_witness :
  exists (n2 n3 : Hub.t) (r : Res unit) (times : nat),
    Hub.in_server (_ ← _handle_connection_enter 9 "/room";
                   _handle_connection_enter 7 "/room") hub0 = (Ok tt, n2)
    /\ Hub.send_msg ping VNone n2 = (r, n3)
    /\ Hub.sockets n3 !! 9%nat = Hub.sockets hub0 !! 9%nat
    /\ Hub.sockets n3 !! 7%nat
       = delivered times (wire ping ping_data) <$> Hub.sockets hub0 !! 7%nat
    /\ (1 <= times)%nat.
Proof.
  apply (a_broadcast_misses_the_first_of_two_connections_on_a_path ping ping_data 9 7
           "/room" hub0);
    [vm_compute; reflexivity|lia|vm_compute; reflexivity..].
Defined.

(** X12 at a concrete input. *)
Lemma X12_witness :
  exists (n' : Hub.t) (text : string) (m' : Message) (w' : World),
    handle_ping cls0 ping 7 hub1 = (Ok tt, n')
    /\ Hub.sockets n' !! 7%nat
       = Some {| Client.open := true;
                 Client.outbox := Client.outbox sock_open ++ [text] |}
    /\ Message.from_json cls0 text world2 = (Ok m', w')
    /\ uuid m' = VStr "PONG"
    /\ code m' = uuid ping
    /\ heap w' !! data m' = Some (VDict [("data"%string, VStr "Hello from server!")]).
Proof.
  apply (the_example_reply_swaps_code_and_id cls0 cls0 ping 7 sock_open hub1 world2);
    vm_compute; reflexivity.
Defined.

(** X13 at a concrete input. *)
Lemma X13_witness :
  Client.send_msg cls0 ping true 30 [] client0
  = (Raise (AttributeError "send"),
     mkSys (self client0)
           (amend (world client0) []
              [(CRITICAL, NotConnected); (DEBUG, Sending (wire ping ping_data))])).
Proof.
  apply (send_msg_before_connect_raises_attribute_error cls0 ping true 30 [] client0
           ping_data); vm_compute; reflexivity.
Defined.

(** X14 at a concrete input. *)
Lemma X14_witness :
  Client.send_msg cls0 ping true 30 [] client_closed
  = (Raise ConnectionClosed,
     mkSys (self client_closed)
           (amend (world client_closed) [] [(DEBUG, Sending (wire ping ping_data))])).
Proof.
  apply (send_msg_on_a_closed_connection_registers_nothing cls0 ping true 30 []
           client_closed ping_data sock_closed); vm_compute; reflexivity.
Defined.

(** X15 at a concrete input. *)
Lemma X15_witness :
  exists s' : Sys Client.t,
    Client.send_msg cls0 ping false 30 [] client1 = (Ok None, s')
    /\ Client._websocket (self s')
       = Some {| Client.open := true;
                 Client.outbox := Client.outbox sock_open ++ [wire ping ping_data] |}
    /\ Client._response_futures (self s') = Client._response_futures (self client1)
    /\ Client._registed_callbacks (self s') = Client._registed_callbacks (self client1)
    /\ futures (world s') = futures (world client1)
    /\ now (world s') = now (world client1)
    /\ log (world s') = log (world client1) ++ [(DEBUG, Sending (wire ping ping_data))].
Proof.
  apply (a_non_blocking_send_puts_one_frame_on_the_wire cls0 ping 30 [] client1 ping_data
           sock_open); vm_compute; reflexivity.
Defined.

(** X16 at a concrete input. *)
Lemma X16_witness :
  exists s' : Sys Client.t,
    Client.send_msg cls0 bad_id true 30 [] client1 = (Raise TypeError, s')
    /\ Client._websocket (self s')
       = Some {| Client.open := true;
                 Client.outbox := Client.outbox sock_open ++ [wire bad_id ping_data] |}
    /\ Client._response_futures (self s') = Client._response_futures (self client1)
    /\ futures (world s') = futures (world client1) ++ [Pending].
Proof.
  apply (a_blocking_send_with_an_unhashable_id_fails_after_sending cls0 bad_id 30 []
           client1 ping_data sock_open); vm_compute; reflexivity.
Defined.

(** X17 at a concrete input. *)
Lemma X17_witness :
  exists (s' : Sys Client.t) (lg : list (level * record)),
    Client._message_handler cls0 [pong_text; "oops"%string] false client1 = (Ok tt, s')
    /\ self s' = self client1
    /\ started (world s') = started (world client1)
    /\ futures (world s') = futures (world client1)
    /\ log (world s')
       = log (world client1) ++ lg
         ++ (if false then [] else [(INFO, ConnectionToServerClosed)])
    /\ rejected lg = [pong_text; "oops"%string].
Proof.
  apply (the_reader_task_logs_an_error_for_every_frame cls0 [pong_text; "oops"%string]
           false client1); vm_compute; reflexivity.
Defined.

(** X18 at a concrete input. *)
Lemma X18_witness :
  exists s' : Sys Client.t,
    Client.send_msg cls0 ping true 30 [Client.Elapse 10; Client.Elapse 20] client1
    = (if (30 <=? elapsed [Client.Elapse 10; Client.Elapse 20])%N
       then Ok None else Blocked, s')
    /\ Client._response_futures (self s')
       = (if (30 <=? elapsed [Client.Elapse 10; Client.Elapse 20])%N
          then delete (KInt 1) (Client._response_futures (self client1))
          else <[KInt 1 := length (futures (world client1))]>
                 (Client._response_futures (self client1)))
    /\ started (world s') = started (world client1)
    /\ length (futures (world s')) = S (length (futures (world client1))).
Proof.
  apply (a_blocking_send_holds_one_slot_under_its_id cls0 ping 30
           [Client.Elapse 10; Client.Elapse 20] client1 (KInt 1)); vm_compute; reflexivity.
Defined.

(** X19 at a concrete input. *)
Lemma X19_witness :
  exists s1 s2 : Sys Client.t,
    (_ ← Client.connect; Client.disconnect) client0 = (Ok tt, s1)
    /\ Client._websocket (self s1)
       = Some {| Client.open := false; Client.outbox := [] |}
    /\ reader (world s1) = false
    /\ log (world s1)
       = log (world client0)
         ++ [(INFO, ConnectedTo (Client._url (self client0))); (INFO, Disconnected)]
    /\ Client.send_msg cls0 ping true 30 [] s1 = (Raise ConnectionClosed, s2)
    /\ self s2 = self s1
    /\ futures (world s2) = futures (world client0).
Proof.
  apply (after_disconnect_send_msg_raises_connection_closed cls0 ping true 30 [] client0
           ping_data); vm_compute; reflexivity.
Defined.

(** X20 at a concrete input. *)
Lemma X20_witness :
  snd (Message.from_json cls0 "oops" world2) = world2
  /\ (json.loads "oops" = Raise JSONDecodeError
      \/ (exists v, json.loads "oops" = Ok v) /\ JSONDecodeError = TypeError).
Proof.
  apply (a_rejected_frame_leaves_nothing_behind cls0 "oops" world2 JSONDecodeError).
  vm_compute. reflexivity.
Defined.

(** X21 at a concrete input. *)
Lemma X21_witness :
  (only_parameters [("code"%string, VStr "A"); ("uuid"%string, VInt 5)] = false
   \/ Message.keyword "code" [("code"%string, VStr "A"); ("uuid"%string, VInt 5)] = None ->
   Message.from_json cls0
     (json.dumps (VDict [("code"%string, VStr "A"); ("uuid"%string, VInt 5)])) world2
   = (Raise TypeError, world2))
  /\ (forall c,
        only_parameters [("code"%string, VStr "A"); ("uuid"%string, VInt 5)] = true ->
        Message.keyword "code" [("code"%string, VStr "A"); ("uuid"%string, VInt 5)]
        = Some c ->
        exists m w',
          Message.from_json cls0
            (json.dumps (VDict [("code"%string, VStr "A"); ("uuid"%string, VInt 5)]))
            world2 = (Ok m, w')
          /\ code m = c
          /\ uuid m = default (Message.default_uuid cls0)
                        (Message.keyword "uuid"
                           [("code"%string, VStr "A"); ("uuid"%string, VInt 5)])
          /\ match Message.keyword "data"
                     [("code"%string, VStr "A"); ("uuid"%string, VInt 5)] with
             | Some v => data m = length (heap world2) /\ heap w' = heap world2 ++ [v]
             | None => data m = Message.default_data cls0 /\ w' = world2
             end).
Proof.
  apply (from_json_takes_code_uuid_data_and_needs_code cls0
           [("code"%string, VStr "A"); ("uuid"%string, VInt 5)] world2).
  vm_compute. reflexivity.
Defined.

(** X22 at a concrete input. *)
Lemma X22_witness :
  exists (m : Message) (w2 : World),
    Message.from_json cls0 (json.dumps (VDict [("code"%string, VStr "A")])) world2
    = (Ok m, world2)
    /\ data m = data (Message.__init__ cls0 (VStr "B") None None)
    /\ setitem (data m) "k" (VInt 1) world2 = (Ok tt, w2)
    /\ deref (data (Message.__init__ cls0 (VStr "B") None None)) w2
       = (Ok (VDict (dict_set [] "k" (VInt 1))), w2).
Proof.
  apply (a_frame_without_data_reaches_the_shared_default cls0
           [("code"%string, VStr "A")] (VStr "A") [] "k" (VInt 1) (VStr "B") world2);
    vm_compute; reflexivity.
Defined.

(** X23 at a concrete input. *)
Lemma X23_witness :
  exists r' : logging.Registry,
    construct_clients ([("ws://a"%string, 20)] ++ [("ws://b"%string, 10)]) registry0
    = (Ok (map (fun c => Client.__init__ (fst c))
             ([("ws://a"%string, 20)] ++ [("ws://b"%string, 10)])), r')
    /\ handlers_of "Client" r'
       = handlers_of "Client" registry0
         ++ seq (logging.made registry0) (S (length [("ws://a"%string, 20)]))
    /\ (forall x : Z,
          logging.lines "Client" x r'
          = if logging.isEnabledFor {| logging.level := 10; logging.handlers := [] |} x
            then (length (handlers_of "Client" registry0)
                  + S (length [("ws://a"%string, 20)]))%nat
            else 0%nat).
Proof.
  apply (every_client_adds_a_handler_to_the_one_logger [("ws://a"%string, 20)]
           "ws://b" 10 registry0).
  vm_compute. intros i x H. discriminate H.
Defined.
